(** * JsonEditorProvider: the session controller of the JSON custom editor

    A shallow embedding of [src/jsonEditorProvider.ts].  The provider keeps a
    text document and a webview in step: document changes are forwarded to the
    webview, webview submissions are parsed, pretty-printed and written back.

    The file has three parts:
    - JavaScript strings and the two ECMAScript built-ins the provider calls,
      [JSON.parse] and [JSON.stringify] (ECMA-262, clause 25.5);
    - the provider itself: its closure variables, the host objects it talks
      to, and one definition per callback of [resolveCustomTextEditor];
    - the properties of the controller. *)

From Stdlib Require Import String Ascii Bool Arith NArith ZArith Lia List.
Import ListNotations.

Set Warnings "-register-all".

(** ** JavaScript strings

    A JavaScript string is a sequence of 16-bit code units.  Code units are
    kept as [N]; nothing below depends on the bound [< 65536]. *)

Definition jsstring := list N.

Definition js (s : string) : jsstring :=
  map N_of_ascii (list_ascii_of_string s).

(** [jsq] reads an apostrophe as a double quote, so that JSON texts can be
    written down legibly: [jsq "{'a':1}"] is the text [{"a":1}]. *)
Definition jsq (s : string) : jsstring :=
  map (fun c => if N.eqb c 39 then 34%N else c) (js s).

Fixpoint jsstring_eqb (a b : jsstring) : bool :=
  match a, b with
  | [], [] => true
  | x :: a', y :: b' => N.eqb x y && jsstring_eqb a' b'
  | _, _ => false
  end.

Module JS.
Local Open Scope N_scope.

(** WhiteSpace and LineTerminator code points, as stripped by
    [String.prototype.trim]. *)
Definition is_js_space (c : N) : bool :=
  ((9 <=? c) && (c <=? 13)) || (c =? 32) || (c =? 160) || (c =? 5760)
  || ((8192 <=? c) && (c <=? 8202)) || (c =? 8232) || (c =? 8233)
  || (c =? 8239) || (c =? 8287) || (c =? 12288) || (c =? 65279).

Fixpoint trimStart (s : jsstring) : jsstring :=
  match s with
  | [] => []
  | c :: r => if is_js_space c then trimStart r else s
  end.

Definition trimEnd (s : jsstring) : jsstring := rev (trimStart (rev s)).

Definition trim (s : jsstring) : jsstring := trimEnd (trimStart s).

(** *** Lexical classes of the JSON grammar *)

Definition is_json_ws (c : N) : bool :=
  (c =? 32) || (c =? 9) || (c =? 10) || (c =? 13).

Definition is_digit (c : N) : bool := (48 <=? c) && (c <=? 57).

Fixpoint skip_ws (s : jsstring) : jsstring :=
  match s with
  | [] => []
  | c :: r => if is_json_ws c then skip_ws r else s
  end.

Fixpoint span_digits (s : jsstring) : jsstring * jsstring :=
  match s with
  | [] => ([], [])
  | c :: r =>
      if is_digit c then let (ds, r') := span_digits r in (c :: ds, r')
      else ([], s)
  end.

Definition digits_value (ds : jsstring) : N :=
  fold_left (fun a c => 10 * a + (c - 48)) ds 0.

(** *** Hexadecimal escapes *)

Definition hex_val (c : N) : option N :=
  if is_digit c then Some (c - 48)
  else if (97 <=? c) && (c <=? 102) then Some (c - 87)
  else if (65 <=? c) && (c <=? 70) then Some (c - 55)
  else None.

Definition hex4 (a b c d : N) : option N :=
  match hex_val a, hex_val b, hex_val c, hex_val d with
  | Some x, Some y, Some z, Some w => Some (((x * 16 + y) * 16 + z) * 16 + w)
  | _, _, _, _ => None
  end.

Definition hex_digit (v : N) : N := if v <? 10 then 48 + v else 87 + v.

(** UnicodeEscape: a backslash, [u], and four lowercase hexadecimal digits. *)
Definition unicode_escape (c : N) : jsstring :=
  [92; 117; hex_digit (c / 4096); hex_digit ((c / 256) mod 16);
   hex_digit ((c / 16) mod 16); hex_digit (c mod 16)].

Definition is_lead (c : N) : bool := (55296 <=? c) && (c <=? 56319).
Definition is_trail (c : N) : bool := (56320 <=? c) && (c <=? 57343).

(** One code unit of QuoteJSONString that is not the first half of a
    well-formed surrogate pair. *)
Definition quote_unit (c : N) : jsstring :=
  if c =? 8 then [92; 98]
  else if c =? 9 then [92; 116]
  else if c =? 10 then [92; 110]
  else if c =? 12 then [92; 102]
  else if c =? 13 then [92; 114]
  else if c =? 34 then [92; 34]
  else if c =? 92 then [92; 92]
  else if (c <? 32) || is_lead c || is_trail c then unicode_escape c
  else [c].

Fixpoint quote_chars (s : jsstring) : jsstring :=
  match s with
  | [] => []
  | c :: r =>
      if is_lead c then
        match r with
        | d :: r' =>
            if is_trail d then c :: d :: quote_chars r'
            else unicode_escape c ++ quote_chars r
        | [] => unicode_escape c
        end
      else quote_unit c ++ quote_chars r
  end.

(** QuoteJSONString (ECMA-262 25.5.2.3). *)
Definition QuoteJSONString (s : jsstring) : jsstring :=
  34 :: quote_chars s ++ [34].

(** The characters of a JSON string literal after its opening quote, up to
    and including the closing quote. *)
Fixpoint parse_chars (s : jsstring) : option (jsstring * jsstring) :=
  match s with
  | [] => None
  | c :: r =>
      if c =? 34 then Some ([], r)
      else if c =? 92 then
        match r with
        | [] => None
        | e :: r1 =>
            let simple (u : N) :=
              match parse_chars r1 with
              | Some (t, r2) => Some (u :: t, r2)
              | None => None
              end in
            if e =? 34 then simple 34
            else if e =? 92 then simple 92
            else if e =? 47 then simple 47
            else if e =? 98 then simple 8
            else if e =? 102 then simple 12
            else if e =? 110 then simple 10
            else if e =? 114 then simple 13
            else if e =? 116 then simple 9
            else if e =? 117 then
              match r1 with
              | h1 :: h2 :: h3 :: h4 :: r2 =>
                  match hex4 h1 h2 h3 h4 with
                  | Some u =>
                      match parse_chars r2 with
                      | Some (t, r3) => Some (u :: t, r3)
                      | None => None
                      end
                  | None => None
                  end
              | _ => None
              end
            else None
        end
      else if c <? 32 then None
      else
        match parse_chars r with
        | Some (t, r1) => Some (c :: t, r1)
        | None => None
        end
  end.

(** *** Number literals

    [scan_number] splits off the longest prefix derived from the JSON number
    grammar: an optional minus, an integer part without superfluous leading
    zero, an optional fraction, an optional exponent. *)

Definition scan_int (s : jsstring) : option (jsstring * jsstring) :=
  match s with
  | [] => None
  | c :: r =>
      if c =? 48 then Some ([48], r)
      else if is_digit c then let (ds, r') := span_digits r in Some (c :: ds, r')
      else None
  end.

Definition scan_frac (s : jsstring) : option (jsstring * jsstring) :=
  match s with
  | c :: r =>
      if c =? 46 then
        match span_digits r with
        | ([], _) => None
        | (ds, r') => Some (46 :: ds, r')
        end
      else Some ([], s)
  | [] => Some ([], [])
  end.

Definition scan_exp (s : jsstring) : option (jsstring * jsstring) :=
  match s with
  | c :: r =>
      if (c =? 101) || (c =? 69) then
        let (sg, r1) :=
          match r with
          | x :: r0 => if (x =? 43) || (x =? 45) then ([x], r0) else ([], r)
          | [] => ([], r)
          end in
        match span_digits r1 with
        | ([], _) => None
        | (ds, r2) => Some (c :: sg ++ ds, r2)
        end
      else Some ([], s)
  | [] => Some ([], [])
  end.

Definition scan_number (s : jsstring) : option (jsstring * jsstring) :=
  let (sg, s1) :=
    match s with
    | c :: r => if c =? 45 then ([45], r) else ([], s)
    | [] => ([], s)
    end in
  match scan_int s1 with
  | None => None
  | Some (i, s2) =>
      match scan_frac s2 with
      | None => None
      | Some (f, s3) =>
          match scan_exp s3 with
          | None => None
          | Some (e, s4) => Some (sg ++ i ++ f ++ e, s4)
          end
      end
  end.

Fixpoint eat (kw s : jsstring) : option jsstring :=
  match kw with
  | [] => Some s
  | k :: kw' =>
      match s with
      | c :: r => if c =? k then eat kw' r else None
      | [] => None
      end
  end.

(** *** Property order of ordinary objects

    OrdinaryOwnPropertyKeys lists array-index keys first, in ascending
    numeric order, and then the other string keys in creation order. *)

Definition array_index (k : jsstring) : option N :=
  match k with
  | [] => None
  | c :: r =>
      if forallb is_digit k && (negb (c =? 48) || (match r with [] => true | _ => false end))
      then let n := digits_value k in
           if n <=? 4294967294 then Some n else None
      else None
  end.

End JS.

(** ** Numbers

    JavaScript numbers are IEEE-754 doubles.  The two conversions
    [JSON.parse] and [JSON.stringify] need are kept abstract:
    [StringToNumber] reads a literal of the JSON number grammar,
    [NumberToString] is Number::toString on a finite number, and [isFinite]
    tells the finite numbers from the infinities a literal such as [1e999]
    rounds to. *)

Class JSNumber : Type := {
  number : Type;
  StringToNumber : jsstring -> number;
  isFinite : number -> bool;
  NumberToString : number -> jsstring
}.

(** What ECMA-262 guarantees about the two conversions (6.1.6.1.20, note 2):
    the string of a finite number is a numeric literal, and reading that
    literal back gives a finite number with the same string. *)
Record JSNumberLaws (NM : JSNumber) : Prop := {
  toString_literal : forall n : number,
    isFinite n = true ->
    JS.scan_number (NumberToString n) = Some (NumberToString n, []);
  toString_finite : forall n : number,
    isFinite n = true ->
    isFinite (StringToNumber (NumberToString n)) = true;
  toString_stable : forall n : number,
    isFinite n = true ->
    NumberToString (StringToNumber (NumberToString n)) = NumberToString n
}.
Arguments toString_literal {NM} _ n _.
Arguments toString_finite {NM} _ n _.
Arguments toString_stable {NM} _ n _.

(** *** A reference instance: exact decimals

    A number is kept as sign, mantissa and decimal exponent, exactly as the
    literal denotes it; every number is finite.  Integers written without
    exponent print as JavaScript prints them; the other numbers print as
    mantissa and exponent.  This instance serves to run the model on
    concrete texts. *)
Module Decimal.
Local Open Scope N_scope.

Record dec : Type := { neg : bool; mant : N; exp10 : Z }.

Fixpoint digits_fuel (fuel : nat) (n : N) (acc : jsstring) : jsstring :=
  match fuel with
  | O => acc
  | S f =>
      let acc' := (48 + n mod 10) :: acc in
      if n <? 10 then acc' else digits_fuel f (n / 10) acc'
  end.

Definition digits_of_N (n : N) : jsstring :=
  digits_fuel (S (N.to_nat (N.log2 n))) n [].

Definition of_literal (s : jsstring) : dec :=
  let (sg, s1) :=
    match s with
    | c :: r => if c =? 45 then (true, r) else (false, s)
    | [] => (false, s)
    end in
  let (i, s2) := JS.span_digits s1 in
  let (f, s3) :=
    match s2 with
    | c :: r => if c =? 46 then JS.span_digits r else ([], s2)
    | [] => ([], s2)
    end in
  let e : Z :=
    match s3 with
    | _ :: x :: r =>
        if x =? 45 then (- Z.of_N (JS.digits_value (fst (JS.span_digits r))))%Z
        else if x =? 43 then Z.of_N (JS.digits_value (fst (JS.span_digits r)))
        else Z.of_N (JS.digits_value (fst (JS.span_digits (x :: r))))
    | _ => 0%Z
    end in
  {| neg := sg;
     mant := JS.digits_value (i ++ f);
     exp10 := (e - Z.of_nat (length f))%Z |}.

Definition to_string (d : dec) : jsstring :=
  if mant d =? 0 then [48]
  else
    (if neg d then [45] else [])
    ++ digits_of_N (mant d)
    ++ (if (exp10 d =? 0)%Z then []
        else 101 :: (if (exp10 d <? 0)%Z then [45] else [])
                 ++ digits_of_N (Z.abs_N (exp10 d))).

End Decimal.

#[export] Instance DecimalNumber : JSNumber := {|
  number := Decimal.dec;
  StringToNumber := Decimal.of_literal;
  isFinite := fun _ => true;
  NumberToString := Decimal.to_string
|}.

(** ** JSON values, [JSON.stringify] and [JSON.parse] *)

Section JSON.
Context {NM : JSNumber}.
Local Open Scope N_scope.

(** The values [JSON.parse] can return.  The members of an object are listed
    in property order. *)
Inductive JSValue : Type :=
  | JNull
  | JBool (b : bool)
  | JNum (n : number)
  | JStr (s : jsstring)
  | JArr (elems : list JSValue)
  | JObj (members : list (jsstring * JSValue)).

Fixpoint join (sep : jsstring) (l : list jsstring) : jsstring :=
  match l with
  | [] => []
  | x :: r => match r with [] => x | _ => x ++ sep ++ join sep r end
  end.

(** SerializeJSONProperty with its two helpers SerializeJSONArray and
    SerializeJSONObject (ECMA-262 25.5.2.2, .5, .6); [gap] is the indentation
    unit and [ind] the current indentation. *)
Fixpoint serialize (gap ind : jsstring) (v : JSValue) : jsstring :=
  match v with
  | JNull => js "null"
  | JBool true => js "true"
  | JBool false => js "false"
  | JNum n => if isFinite n then NumberToString n else js "null"
  | JStr s => JS.QuoteJSONString s
  | JArr elems =>
      let stepback := ind in
      let ind := ind ++ gap in
      let partial := map (serialize gap ind) elems in
      match partial with
      | [] => js "[]"
      | _ =>
          match gap with
          | [] => js "[" ++ join (js ",") partial ++ js "]"
          | _ =>
              js "[" ++ [10] ++ ind ++ join (js "," ++ [10] ++ ind) partial
                 ++ [10] ++ stepback ++ js "]"
          end
      end
  | JObj members =>
      let stepback := ind in
      let ind := ind ++ gap in
      let partial :=
        map (fun kv =>
               JS.QuoteJSONString (fst kv)
               ++ js ":" ++ (match gap with [] => [] | _ => js " " end)
               ++ serialize gap ind (snd kv)) members in
      match partial with
      | [] => js "{}"
      | _ =>
          match gap with
          | [] => js "{" ++ join (js ",") partial ++ js "}"
          | _ =>
              js "{" ++ [10] ++ ind ++ join (js "," ++ [10] ++ ind) partial
                 ++ [10] ++ stepback ++ js "}"
          end
      end
  end.

(** [JSON.stringify(value, undefined, space)] for a numeric [space]: the gap
    is [min(10, space)] spaces. *)
Definition JSON_stringify (v : JSValue) (space : nat) : jsstring :=
  serialize (repeat 32 (Nat.min 10 space)) [] v.

(** CreateDataProperty on the object under construction: an existing key
    keeps its place and takes the new value, a new array-index key goes
    after the array-index keys not above it, any other new key goes last. *)
Fixpoint obj_replace (k : jsstring) (v : JSValue)
    (l : list (jsstring * JSValue)) : list (jsstring * JSValue) :=
  match l with
  | [] => []
  | (k', v') :: r =>
      if jsstring_eqb k k' then (k', v) :: r else (k', v') :: obj_replace k v r
  end.

Fixpoint obj_insert_index (i : N) (k : jsstring) (v : JSValue)
    (l : list (jsstring * JSValue)) : list (jsstring * JSValue) :=
  match l with
  | [] => [(k, v)]
  | (k', v') :: r =>
      match JS.array_index k' with
      | Some j =>
          if j <=? i then (k', v') :: obj_insert_index i k v r
          else (k, v) :: l
      | None => (k, v) :: l
      end
  end.

Definition obj_set (l : list (jsstring * JSValue)) (kv : jsstring * JSValue)
    : list (jsstring * JSValue) :=
  let (k, v) := kv in
  if existsb (jsstring_eqb k) (map fst l) then obj_replace k v l
  else match JS.array_index k with
       | Some i => obj_insert_index i k v l
       | None => l ++ [(k, v)]
       end.

(** The recursive-descent reading of a JSON value.  Each of the three
    procedures is given as one step, with the procedures it calls as
    parameters; [parse_value], [parse_elements] and [parse_members] tie the
    knot.  [fuel] bounds the depth of the calls; [JSON_parse] supplies
    enough of it. *)

(** A value: an object, an array, a string, a literal name or a number. *)
Definition value_step
    (members : jsstring -> option (list (jsstring * JSValue) * jsstring))
    (elements : jsstring -> option (list JSValue * jsstring))
    (s : jsstring) : option (JSValue * jsstring) :=
  match s with
  | [] => None
  | c :: r =>
      if c =? 123 then
        match JS.skip_ws r with
        | [] => None
        | c1 :: r1 =>
            if c1 =? 125 then Some (JObj [], r1)
            else
              match members (c1 :: r1) with
              | Some (ms, r2) => Some (JObj (fold_left obj_set ms []), r2)
              | None => None
              end
        end
      else if c =? 91 then
        match JS.skip_ws r with
        | [] => None
        | c1 :: r1 =>
            if c1 =? 93 then Some (JArr [], r1)
            else
              match elements (c1 :: r1) with
              | Some (vs, r2) => Some (JArr vs, r2)
              | None => None
              end
        end
      else if c =? 34 then
        match JS.parse_chars r with
        | Some (t, r1) => Some (JStr t, r1)
        | None => None
        end
      else if c =? 116 then
        match JS.eat (js "rue") r with
        | Some r1 => Some (JBool true, r1)
        | None => None
        end
      else if c =? 102 then
        match JS.eat (js "alse") r with
        | Some r1 => Some (JBool false, r1)
        | None => None
        end
      else if c =? 110 then
        match JS.eat (js "ull") r with
        | Some r1 => Some (JNull, r1)
        | None => None
        end
      else
        match JS.scan_number s with
        | Some (lit, r1) => Some (JNum (StringToNumber lit), r1)
        | None => None
        end
  end.

(** The elements of an array after the opening bracket: a value, then a
    closing bracket or a comma and more elements. *)
Definition elements_step
    (value : jsstring -> option (JSValue * jsstring))
    (elements : jsstring -> option (list JSValue * jsstring))
    (s : jsstring) : option (list JSValue * jsstring) :=
  match value s with
  | None => None
  | Some (v, r) =>
      match JS.skip_ws r with
      | [] => None
      | c :: r1 =>
          if c =? 93 then Some ([v], r1)
          else if c =? 44 then
            match elements (JS.skip_ws r1) with
            | Some (vs, r2) => Some (v :: vs, r2)
            | None => None
            end
          else None
      end
  end.

(** The members of an object after the opening brace: a string, a colon, a
    value, then a closing brace or a comma and more members. *)
Definition members_step
    (value : jsstring -> option (JSValue * jsstring))
    (members : jsstring -> option (list (jsstring * JSValue) * jsstring))
    (s : jsstring) : option (list (jsstring * JSValue) * jsstring) :=
  match s with
  | [] => None
  | q :: r0 =>
      if q =? 34 then
        match JS.parse_chars r0 with
        | None => None
        | Some (k, r1) =>
            match JS.skip_ws r1 with
            | [] => None
            | c :: r2 =>
                if c =? 58 then
                  match value (JS.skip_ws r2) with
                  | None => None
                  | Some (v, r3) =>
                      match JS.skip_ws r3 with
                      | [] => None
                      | d :: r4 =>
                          if d =? 125 then Some ([(k, v)], r4)
                          else if d =? 44 then
                            match members (JS.skip_ws r4) with
                            | Some (ms, r5) => Some ((k, v) :: ms, r5)
                            | None => None
                            end
                          else None
                      end
                  end
                else None
            end
        end
      else None
  end.

Fixpoint parse_value (fuel : nat) (s : jsstring) {struct fuel}
    : option (JSValue * jsstring) :=
  match fuel with
  | O => None
  | S f => value_step (parse_members f) (parse_elements f) s
  end

with parse_elements (fuel : nat) (s : jsstring) {struct fuel}
    : option (list JSValue * jsstring) :=
  match fuel with
  | O => None
  | S f => elements_step (parse_value f) (parse_elements f) s
  end

with parse_members (fuel : nat) (s : jsstring) {struct fuel}
    : option (list (jsstring * JSValue) * jsstring) :=
  match fuel with
  | O => None
  | S f => members_step (parse_value f) (parse_members f) s
  end.

(** [JSON.parse(text)]: one value between optional white space, nothing
    else; [None] stands for the SyntaxError. *)
Definition JSON_parse (text : jsstring) : option JSValue :=
  match parse_value (2 * length text + 2) (JS.skip_ws text) with
  | Some (v, r) =>
      match JS.skip_ws r with
      | [] => Some v
      | _ => None
      end
  | None => None
  end.

End JSON.


(** ** The host objects and the state of a session *)

(** The argument of [webview.postMessage]. *)
Record PostedMessage : Type := { msg_type : string; msg_text : jsstring }.

(** A message received from the webview. *)
Record ViewMessage : Type := { e_type : string; e_content : jsstring }.

(** A [TextDocumentChangeEvent]: the URI of [e.document], the length of
    [e.contentChanges], and [e.reason] ([None] for [undefined], 1 for Undo,
    2 for Redo). *)
Record TextDocumentChangeEvent : Type := {
  e_document_uri : string;
  e_contentChanges : nat;
  e_reason : option Z
}.

(** A visible text editor; [editor_id] tells apart two editors that show the
    same document. *)
Record TextEditor : Type := {
  editor_id : nat;
  editor_uri : string;
  editor_fileName : string
}.

(** What the provider asks of the host besides posting messages.
    [ShowThenCloseActive ed] is the chain
    [showTextDocument(ed.document.uri, {preview, preserveFocus})] followed by
    the command [workbench.action.closeActiveEditor]. *)
Inductive HostRequest : Type :=
  | ApplyEdit (uri : string) (text : jsstring)
  | ShowTextDocumentBeside (uri : string)
  | ShowThenCloseActive (ed : TextEditor).

Inductive JSError : Type :=
  | Error (message : string)
  | TypeError (message : string).

Inductive Completion (A : Type) : Type :=
  | Normal (a : A)
  | Throw (e : JSError).
Arguments Normal {A} a.
Arguments Throw {A} e.

Record World : Type := {
  (* the TextDocument handed to resolveCustomTextEditor *)
  doc_uri : string;
  doc_fileName : string;
  doc_text : jsstring;
  (* the WebviewPanel: its visibility and the postMessage calls, oldest first *)
  panel_visible : bool;
  posted : list PostedMessage;
  (* vscode.window and vscode.workspace: the visible text editors, the status
     bar messages on display, the next Disposable to hand out, and the
     requests made so far, oldest first *)
  visibleTextEditors : list TextEditor;
  statusBar : list nat;
  nextDisposable : nat;
  requests : list HostRequest;
  (* the configuration snapshot taken by the provider *)
  customConfigs_openStandardEditor : bool;
  (* the document listener is registered *)
  changeDocumentSubscription : bool;
  (* the closure variables of resolveCustomTextEditor; jsonErrorMsg is
     declared without initialiser, so it starts out undefined: None *)
  isBuffer : bool;
  isConfigStdEditor : bool;
  isUpdateFromWebview : bool;
  jsonErrorMsg : option nat;
  (* the field of the provider *)
  isValidJson : bool
}.

Definition set_doc_text (x : jsstring) (w : World) : World :=
  {| doc_uri := doc_uri w; doc_fileName := doc_fileName w; doc_text := x;
     panel_visible := panel_visible w; posted := posted w;
     visibleTextEditors := visibleTextEditors w; statusBar := statusBar w;
     nextDisposable := nextDisposable w; requests := requests w;
     customConfigs_openStandardEditor := customConfigs_openStandardEditor w;
     changeDocumentSubscription := changeDocumentSubscription w;
     isBuffer := isBuffer w; isConfigStdEditor := isConfigStdEditor w;
     isUpdateFromWebview := isUpdateFromWebview w;
     jsonErrorMsg := jsonErrorMsg w; isValidJson := isValidJson w |}.

Definition set_panel_visible (x : bool) (w : World) : World :=
  {| doc_uri := doc_uri w; doc_fileName := doc_fileName w;
     doc_text := doc_text w; panel_visible := x; posted := posted w;
     visibleTextEditors := visibleTextEditors w; statusBar := statusBar w;
     nextDisposable := nextDisposable w; requests := requests w;
     customConfigs_openStandardEditor := customConfigs_openStandardEditor w;
     changeDocumentSubscription := changeDocumentSubscription w;
     isBuffer := isBuffer w; isConfigStdEditor := isConfigStdEditor w;
     isUpdateFromWebview := isUpdateFromWebview w;
     jsonErrorMsg := jsonErrorMsg w; isValidJson := isValidJson w |}.

Definition set_posted (x : list PostedMessage) (w : World) : World :=
  {| doc_uri := doc_uri w; doc_fileName := doc_fileName w;
     doc_text := doc_text w; panel_visible := panel_visible w; posted := x;
     visibleTextEditors := visibleTextEditors w; statusBar := statusBar w;
     nextDisposable := nextDisposable w; requests := requests w;
     customConfigs_openStandardEditor := customConfigs_openStandardEditor w;
     changeDocumentSubscription := changeDocumentSubscription w;
     isBuffer := isBuffer w; isConfigStdEditor := isConfigStdEditor w;
     isUpdateFromWebview := isUpdateFromWebview w;
     jsonErrorMsg := jsonErrorMsg w; isValidJson := isValidJson w |}.

Definition set_visibleTextEditors (x : list TextEditor) (w : World) : World :=
  {| doc_uri := doc_uri w; doc_fileName := doc_fileName w;
     doc_text := doc_text w; panel_visible := panel_visible w;
     posted := posted w; visibleTextEditors := x; statusBar := statusBar w;
     nextDisposable := nextDisposable w; requests := requests w;
     customConfigs_openStandardEditor := customConfigs_openStandardEditor w;
     changeDocumentSubscription := changeDocumentSubscription w;
     isBuffer := isBuffer w; isConfigStdEditor := isConfigStdEditor w;
     isUpdateFromWebview := isUpdateFromWebview w;
     jsonErrorMsg := jsonErrorMsg w; isValidJson := isValidJson w |}.

Definition set_statusBar (x : list nat) (w : World) : World :=
  {| doc_uri := doc_uri w; doc_fileName := doc_fileName w;
     doc_text := doc_text w; panel_visible := panel_visible w;
     posted := posted w; visibleTextEditors := visibleTextEditors w;
     statusBar := x; nextDisposable := nextDisposable w;
     requests := requests w;
     customConfigs_openStandardEditor := customConfigs_openStandardEditor w;
     changeDocumentSubscription := changeDocumentSubscription w;
     isBuffer := isBuffer w; isConfigStdEditor := isConfigStdEditor w;
     isUpdateFromWebview := isUpdateFromWebview w;
     jsonErrorMsg := jsonErrorMsg w; isValidJson := isValidJson w |}.

Definition set_nextDisposable (x : nat) (w : World) : World :=
  {| doc_uri := doc_uri w; doc_fileName := doc_fileName w;
     doc_text := doc_text w; panel_visible := panel_visible w;
     posted := posted w; visibleTextEditors := visibleTextEditors w;
     statusBar := statusBar w; nextDisposable := x; requests := requests w;
     customConfigs_openStandardEditor := customConfigs_openStandardEditor w;
     changeDocumentSubscription := changeDocumentSubscription w;
     isBuffer := isBuffer w; isConfigStdEditor := isConfigStdEditor w;
     isUpdateFromWebview := isUpdateFromWebview w;
     jsonErrorMsg := jsonErrorMsg w; isValidJson := isValidJson w |}.

Definition set_requests (x : list HostRequest) (w : World) : World :=
  {| doc_uri := doc_uri w; doc_fileName := doc_fileName w;
     doc_text := doc_text w; panel_visible := panel_visible w;
     posted := posted w; visibleTextEditors := visibleTextEditors w;
     statusBar := statusBar w; nextDisposable := nextDisposable w;
     requests := x;
     customConfigs_openStandardEditor := customConfigs_openStandardEditor w;
     changeDocumentSubscription := changeDocumentSubscription w;
     isBuffer := isBuffer w; isConfigStdEditor := isConfigStdEditor w;
     isUpdateFromWebview := isUpdateFromWebview w;
     jsonErrorMsg := jsonErrorMsg w; isValidJson := isValidJson w |}.

Definition set_changeDocumentSubscription (x : bool) (w : World) : World :=
  {| doc_uri := doc_uri w; doc_fileName := doc_fileName w;
     doc_text := doc_text w; panel_visible := panel_visible w;
     posted := posted w; visibleTextEditors := visibleTextEditors w;
     statusBar := statusBar w; nextDisposable := nextDisposable w;
     requests := requests w;
     customConfigs_openStandardEditor := customConfigs_openStandardEditor w;
     changeDocumentSubscription := x; isBuffer := isBuffer w;
     isConfigStdEditor := isConfigStdEditor w;
     isUpdateFromWebview := isUpdateFromWebview w;
     jsonErrorMsg := jsonErrorMsg w; isValidJson := isValidJson w |}.

Definition set_isBuffer (x : bool) (w : World) : World :=
  {| doc_uri := doc_uri w; doc_fileName := doc_fileName w;
     doc_text := doc_text w; panel_visible := panel_visible w;
     posted := posted w; visibleTextEditors := visibleTextEditors w;
     statusBar := statusBar w; nextDisposable := nextDisposable w;
     requests := requests w;
     customConfigs_openStandardEditor := customConfigs_openStandardEditor w;
     changeDocumentSubscription := changeDocumentSubscription w;
     isBuffer := x; isConfigStdEditor := isConfigStdEditor w;
     isUpdateFromWebview := isUpdateFromWebview w;
     jsonErrorMsg := jsonErrorMsg w; isValidJson := isValidJson w |}.

Definition set_isConfigStdEditor (x : bool) (w : World) : World :=
  {| doc_uri := doc_uri w; doc_fileName := doc_fileName w;
     doc_text := doc_text w; panel_visible := panel_visible w;
     posted := posted w; visibleTextEditors := visibleTextEditors w;
     statusBar := statusBar w; nextDisposable := nextDisposable w;
     requests := requests w;
     customConfigs_openStandardEditor := customConfigs_openStandardEditor w;
     changeDocumentSubscription := changeDocumentSubscription w;
     isBuffer := isBuffer w; isConfigStdEditor := x;
     isUpdateFromWebview := isUpdateFromWebview w;
     jsonErrorMsg := jsonErrorMsg w; isValidJson := isValidJson w |}.

Definition set_isUpdateFromWebview (x : bool) (w : World) : World :=
  {| doc_uri := doc_uri w; doc_fileName := doc_fileName w;
     doc_text := doc_text w; panel_visible := panel_visible w;
     posted := posted w; visibleTextEditors := visibleTextEditors w;
     statusBar := statusBar w; nextDisposable := nextDisposable w;
     requests := requests w;
     customConfigs_openStandardEditor := customConfigs_openStandardEditor w;
     changeDocumentSubscription := changeDocumentSubscription w;
     isBuffer := isBuffer w; isConfigStdEditor := isConfigStdEditor w;
     isUpdateFromWebview := x; jsonErrorMsg := jsonErrorMsg w;
     isValidJson := isValidJson w |}.

Definition set_jsonErrorMsg (x : option nat) (w : World) : World :=
  {| doc_uri := doc_uri w; doc_fileName := doc_fileName w;
     doc_text := doc_text w; panel_visible := panel_visible w;
     posted := posted w; visibleTextEditors := visibleTextEditors w;
     statusBar := statusBar w; nextDisposable := nextDisposable w;
     requests := requests w;
     customConfigs_openStandardEditor := customConfigs_openStandardEditor w;
     changeDocumentSubscription := changeDocumentSubscription w;
     isBuffer := isBuffer w; isConfigStdEditor := isConfigStdEditor w;
     isUpdateFromWebview := isUpdateFromWebview w; jsonErrorMsg := x;
     isValidJson := isValidJson w |}.

Definition set_isValidJson (x : bool) (w : World) : World :=
  {| doc_uri := doc_uri w; doc_fileName := doc_fileName w;
     doc_text := doc_text w; panel_visible := panel_visible w;
     posted := posted w; visibleTextEditors := visibleTextEditors w;
     statusBar := statusBar w; nextDisposable := nextDisposable w;
     requests := requests w;
     customConfigs_openStandardEditor := customConfigs_openStandardEditor w;
     changeDocumentSubscription := changeDocumentSubscription w;
     isBuffer := isBuffer w; isConfigStdEditor := isConfigStdEditor w;
     isUpdateFromWebview := isUpdateFromWebview w;
     jsonErrorMsg := jsonErrorMsg w; isValidJson := x |}.

(** ** Callbacks as state transformers that may throw

    A callback runs on the world and ends normally or by throwing; what it
    changed before throwing stays changed. *)

Definition M (A : Type) : Type := World -> Completion A * World.

Definition ret {A : Type} (a : A) : M A := fun w => (Normal a, w).

Definition bind {A B : Type} (c : M A) (k : A -> M B) : M B :=
  fun w =>
    match c w with
    | (Normal a, w') => k a w'
    | (Throw e, w') => (Throw e, w')
    end.

Definition throw {A : Type} (e : JSError) : M A := fun w => (Throw e, w).

Definition gets {A : Type} (f : World -> A) : M A := fun w => (Normal (f w), w).

Definition modify (f : World -> World) : M unit := fun w => (Normal tt, f w).

Definition when (b : bool) (c : M unit) : M unit := if b then c else ret tt.

Declare Scope js_scope.
Delimit Scope js_scope with js.
Notation "x <- c ;; k" := (bind c (fun x => k))
  (at level 61, c at next level, right associativity) : js_scope.
Notation "c ;; k" := (bind c (fun _ => k))
  (at level 61, right associativity) : js_scope.

(** The state a callback leaves behind, however it ends. *)
Definition exec {A : Type} (c : M A) (w : World) : World := snd (c w).

Definition is_normal {A : Type} (r : Completion A) : bool :=
  match r with Normal _ => true | Throw _ => false end.

(** ** The provider *)

Section Provider.
Context {NM : JSNumber}.
Local Open Scope js_scope.
Local Open Scope string_scope.

Definition postMessage (m : PostedMessage) : M unit :=
  modify (fun w => set_posted (posted w ++ [m]) w).

(** [updateWebview] (lines 55-60). *)
Definition updateWebview (msgType : string) : M unit :=
  text <- gets doc_text ;;
  postMessage {| msg_type := msgType; msg_text := text |}.

(** [getContentAsJson] (lines 257-269).  For blank content it returns the
    string ['{}'], a JavaScript string value. *)
Definition getContentAsJson (content : jsstring) : M JSValue :=
  let text := content in
  if Nat.eqb (List.length (JS.trim text)) 0 then ret (JStr (js "{}"))
  else
    match JSON_parse text with
    | Some v => ret v
    | None =>
        modify (set_isValidJson false) ;;
        throw (Error "Could not get document as json. Content is not valid json")
    end.

(** [workspace.applyEdit] of an edit that replaces the range from (0,0) to
    ([lineCount],0), that is, the whole text. *)
Definition applyEdit (text : jsstring) : M unit :=
  modify (fun w =>
    set_doc_text text
      (set_requests (requests w ++ [ApplyEdit (doc_uri w) text]) w)).

(** [setChangesToDocument] (lines 277-288). *)
Definition setChangesToDocument (content : jsstring) : M unit :=
  v <- getContentAsJson content ;;
  let text := JSON_stringify v 4 in
  applyEdit text.

(** [window.setStatusBarMessage]: shows the message and returns the
    Disposable that removes it. *)
Definition setStatusBarMessage : M nat :=
  h <- gets nextDisposable ;;
  modify (fun w => set_nextDisposable (S h) (set_statusBar (statusBar w ++ [h]) w)) ;;
  ret h.

(** [jsonErrorMsg.dispose()]: a method call on [undefined] throws. *)
Definition jsonErrorMsg_dispose : M unit :=
  d <- gets jsonErrorMsg ;;
  match d with
  | Some h =>
      modify (fun w => set_statusBar (filter (fun x => negb (Nat.eqb x h)) (statusBar w)) w)
  | None =>
      throw (TypeError "Cannot read properties of undefined (reading 'dispose')")
  end.

(** The listener of [workspace.onDidChangeTextDocument] (lines 76-106). *)
Definition onDidChangeTextDocument (e : TextDocumentChangeEvent) : M unit :=
  uri <- gets doc_uri ;;
  if String.eqb (e_document_uri e) uri && negb (Nat.eqb (e_contentChanges e) 0) then
    visible <- gets panel_visible ;;
    if negb visible then modify (set_isBuffer true)
    else
      match e_reason e with
      | Some 1%Z => updateWebview "vuejsoneditor.undo"
      | Some 2%Z => updateWebview "vuejsoneditor.redo"
      | None =>
          fromWebview <- gets isUpdateFromWebview ;;
          when (negb fromWebview) (updateWebview "vuejsoneditor.updateFromExtension") ;;
          modify (set_isUpdateFromWebview false)
      | Some _ => ret tt
      end
  else ret tt.

(** The listener of [webviewPanel.onDidChangeViewState] (lines 108-118). *)
Definition onDidChangeViewState : M unit :=
  visible <- gets panel_visible ;;
  buffered <- gets isBuffer ;;
  when (visible && buffered)
    (text <- gets doc_text ;;
     postMessage {| msg_type := "vuejsoneditor.updateFromExtension"; msg_text := text |} ;;
     modify (set_isBuffer false)).

(** [editors.forEach] of lines 125-137 and 167-179: every editor whose
    document has the file name of the session's document is shown and then
    closed. *)
Fixpoint closeEditorsOf (fileName : string) (editors : list TextEditor) : M unit :=
  match editors with
  | [] => ret tt
  | editor :: rest =>
      when (String.eqb (editor_fileName editor) fileName)
        (modify (fun w => set_requests (requests w ++ [ShowThenCloseActive editor]) w)) ;;
      closeEditorsOf fileName rest
  end.

(** The listener of [webviewPanel.onDidDispose] (lines 121-139). *)
Definition onDidDispose : M unit :=
  modify (set_changeDocumentSubscription false) ;;
  editors <- gets visibleTextEditors ;;
  fileName <- gets doc_fileName ;;
  closeEditorsOf fileName editors.

(** The listener of [webview.onDidReceiveMessage] (lines 142-161). *)
Definition onDidReceiveMessage (e : ViewMessage) : M unit :=
  if String.eqb (e_type e) "vuejsoneditor.updateFromWebview" then
    modify (set_isUpdateFromWebview true) ;;
    setChangesToDocument (e_content e) ;;
    valid <- gets isValidJson ;;
    when (negb valid)
      (jsonErrorMsg_dispose ;;
       modify (set_isValidJson true))
  else if String.eqb (e_type e) "vuejsoneditor.noValidJson" then
    valid <- gets isValidJson ;;
    when valid
      (h <- setStatusBarMessage ;;
       modify (set_jsonErrorMsg (Some h)) ;;
       modify (set_isValidJson false))
  else ret tt.

(** The listener of [window.onDidChangeVisibleTextEditors] (lines 163-181). *)
Definition onDidChangeVisibleTextEditors : M unit :=
  editors <- gets visibleTextEditors ;;
  if Nat.ltb 1 (List.length editors) then
    fileName <- gets doc_fileName ;;
    closeEditorsOf fileName editors
  else ret tt.

(** The listener of [workspace.onDidChangeConfiguration] (lines 63-65). *)
Definition onDidChangeConfiguration : M unit :=
  c <- gets customConfigs_openStandardEditor ;;
  modify (set_isConfigStdEditor c).

(** [resolveCustomTextEditor] (lines 32-195): the closure variables are
    initialised, the document listener is registered, the initial message is
    posted, and the standard editor is opened beside if configured and no
    text editor is visible.  The options and the HTML of the webview are
    left out. *)
Definition resolveCustomTextEditor : M unit :=
  modify (set_isBuffer false) ;;
  c <- gets customConfigs_openStandardEditor ;;
  modify (set_isConfigStdEditor c) ;;
  modify (set_isUpdateFromWebview false) ;;
  modify (set_jsonErrorMsg None) ;;
  modify (set_changeDocumentSubscription true) ;;
  text <- gets doc_text ;;
  postMessage {| msg_type := "vuejsoneditor.updateFromExtension"; msg_text := text |} ;;
  std <- gets isConfigStdEditor ;;
  editors <- gets visibleTextEditors ;;
  when (std && Nat.eqb (List.length editors) 0)
    (uri <- gets doc_uri ;;
     modify (fun w => set_requests (requests w ++ [ShowTextDocumentBeside uri]) w)).

(** ** The host's event loop

    Events are dispatched one at a time.  The host first updates its own
    objects (the text of the document, the visibility of the panel, the list
    of visible editors) and then calls the listener; an exception thrown by a
    listener ends that listener only. *)
Inductive HostEvent : Type :=
  | DidChangeTextDocument (text : jsstring) (e : TextDocumentChangeEvent)
  | DidChangeViewState (visible : bool)
  | DidReceiveMessage (m : ViewMessage)
  | DidChangeVisibleTextEditors (editors : list TextEditor)
  | DidChangeConfiguration
  | DidDispose.

Definition dispatch (ev : HostEvent) (w : World) : World :=
  match ev with
  | DidChangeTextDocument text e =>
      let w1 := if String.eqb (e_document_uri e) (doc_uri w)
                then set_doc_text text w else w in
      if changeDocumentSubscription w1
      then exec (onDidChangeTextDocument e) w1 else w1
  | DidChangeViewState visible =>
      exec onDidChangeViewState (set_panel_visible visible w)
  | DidReceiveMessage m => exec (onDidReceiveMessage m) w
  | DidChangeVisibleTextEditors editors =>
      exec onDidChangeVisibleTextEditors (set_visibleTextEditors editors w)
  | DidChangeConfiguration => exec onDidChangeConfiguration w
  | DidDispose => exec onDidDispose w
  end.

Definition run (evs : list HostEvent) (w : World) : World :=
  fold_left (fun w ev => dispatch ev w) evs w.

(** The text [setChangesToDocument] writes for a given content, [None] when
    [getContentAsJson] throws: validation and normalisation in one. *)
Definition Validator (content : jsstring) : option jsstring :=
  if Nat.eqb (List.length (JS.trim content)) 0
  then Some (JSON_stringify (JStr (js "{}")) 4)
  else match JSON_parse content with
       | Some v => Some (JSON_stringify v 4)
       | None => None
       end.

End Provider.

(** ** Sample sessions and events *)

Local Open Scope string_scope.
Local Open Scope list_scope.

Definition fromView (content : jsstring) : ViewMessage :=
  {| e_type := "vuejsoneditor.updateFromWebview"; e_content := content |}.

Definition noValidJson : ViewMessage :=
  {| e_type := "vuejsoneditor.noValidJson"; e_content := [] |}.

Definition changeOf (uri : string) (reason : option Z) : TextDocumentChangeEvent :=
  {| e_document_uri := uri; e_contentChanges := 1; e_reason := reason |}.

(** The host state in which [resolveCustomTextEditor] is called on
    [/demo.form] holding [text]. *)
Definition demo_host (text : jsstring) (visible : bool)
    (editors : list TextEditor) : World :=
  {| doc_uri := "file:///demo.form"; doc_fileName := "/demo.form";
     doc_text := text; panel_visible := visible; posted := [];
     visibleTextEditors := editors; statusBar := []; nextDisposable := 0;
     requests := []; customConfigs_openStandardEditor := false;
     changeDocumentSubscription := false; isBuffer := false;
     isConfigStdEditor := false; isUpdateFromWebview := false;
     jsonErrorMsg := None; isValidJson := true |}.

(** The session right after [resolveCustomTextEditor]. *)
Definition demo_session (text : jsstring) (visible : bool) : World :=
  exec resolveCustomTextEditor (demo_host text visible []).

Definition demo_editor (id : nat) : TextEditor :=
  {| editor_id := id; editor_uri := "file:///demo.form";
     editor_fileName := "/demo.form" |}.

(** The editors of the session's document whose closing has not been
    requested. *)
Definition close_requested (w : World) (ed : TextEditor) : bool :=
  existsb (fun r => match r with
                    | ShowThenCloseActive ed' => Nat.eqb (editor_id ed') (editor_id ed)
                    | _ => false
                    end) (requests w).

Definition kept_editors (w : World) : list TextEditor :=
  filter (fun ed => String.eqb (editor_fileName ed) (doc_fileName w)
                    && negb (close_requested w ed))
         (visibleTextEditors w).

Definition is_plain_mutation (w : World) (e : TextDocumentChangeEvent) : Prop :=
  e_document_uri e = doc_uri w /\ e_contentChanges e <> 0 /\ e_reason e = None.

Definition is_undo_or_redo (w : World) (e : TextDocumentChangeEvent) : Prop :=
  e_document_uri e = doc_uri w /\ e_contentChanges e <> 0
  /\ (e_reason e = Some 1%Z \/ e_reason e = Some 2%Z).

(** The URI of the sample document and the text written for the content
    [{"b":2}]. *)
Definition demo_uri : string := "file:///demo.form".

Definition pretty_b2 : jsstring :=
  jsq "{" ++ 10%N :: jsq "    'b': 2" ++ 10%N :: jsq "}".

(** ** Notions used to state the properties of [JSON.parse] and
    [JSON.stringify] *)

(** The characters a JSON value can start with. *)
Definition value_start (c : N) : bool :=
  (N.eqb c 123 || N.eqb c 91 || N.eqb c 34 || N.eqb c 116 || N.eqb c 102
   || N.eqb c 110 || N.eqb c 45 || JS.is_digit c)%bool.

(** A text that cannot continue a number literal: it is empty or starts with
    a character that is neither a digit, nor a point, nor an exponent mark. *)
Definition number_end (rest : jsstring) : Prop :=
  match rest with
  | [] => True
  | c :: _ => JS.is_digit c = false /\ c <> 46%N /\ c <> 101%N /\ c <> 69%N
  end.

(** Keys in property order: every array-index key is followed only by
    array-index keys that are not smaller and by other keys; every other key
    is followed by no array-index key. *)
Fixpoint keys_ordered (ks : list jsstring) : Prop :=
  match ks with
  | [] => True
  | k :: r =>
      match JS.array_index k with
      | Some i =>
          Forall (fun k' => match JS.array_index k' with
                            | Some j => (i <= j)%N
                            | None => True
                            end) r
      | None => Forall (fun k' => JS.array_index k' = None) r
      end
      /\ keys_ordered r
  end.

Definition keys_ok (ks : list jsstring) : Prop := NoDup ks /\ keys_ordered ks.

(** The result of [parse_chars] with one more character in front. *)
Definition cons_char (c : N) (p : option (jsstring * jsstring))
    : option (jsstring * jsstring) :=
  match p with
  | Some (t, r) => Some (c :: t, r)
  | None => None
  end.

(** A text that does not start with a digit. *)
Definition digit_free_head (rest : jsstring) : Prop :=
  match rest with
  | [] => True
  | c :: _ => JS.is_digit c = false
  end.

(** The exponent part of a printed decimal. *)
Definition exp_text (e : Z) : jsstring :=
  if (e =? 0)%Z then []
  else 101%N :: (if (e <? 0)%Z then [45%N] else []) ++ Decimal.digits_of_N (Z.abs_N e).

Section JSONNotions.
Context {NM : JSNumber}.

(** The values whose objects list their members in property order, without
    repeated key. *)
Fixpoint well_formed (v : JSValue) : Prop :=
  match v with
  | JArr elems =>
      (fix all (l : list JSValue) : Prop :=
         match l with
         | [] => True
         | x :: r => well_formed x /\ all r
         end) elems
  | JObj members =>
      keys_ok (map fst members)
      /\ (fix all (l : list (jsstring * JSValue)) : Prop :=
            match l with
            | [] => True
            | kv :: r => well_formed (snd kv) /\ all r
            end) members
  | _ => True
  end.

(** What a value becomes by being written and read again: a finite number
    becomes the number of its string, an infinite one becomes [null]. *)
Fixpoint reread (v : JSValue) : JSValue :=
  match v with
  | JNum n =>
      if isFinite n then JNum (StringToNumber (NumberToString n)) else JNull
  | JArr elems => JArr (map reread elems)
  | JObj members => JObj (map (fun kv => (fst kv, reread (snd kv))) members)
  | _ => v
  end.

(** Induction on values, with the hypothesis for every element of an array
    and every member of an object. *)
Fixpoint JSValue_induction (P : JSValue -> Prop)
    (hnull : P JNull) (hbool : forall b, P (JBool b))
    (hnum : forall n, P (JNum n)) (hstr : forall s, P (JStr s))
    (harr : forall l, Forall P l -> P (JArr l))
    (hobj : forall l, Forall (fun kv => P (snd kv)) l -> P (JObj l))
    (v : JSValue) {struct v} : P v :=
  match v with
  | JNull => hnull
  | JBool b => hbool b
  | JNum n => hnum n
  | JStr s => hstr s
  | JArr l =>
      harr l
        ((fix all (l : list JSValue) : Forall P l :=
            match l with
            | [] => Forall_nil P
            | x :: r =>
                Forall_cons x
                  (JSValue_induction P hnull hbool hnum hstr harr hobj x) (all r)
            end) l)
  | JObj l =>
      hobj l
        ((fix all (l : list (jsstring * JSValue))
            : Forall (fun kv => P (snd kv)) l :=
            match l with
            | [] => Forall_nil _
            | kv :: r =>
                Forall_cons kv
                  (JSValue_induction P hnull hbool hnum hstr harr hobj (snd kv))
                  (all r)
            end) l)
  end.

(** The text of one member of an object, and the member as it is read
    back. *)
Definition member_text (gap ind : jsstring) (kv : jsstring * JSValue) : jsstring :=
  JS.QuoteJSONString (fst kv) ++ 58%N :: 32%N :: serialize gap ind (snd kv).

Definition reread_member (kv : jsstring * JSValue) : jsstring * JSValue :=
  (fst kv, reread (snd kv)).

(** The round trip of one value, as the induction treats it. *)
Definition rereads (gap : jsstring) (v : JSValue) : Prop :=
  forall ind rest,
    forallb JS.is_json_ws ind = true -> number_end rest ->
    exists f, parse_value f (serialize gap ind v ++ rest) = Some (reread v, rest).

End JSONNotions.

(** ** Notions used to state the properties of the notice *)

Section NoticeNotions.
Context {NM : JSNumber}.
Local Open Scope string_scope.


(** An event that makes the controller write the document: a submission
    whose content is blank or parses. *)
Definition writes_document (ev : HostEvent) : Prop :=
  match ev with
  | DidReceiveMessage m =>
      e_type m = "vuejsoneditor.updateFromWebview"
      /\ Validator (e_content m) <> None
  | _ => False
  end.

End NoticeNotions.


(** * Properties of the lexical layer *)

Module JSFacts.
Import JS.
Local Open Scope N_scope.

Lemma skip_ws_app (ws s : jsstring) :
  forallb is_json_ws ws = true -> skip_ws (ws ++ s) = skip_ws s.
Proof.
  induction ws as [|c ws IH]; simpl; [reflexivity|].
  intros H. apply andb_true_iff in H. destruct H as [Hc Hws].
  rewrite Hc. auto.
Qed.

Lemma skip_ws_start (c : N) (s : jsstring) :
  is_json_ws c = false -> skip_ws (c :: s) = c :: s.
Proof. intros H. simpl. rewrite H. reflexivity. Qed.

Lemma skip_ws_length (s : jsstring) : (List.length (skip_ws s) <= List.length s)%nat.
Proof.
  induction s as [|c s IH]; simpl; [lia|].
  destruct (is_json_ws c); simpl; lia.
Qed.

(** What [skip_ws] leaves starts with a character that is no white space. *)
Lemma skip_ws_head (s : jsstring) (c : N) (r : jsstring) :
  skip_ws s = c :: r -> is_json_ws c = false /\ In c s.
Proof.
  induction s as [|d s IH]; simpl; [discriminate|].
  destruct (is_json_ws d) eqn:E.
  - intros H. destruct (IH H). auto.
  - intros H. injection H as -> ->. auto.
Qed.

Ltac bool_false :=
  repeat first
    [ apply orb_false_intro
    | (apply N.eqb_neq; lia)
    | (apply andb_false_iff;
       first [ left; apply N.leb_gt; lia | right; apply N.leb_gt; lia ]) ].

Lemma value_start_cases (c : N) :
  value_start c = true ->
  (c = 123 \/ c = 91 \/ c = 34 \/ c = 116 \/ c = 102 \/ c = 110 \/ c = 45)
  \/ 48 <= c <= 57.
Proof.
  unfold value_start, is_digit. intros H.
  repeat (apply orb_true_iff in H; destruct H as [H|H]);
    try (apply N.eqb_eq in H; tauto).
  right. apply andb_true_iff in H. destruct H as [A B].
  apply N.leb_le in A. apply N.leb_le in B. lia.
Qed.

Lemma value_start_not_ws (c : N) : value_start c = true -> is_json_ws c = false.
Proof.
  intros H. apply value_start_cases in H. unfold is_json_ws.
  destruct H as [H|H]; [repeat (destruct H as [H|H]); subst; reflexivity|].
  bool_false.
Qed.

Lemma value_start_not_space (c : N) : value_start c = true -> is_js_space c = false.
Proof.
  intros H. apply value_start_cases in H. unfold is_js_space.
  destruct H as [H|H]; [repeat (destruct H as [H|H]); subst; reflexivity|].
  bool_false.
Qed.

Lemma value_start_not_close (c : N) :
  value_start c = true -> (c =? 93) = false /\ (c =? 125) = false.
Proof.
  intros H. apply value_start_cases in H.
  destruct H as [H|H]; [repeat (destruct H as [H|H]); subst; split; reflexivity|].
  split; bool_false.
Qed.

(** *** Escapes *)

Lemma hex_val_digit (v : N) : v < 16 -> hex_val (hex_digit v) = Some v.
Proof.
  intros H. unfold hex_val, hex_digit, is_digit.
  destruct (N.ltb_spec v 10).
  - replace ((48 <=? 48 + v) && (48 + v <=? 57)) with true.
    + f_equal. lia.
    + symmetry. apply andb_true_iff. split; apply N.leb_le; lia.
  - replace ((48 <=? 87 + v) && (87 + v <=? 57)) with false.
    + replace ((97 <=? 87 + v) && (87 + v <=? 102)) with true.
      * f_equal. lia.
      * symmetry. apply andb_true_iff. split; apply N.leb_le; lia.
    + symmetry. apply andb_false_iff. right. apply N.leb_gt. lia.
Qed.

Lemma hex4_unicode_escape (c : N) :
  c < 65536 ->
  hex4 (hex_digit (c / 4096)) (hex_digit ((c / 256) mod 16))
       (hex_digit ((c / 16) mod 16)) (hex_digit (c mod 16)) = Some c.
Proof.
  intros H. unfold hex4.
  assert (H1 : c / 4096 < 16) by (apply N.Div0.div_lt_upper_bound; lia).
  assert (H2 : (c / 256) mod 16 < 16) by (apply N.mod_lt; lia).
  assert (H3 : (c / 16) mod 16 < 16) by (apply N.mod_lt; lia).
  assert (H4 : c mod 16 < 16) by (apply N.mod_lt; lia).
  rewrite !hex_val_digit by assumption. f_equal.
  assert (D1 : c / 16 / 16 = c / 256) by (rewrite N.Div0.div_div; reflexivity).
  assert (D2 : c / 256 / 16 = c / 4096) by (rewrite N.Div0.div_div; reflexivity).
  pose proof (N.div_mod c 16 ltac:(lia)) as E1.
  pose proof (N.div_mod (c / 16) 16 ltac:(lia)) as E2.
  pose proof (N.div_mod (c / 256) 16 ltac:(lia)) as E3.
  rewrite D1 in E2. rewrite D2 in E3.
  lia.
Qed.

Lemma parse_chars_verbatim (c : N) (X : jsstring) :
  c <> 34 -> c <> 92 -> 32 <= c ->
  parse_chars (c :: X) = cons_char c (parse_chars X).
Proof.
  intros H1 H2 H3. cbn [parse_chars].
  destruct (N.eqb_spec c 34); [contradiction|].
  destruct (N.eqb_spec c 92); [contradiction|].
  destruct (N.ltb_spec c 32); [lia|]. reflexivity.
Qed.

Lemma parse_chars_unicode (h1 h2 h3 h4 : N) (X : jsstring) :
  parse_chars (92 :: 117 :: h1 :: h2 :: h3 :: h4 :: X) =
  match hex4 h1 h2 h3 h4 with
  | Some u => cons_char u (parse_chars X)
  | None => None
  end.
Proof. reflexivity. Qed.

Lemma parse_unicode_escape (c : N) (X : jsstring) :
  c < 65536 ->
  parse_chars (unicode_escape c ++ X) = cons_char c (parse_chars X).
Proof.
  intros H. unfold unicode_escape. cbn [app].
  rewrite parse_chars_unicode, hex4_unicode_escape by exact H. reflexivity.
Qed.

Lemma parse_quote_unit (c : N) (X : jsstring) :
  parse_chars (quote_unit c ++ X) = cons_char c (parse_chars X).
Proof.
  unfold quote_unit.
  destruct (N.eqb_spec c 8); [subst; reflexivity|].
  destruct (N.eqb_spec c 9); [subst; reflexivity|].
  destruct (N.eqb_spec c 10); [subst; reflexivity|].
  destruct (N.eqb_spec c 12); [subst; reflexivity|].
  destruct (N.eqb_spec c 13); [subst; reflexivity|].
  destruct (N.eqb_spec c 34); [subst; reflexivity|].
  destruct (N.eqb_spec c 92); [subst; reflexivity|].
  destruct ((c <? 32) || is_lead c || is_trail c) eqn:E.
  - apply parse_unicode_escape.
    apply orb_true_iff in E. destruct E as [E|E].
    + apply orb_true_iff in E. destruct E as [E|E].
      * apply N.ltb_lt in E. lia.
      * unfold is_lead in E. apply andb_true_iff in E. destruct E as [_ E].
        apply N.leb_le in E. lia.
    + unfold is_trail in E. apply andb_true_iff in E. destruct E as [_ E].
      apply N.leb_le in E. lia.
  - apply orb_false_iff in E. destruct E as [E _].
    apply orb_false_iff in E. destruct E as [E _]. apply N.ltb_ge in E.
    cbn [app]. apply parse_chars_verbatim; assumption.
Qed.

Lemma is_lead_bounds (c : N) : is_lead c = true -> 55296 <= c <= 56319.
Proof.
  unfold is_lead. intros H. apply andb_true_iff in H. destruct H as [A B].
  apply N.leb_le in A. apply N.leb_le in B. lia.
Qed.

Lemma is_trail_bounds (c : N) : is_trail c = true -> 56320 <= c <= 57343.
Proof.
  unfold is_trail. intros H. apply andb_true_iff in H. destruct H as [A B].
  apply N.leb_le in A. apply N.leb_le in B. lia.
Qed.

(** Reading a quoted string gives the string back. *)
Lemma parse_quote_chars (n : nat) :
  forall s : jsstring, (List.length s <= n)%nat ->
  forall rest : jsstring,
  parse_chars (quote_chars s ++ 34 :: rest) = Some (s, rest).
Proof.
  induction n as [|n IH]; intros s Hn rest.
  - destruct s; [reflexivity|simpl in Hn; lia].
  - destruct s as [|c r]; [reflexivity|]. simpl in Hn.
    cbn [quote_chars].
    destruct (is_lead c) eqn:Hl.
    + apply is_lead_bounds in Hl.
      destruct r as [|d r'].
      * rewrite parse_unicode_escape by lia. reflexivity.
      * destruct (is_trail d) eqn:Ht.
        -- apply is_trail_bounds in Ht. cbn [app].
           rewrite parse_chars_verbatim by lia.
           rewrite parse_chars_verbatim by lia.
           rewrite IH by (simpl in Hn; lia). reflexivity.
        -- rewrite <- app_assoc, parse_unicode_escape by lia.
           rewrite IH by lia. reflexivity.
    + rewrite <- app_assoc, parse_quote_unit.
      rewrite IH by lia. reflexivity.
Qed.

Lemma parse_QuoteJSONString (s rest : jsstring) :
  exists body,
    QuoteJSONString s ++ rest = 34 :: body
    /\ parse_chars body = Some (s, rest).
Proof.
  exists (quote_chars s ++ 34 :: rest). split.
  - unfold QuoteJSONString. cbn [app]. rewrite <- app_assoc. reflexivity.
  - apply (parse_quote_chars (List.length s)). lia.
Qed.

(** What [parse_chars] leaves is shorter than what it was given. *)
Lemma parse_chars_length (n : nat) :
  forall s t r, (List.length s <= n)%nat ->
  parse_chars s = Some (t, r) -> (List.length r < List.length s)%nat.
Proof.
  induction n as [|n IH]; intros s t r Hn H.
  - destruct s; [discriminate|simpl in Hn; lia].
  - destruct s as [|c s]; [discriminate|]. simpl in Hn.
    cbn [parse_chars] in H.
    destruct (c =? 34). { injection H as _ <-. simpl. lia. }
    assert (G : forall u X, (List.length X <= n)%nat ->
                cons_char u (parse_chars X) = Some (t, r) ->
                (List.length r < List.length X)%nat).
    { intros u X HX HE. unfold cons_char in HE.
      destruct (parse_chars X) as [[t' r']|] eqn:E; [|discriminate].
      injection HE as _ <-. eapply IH; eauto. }
    destruct (c =? 92).
    + destruct s as [|e r1]; [discriminate|]. simpl in Hn.
      repeat match type of H with
      | (if ?b then _ else _) = _ =>
          destruct b;
          [apply (G _ r1) in H; [simpl; lia | lia] |]
      end.
      destruct (e =? 117); [|discriminate].
      destruct r1 as [|h1 [|h2 [|h3 [|h4 r2]]]]; try discriminate.
      destruct (hex4 h1 h2 h3 h4); [|discriminate].
      simpl in Hn. apply (G _ r2) in H; simpl; lia.
    + destruct (c <? 32); [discriminate|].
      apply (G _ s) in H; simpl; lia.
Qed.

(** *** Number literals *)

Lemma number_end_digit_free (rest : jsstring) :
  number_end rest -> digit_free_head rest.
Proof. destruct rest; simpl; tauto. Qed.

Lemma span_digits_split (s : jsstring) :
  forall ds r, span_digits s = (ds, r) -> s = ds ++ r.
Proof.
  induction s as [|c s IH]; intros ds r H; simpl in H.
  - injection H as <- <-. reflexivity.
  - destruct (is_digit c).
    + destruct (span_digits s) as [ds' r'] eqn:E.
      injection H as <- <-. simpl. f_equal. apply IH. reflexivity.
    + injection H as <- <-. reflexivity.
Qed.

Lemma span_digits_app (s rest : jsstring) :
  digit_free_head rest ->
  forall ds r, span_digits s = (ds, r) ->
  span_digits (s ++ rest) = (ds, r ++ rest).
Proof.
  intros Hrest. induction s as [|c s IH]; intros ds r H; simpl in H.
  - injection H as <- <-. simpl.
    destruct rest as [|c rest]; [reflexivity|]. simpl in Hrest |- *.
    rewrite Hrest. reflexivity.
  - simpl. destruct (is_digit c).
    + destruct (span_digits s) as [ds' r'] eqn:E.
      injection H as <- <-. rewrite (IH ds' r' eq_refl). reflexivity.
    + injection H as <- <-. reflexivity.
Qed.

Lemma scan_int_split (s i r : jsstring) :
  scan_int s = Some (i, r) ->
  s = i ++ r /\ exists c i', i = c :: i' /\ is_digit c = true.
Proof.
  unfold scan_int. destruct s as [|c s]; [discriminate|].
  destruct (N.eqb_spec c 48).
  - intros H. injection H as <- <-. subst. split; [reflexivity|].
    exists 48, []. split; reflexivity.
  - destruct (is_digit c) eqn:E; [|discriminate].
    destruct (span_digits s) as [ds r'] eqn:Es. intros H. injection H as <- <-.
    apply span_digits_split in Es. subst. split; [reflexivity|].
    exists c, ds. auto.
Qed.

Lemma scan_int_app (s rest i r : jsstring) :
  digit_free_head rest ->
  scan_int s = Some (i, r) -> scan_int (s ++ rest) = Some (i, r ++ rest).
Proof.
  intros Hrest. unfold scan_int. destruct s as [|c s]; [discriminate|].
  cbn [app]. destruct (c =? 48).
  - intros H. injection H as <- <-. reflexivity.
  - destruct (is_digit c); [|discriminate].
    destruct (span_digits s) as [ds r'] eqn:Es. intros H. injection H as <- <-.
    rewrite (span_digits_app s rest Hrest ds r' Es). reflexivity.
Qed.

Lemma scan_frac_split (s f r : jsstring) :
  scan_frac s = Some (f, r) -> s = f ++ r.
Proof.
  unfold scan_frac. destruct s as [|c s].
  - intros H. injection H as <- <-. reflexivity.
  - destruct (c =? 46) eqn:E.
    + apply N.eqb_eq in E. subst.
      destruct (span_digits s) as [ds r'] eqn:Es.
      apply span_digits_split in Es. subst.
      destruct ds; [discriminate|]. intros H. injection H as <- <-. reflexivity.
    + intros H. injection H as <- <-. reflexivity.
Qed.

Lemma scan_frac_app (s rest f r : jsstring) :
  number_end rest ->
  scan_frac s = Some (f, r) -> scan_frac (s ++ rest) = Some (f, r ++ rest).
Proof.
  intros Hrest. unfold scan_frac. destruct s as [|c s].
  - intros H. injection H as <- <-. simpl.
    destruct rest as [|c rest]; [reflexivity|].
    destruct Hrest as (_ & Hp & _).
    destruct (N.eqb_spec c 46); [contradiction|reflexivity].
  - cbn [app]. destruct (c =? 46).
    + destruct (span_digits s) as [ds r'] eqn:Es.
      rewrite (span_digits_app s rest (number_end_digit_free rest Hrest) ds r' Es).
      destruct ds; [discriminate|]. intros H. injection H as <- <-. reflexivity.
    + intros H. injection H as <- <-. reflexivity.
Qed.

Lemma scan_exp_split (s e r : jsstring) :
  scan_exp s = Some (e, r) -> s = e ++ r.
Proof.
  unfold scan_exp. destruct s as [|c s].
  - intros H. injection H as <- <-. reflexivity.
  - destruct ((c =? 101) || (c =? 69)).
    + destruct s as [|x r0].
      * simpl. discriminate.
      * destruct ((x =? 43) || (x =? 45)).
        -- destruct (span_digits r0) as [ds r'] eqn:Es.
           apply span_digits_split in Es. subst.
           destruct ds; [discriminate|]. intros H. injection H as <- <-. reflexivity.
        -- destruct (span_digits (x :: r0)) as [ds r'] eqn:Es.
           apply span_digits_split in Es. rewrite Es.
           destruct ds; [discriminate|]. intros H. injection H as <- <-. reflexivity.
    + intros H. injection H as <- <-. reflexivity.
Qed.

Lemma scan_exp_app (s rest e r : jsstring) :
  number_end rest ->
  scan_exp s = Some (e, r) -> scan_exp (s ++ rest) = Some (e, r ++ rest).
Proof.
  intros Hrest. unfold scan_exp. destruct s as [|c s].
  - intros H. injection H as <- <-. simpl.
    destruct rest as [|c rest]; [reflexivity|].
    destruct Hrest as (_ & _ & He1 & He2).
    destruct (N.eqb_spec c 101); [contradiction|].
    destruct (N.eqb_spec c 69); [contradiction|]. reflexivity.
  - cbn [app]. destruct ((c =? 101) || (c =? 69)).
    + destruct s as [|x r0].
      * simpl. discriminate.
      * cbn [app]. destruct ((x =? 43) || (x =? 45)).
        -- destruct (span_digits r0) as [ds r'] eqn:Es.
           rewrite (span_digits_app r0 rest (number_end_digit_free rest Hrest) ds r' Es).
           destruct ds; [discriminate|]. intros H. injection H as <- <-. reflexivity.
        -- destruct (span_digits (x :: r0)) as [ds r'] eqn:Es.
           pose proof (span_digits_app (x :: r0) rest
                         (number_end_digit_free rest Hrest) ds r' Es) as Ea.
           cbn [app] in Ea. rewrite Ea.
           destruct ds; [discriminate|]. intros H. injection H as <- <-. reflexivity.
    + intros H. injection H as <- <-. reflexivity.
Qed.

(** A number literal is a prefix of the text it was scanned from and starts
    with a minus or a digit. *)
Lemma scan_number_split (s lit r : jsstring) :
  scan_number s = Some (lit, r) ->
  s = lit ++ r
  /\ exists c lit', lit = c :: lit' /\ (c = 45 \/ is_digit c = true).
Proof.
  unfold scan_number.
  set (p := match s with
            | [] => ([], s)
            | c :: r0 => if c =? 45 then ([45], r0) else ([], s)
            end).
  assert (Hp : s = fst p ++ snd p
               /\ (fst p = [] \/ fst p = [45])).
  { subst p. destruct s as [|c r0]; [simpl; auto|].
    destruct (N.eqb_spec c 45); simpl; subst; auto. }
  destruct p as [sg s1]. simpl in Hp. destruct Hp as (Hs & Hsg).
  destruct (scan_int s1) as [[i s2]|] eqn:Ei; [|discriminate].
  destruct (scan_frac s2) as [[f s3]|] eqn:Ef; [|discriminate].
  destruct (scan_exp s3) as [[e s4]|] eqn:Ee; [|discriminate].
  intros H. injection H as <- <-.
  apply scan_int_split in Ei. destruct Ei as (E1 & c & i' & Hi & Hc).
  apply scan_frac_split in Ef. apply scan_exp_split in Ee. subst.
  split.
  - rewrite <- !app_assoc. reflexivity.
  - destruct Hsg as [-> | ->].
    + exists c, (i' ++ f ++ e). simpl. auto.
    + exists 45, ((c :: i') ++ f ++ e). simpl. auto.
Qed.

Lemma scan_number_app (s rest lit r : jsstring) :
  number_end rest ->
  scan_number s = Some (lit, r) ->
  scan_number (s ++ rest) = Some (lit, r ++ rest).
Proof.
  intros Hrest H.
  destruct (scan_number_split s lit r H) as (_ & c & lit' & Hl & Hc).
  revert H. unfold scan_number.
  destruct s as [|c0 s0].
  - simpl. discriminate.
  - cbn [app].
    assert (G : forall s1 sg,
              match scan_int s1 with
              | Some (i, s2) =>
                  match scan_frac s2 with
                  | Some (f, s3) =>
                      match scan_exp s3 with
                      | Some (e, s4) => Some (sg ++ i ++ f ++ e, s4)
                      | None => None
                      end
                  | None => None
                  end
              | None => None
              end = Some (lit, r) ->
              match scan_int (s1 ++ rest) with
              | Some (i, s2) =>
                  match scan_frac s2 with
                  | Some (f, s3) =>
                      match scan_exp s3 with
                      | Some (e, s4) => Some (sg ++ i ++ f ++ e, s4)
                      | None => None
                      end
                  | None => None
                  end
              | None => None
              end = Some (lit, r ++ rest)).
    { intros s1 sg.
      destruct (scan_int s1) as [[i s2]|] eqn:Ei; [|discriminate].
      destruct (scan_frac s2) as [[f s3]|] eqn:Ef; [|discriminate].
      destruct (scan_exp s3) as [[e s4]|] eqn:Ee; [|discriminate].
      intros H. injection H as <- <-.
      rewrite (scan_int_app s1 rest i s2 (number_end_digit_free rest Hrest) Ei).
      rewrite (scan_frac_app s2 rest f s3 Hrest Ef).
      rewrite (scan_exp_app s3 rest e s4 Hrest Ee). reflexivity. }
    destruct (c0 =? 45).
    + apply (G s0).
    + apply (G (c0 :: s0)).
Qed.

End JSFacts.

(** * Properties of objects under construction *)

Lemma jsstring_eqb_eq (a b : jsstring) : jsstring_eqb a b = true <-> a = b.
Proof.
  revert b. induction a as [|x a IH]; intros [|y b]; simpl; split; intros H;
    try reflexivity; try discriminate.
  - apply andb_true_iff in H. destruct H as [H1 H2].
    apply N.eqb_eq in H1. apply IH in H2. subst. reflexivity.
  - injection H as -> ->. rewrite N.eqb_refl. simpl. apply IH. reflexivity.
Qed.

Lemma existsb_jsstring_eqb (k : jsstring) (ks : list jsstring) :
  existsb (jsstring_eqb k) ks = true <-> In k ks.
Proof.
  rewrite existsb_exists. split.
  - intros (x & Hx & E). apply jsstring_eqb_eq in E. subst. exact Hx.
  - intros H. exists k. split; [exact H|]. apply jsstring_eqb_eq. reflexivity.
Qed.

Lemma keys_ordered_prefix (l1 l2 : list jsstring) :
  keys_ordered (l1 ++ l2) -> keys_ordered l1.
Proof.
  induction l1 as [|k l1 IH]; simpl; [auto|].
  intros [H1 H2]. split; [|auto].
  destruct (JS.array_index k); apply Forall_app in H1; tauto.
Qed.

Lemma keys_ok_prefix (l1 l2 : list jsstring) :
  keys_ok (l1 ++ l2) -> keys_ok l1.
Proof.
  intros [H1 H2]. split.
  - apply NoDup_app_remove_r in H1. exact H1.
  - apply keys_ordered_prefix in H2. exact H2.
Qed.

(** Appending a key that is no array index keeps the order. *)
Lemma keys_ordered_snoc_other (ks : list jsstring) (k : jsstring) :
  JS.array_index k = None -> keys_ordered ks -> keys_ordered (ks ++ [k]).
Proof.
  intros Hk. induction ks as [|k' ks IH]; simpl.
  - rewrite Hk. auto.
  - intros [H1 H2]. split; [|auto].
    destruct (JS.array_index k'); apply Forall_app; split; auto;
      constructor; auto; rewrite Hk; exact I.
Qed.

(** In an ordered list that ends in an array index, every key is an array
    index not above the last. *)
Lemma keys_ordered_before_index (ks : list jsstring) (k : jsstring) (i : N) :
  JS.array_index k = Some i -> keys_ordered (ks ++ [k]) ->
  Forall (fun k' => exists j, JS.array_index k' = Some j /\ (j <= i)%N) ks.
Proof.
  intros Hk. induction ks as [|k' ks IH]; simpl; [constructor|].
  intros [H1 H2]. constructor; [|auto].
  destruct (JS.array_index k') as [j|]; apply Forall_app in H1;
    destruct H1 as [_ H1]; inversion H1 as [|x l Hx _]; subst.
  - rewrite Hk in Hx. exists j. auto.
  - congruence.
Qed.

Section ObjectFacts.
Context {NM : JSNumber}.

Lemma obj_replace_keys (k : jsstring) (v : JSValue) (l : list (jsstring * JSValue)) :
  map fst (obj_replace k v l) = map fst l.
Proof.
  induction l as [|[k' v'] l IH]; simpl; [reflexivity|].
  destruct (jsstring_eqb k k'); simpl; [reflexivity|]. f_equal. exact IH.
Qed.

Lemma obj_replace_Forall (P : JSValue -> Prop) (k : jsstring) (v : JSValue)
    (l : list (jsstring * JSValue)) :
  P v -> Forall (fun kv => P (snd kv)) l ->
  Forall (fun kv => P (snd kv)) (obj_replace k v l).
Proof.
  intros Hv. induction l as [|[k' v'] l IH]; simpl; [auto|].
  intros H. inversion H; subst.
  destruct (jsstring_eqb k k'); constructor; auto.
Qed.

Lemma obj_insert_index_In (i : N) (k : jsstring) (v : JSValue)
    (l : list (jsstring * JSValue)) (x : jsstring) :
  In x (map fst (obj_insert_index i k v l)) <-> x = k \/ In x (map fst l).
Proof.
  induction l as [|[k' v'] l IH]; simpl.
  - intuition.
  - destruct (JS.array_index k') as [j|]; [destruct (N.leb j i)|]; simpl;
      rewrite ?IH; intuition.
Qed.

Lemma obj_insert_index_Forall (P : JSValue -> Prop) (i : N) (k : jsstring)
    (v : JSValue) (l : list (jsstring * JSValue)) :
  P v -> Forall (fun kv => P (snd kv)) l ->
  Forall (fun kv => P (snd kv)) (obj_insert_index i k v l).
Proof.
  intros Hv. induction l as [|[k' v'] l IH]; simpl.
  - constructor; auto.
  - intros H. inversion H; subst.
    destruct (JS.array_index k') as [j|]; [destruct (N.leb j i)|];
      repeat constructor; auto.
Qed.

Lemma obj_insert_index_NoDup (i : N) (k : jsstring) (v : JSValue)
    (l : list (jsstring * JSValue)) :
  ~ In k (map fst l) -> NoDup (map fst l) ->
  NoDup (map fst (obj_insert_index i k v l)).
Proof.
  induction l as [|[k' v'] l IH]; simpl; intros Hn Hd.
  - constructor; [simpl; tauto|constructor].
  - inversion Hd; subst.
    destruct (JS.array_index k') as [j|]; [destruct (N.leb j i)|]; simpl.
    + constructor.
      * rewrite obj_insert_index_In. intuition.
      * apply IH; tauto.
    + constructor; [simpl; tauto|exact Hd].
    + constructor; [simpl; tauto|exact Hd].
Qed.

Lemma obj_insert_index_ordered (i : N) (k : jsstring) (v : JSValue)
    (l : list (jsstring * JSValue)) :
  JS.array_index k = Some i -> keys_ordered (map fst l) ->
  keys_ordered (map fst (obj_insert_index i k v l)).
Proof.
  intros Hk. induction l as [|[k' v'] l IH]; simpl.
  - rewrite Hk. auto.
  - intros [H1 H2].
    destruct (JS.array_index k') as [j|] eqn:Ej.
    + destruct (N.leb_spec j i) as [Hji|Hji]; simpl.
      * rewrite Ej. split; [|auto].
        apply Forall_forall. intros x Hx.
        apply obj_insert_index_In in Hx. destruct Hx as [->|Hx].
        -- rewrite Hk. exact Hji.
        -- rewrite Forall_forall in H1. apply H1. exact Hx.
      * rewrite Hk, Ej. split; [|split; auto].
        constructor.
        -- rewrite Ej. lia.
        -- eapply Forall_impl; [|exact H1]. intros a Ha. cbv beta in Ha.
           destruct (JS.array_index a); [lia|exact I].
    + simpl. rewrite Hk, Ej. split; [|split; auto].
      constructor.
      * rewrite Ej. exact I.
      * eapply Forall_impl; [|exact H1]. intros a Ha. cbv beta in Ha.
        rewrite Ha. exact I.
Qed.

(** [obj_set] keeps the keys in property order and without repetition. *)
Lemma obj_set_keys_ok (l : list (jsstring * JSValue)) (kv : jsstring * JSValue) :
  keys_ok (map fst l) -> keys_ok (map fst (obj_set l kv)).
Proof.
  destruct kv as [k v]. intros [Hd Ho]. unfold obj_set.
  destruct (existsb (jsstring_eqb k) (map fst l)) eqn:E.
  - rewrite obj_replace_keys. split; assumption.
  - assert (Hn : ~ In k (map fst l)).
    { intros Hin. apply existsb_jsstring_eqb in Hin. congruence. }
    destruct (JS.array_index k) as [i|] eqn:Ek.
    + split.
      * apply obj_insert_index_NoDup; assumption.
      * apply obj_insert_index_ordered; assumption.
    + rewrite map_app. simpl. split.
      * apply NoDup_app; [exact Hd|constructor; [simpl; tauto|constructor]|].
        intros a Ha [<-|[]]. contradiction.
      * apply keys_ordered_snoc_other; assumption.
Qed.

Lemma obj_set_Forall (P : JSValue -> Prop) (l : list (jsstring * JSValue))
    (kv : jsstring * JSValue) :
  P (snd kv) -> Forall (fun kv => P (snd kv)) l ->
  Forall (fun kv => P (snd kv)) (obj_set l kv).
Proof.
  destruct kv as [k v]. simpl. intros Hv Hl. unfold obj_set.
  destruct (existsb (jsstring_eqb k) (map fst l)).
  - apply obj_replace_Forall; assumption.
  - destruct (JS.array_index k).
    + apply obj_insert_index_Forall; assumption.
    + apply Forall_app. split; [exact Hl|]. constructor; auto.
Qed.

Lemma fold_obj_set_ok (P : JSValue -> Prop) (ms : list (jsstring * JSValue)) :
  forall acc,
  keys_ok (map fst acc) -> Forall (fun kv => P (snd kv)) acc ->
  Forall (fun kv => P (snd kv)) ms ->
  keys_ok (map fst (fold_left obj_set ms acc))
  /\ Forall (fun kv => P (snd kv)) (fold_left obj_set ms acc).
Proof.
  induction ms as [|kv ms IH]; intros acc Hk Ha Hm; simpl; [auto|].
  inversion Hm; subst. apply IH.
  - apply obj_set_keys_ok. exact Hk.
  - apply obj_set_Forall; assumption.
  - assumption.
Qed.

(** A new key that comes last in property order is appended. *)
Lemma obj_set_append (l : list (jsstring * JSValue)) (k : jsstring) (v : JSValue) :
  keys_ok (map fst l ++ [k]) -> obj_set l (k, v) = l ++ [(k, v)].
Proof.
  intros [Hd Ho]. unfold obj_set.
  assert (Hn : ~ In k (map fst l)).
  { apply NoDup_remove_2 in Hd. rewrite app_nil_r in Hd. exact Hd. }
  destruct (existsb (jsstring_eqb k) (map fst l)) eqn:E.
  { apply existsb_jsstring_eqb in E. contradiction. }
  destruct (JS.array_index k) as [i|] eqn:Ek; [|reflexivity].
  pose proof (keys_ordered_before_index (map fst l) k i Ek Ho) as Hb.
  clear - Hb. induction l as [|[k' v'] l IH]; simpl; [reflexivity|].
  simpl in Hb. inversion Hb as [|x y (j & Hj & Hji) Hrest]; subst.
  rewrite Hj. destruct (N.leb_spec j i); [|lia]. f_equal. apply IH. exact Hrest.
Qed.

(** Setting the members of an object one after the other, in property
    order, lists them as they came. *)
Lemma fold_obj_set_members (ms : list (jsstring * JSValue)) :
  forall acc,
  keys_ok (map fst (acc ++ ms)) -> fold_left obj_set ms acc = acc ++ ms.
Proof.
  induction ms as [|[k v] ms IH]; intros acc H; cbn [fold_left].
  - rewrite app_nil_r. reflexivity.
  - rewrite obj_set_append.
    + rewrite IH; rewrite <- app_assoc; [reflexivity|exact H].
    + rewrite map_app in H. simpl in H.
      change (k :: map fst ms) with ([k] ++ map fst ms) in H.
      rewrite app_assoc in H. apply keys_ok_prefix in H. exact H.
Qed.

End ObjectFacts.

(** * Fuel

    A successful run of the parser consumes at least one character on every
    call, so it succeeds with any fuel that is at least the number of
    characters consumed. *)

Lemma eat_length (kw : jsstring) :
  forall s r, JS.eat kw s = Some r -> List.length r <= List.length s.
Proof.
  induction kw as [|k kw IH]; intros s r H; simpl in H.
  - injection H as <-. lia.
  - destruct s as [|c s]; [discriminate|].
    destruct (N.eqb c k); [|discriminate]. apply IH in H. simpl. lia.
Qed.

Lemma parse_chars_shorter (s t r : jsstring) :
  JS.parse_chars s = Some (t, r) -> List.length r < List.length s.
Proof. apply (JSFacts.parse_chars_length (List.length s)). lia. Qed.

Lemma scan_number_shorter (s lit r : jsstring) :
  JS.scan_number s = Some (lit, r) -> List.length r < List.length s.
Proof.
  intros H. apply JSFacts.scan_number_split in H.
  destruct H as (-> & c & lit' & -> & _). rewrite length_app. simpl. lia.
Qed.

Section Fuel.
Context {NM : JSNumber}.

Lemma value_step_transfer
    (pm pm' : jsstring -> option (list (jsstring * JSValue) * jsstring))
    (pe pe' : jsstring -> option (list JSValue * jsstring))
    (s : jsstring) (v : JSValue) (r : jsstring) :
  value_step pm pe s = Some (v, r) ->
  (forall x ms r', pm x = Some (ms, r') -> List.length r' < List.length x) ->
  (forall x vs r', pe x = Some (vs, r') -> List.length r' < List.length x) ->
  (forall x ms, List.length x < List.length s ->
                pm x = Some (ms, r) -> pm' x = Some (ms, r)) ->
  (forall x vs, List.length x < List.length s ->
                pe x = Some (vs, r) -> pe' x = Some (vs, r)) ->
  List.length r < List.length s /\ value_step pm' pe' s = Some (v, r).
Proof.
  intros H Lm Le Tm Te. unfold value_step in *.
  destruct s as [|c r0]; [discriminate|].
  pose proof (JSFacts.skip_ws_length r0) as Hws.
  destruct (N.eqb c 123).
  { destruct (JS.skip_ws r0) as [|c1 r1] eqn:Es; [discriminate|].
    simpl in Hws.
    destruct (N.eqb c1 125).
    - injection H as <- <-. simpl. split; [lia|reflexivity].
    - destruct (pm (c1 :: r1)) as [[ms r2]|] eqn:E; [|discriminate].
      injection H as <- <-. pose proof (Lm _ _ _ E) as L. simpl in L.
      rewrite (Tm (c1 :: r1) ms) by (simpl; auto; lia).
      simpl. split; [lia|reflexivity]. }
  destruct (N.eqb c 91).
  { destruct (JS.skip_ws r0) as [|c1 r1] eqn:Es; [discriminate|].
    simpl in Hws.
    destruct (N.eqb c1 93).
    - injection H as <- <-. simpl. split; [lia|reflexivity].
    - destruct (pe (c1 :: r1)) as [[vs r2]|] eqn:E; [|discriminate].
      injection H as <- <-. pose proof (Le _ _ _ E) as L. simpl in L.
      rewrite (Te (c1 :: r1) vs) by (simpl; auto; lia).
      simpl. split; [lia|reflexivity]. }
  destruct (N.eqb c 34).
  { destruct (JS.parse_chars r0) as [[t r1]|] eqn:E; [|discriminate].
    injection H as <- <-. apply parse_chars_shorter in E. simpl.
    split; [lia|reflexivity]. }
  destruct (N.eqb c 116).
  { destruct (JS.eat (js "rue") r0) as [r1|] eqn:E; [|discriminate].
    injection H as <- <-. apply eat_length in E. simpl. split; [lia|reflexivity]. }
  destruct (N.eqb c 102).
  { destruct (JS.eat (js "alse") r0) as [r1|] eqn:E; [|discriminate].
    injection H as <- <-. apply eat_length in E. simpl. split; [lia|reflexivity]. }
  destruct (N.eqb c 110).
  { destruct (JS.eat (js "ull") r0) as [r1|] eqn:E; [|discriminate].
    injection H as <- <-. apply eat_length in E. simpl. split; [lia|reflexivity]. }
  destruct (JS.scan_number (c :: r0)) as [[lit r1]|] eqn:E; [|discriminate].
  injection H as <- <-. apply scan_number_shorter in E. split; [exact E|reflexivity].
Qed.

Lemma elements_step_transfer
    (pv pv' : jsstring -> option (JSValue * jsstring))
    (pe pe' : jsstring -> option (list JSValue * jsstring))
    (s : jsstring) (vs : list JSValue) (r : jsstring) :
  elements_step pv pe s = Some (vs, r) ->
  (forall x v r', pv x = Some (v, r') -> List.length r' < List.length x) ->
  (forall x vs r', pe x = Some (vs, r') -> List.length r' < List.length x) ->
  (forall v r0, List.length r < List.length r0 ->
                pv s = Some (v, r0) -> pv' s = Some (v, r0)) ->
  (forall x vs, List.length x < List.length s ->
                pe x = Some (vs, r) -> pe' x = Some (vs, r)) ->
  List.length r < List.length s /\ elements_step pv' pe' s = Some (vs, r).
Proof.
  intros H Lv Le Tv Te. unfold elements_step in *.
  destruct (pv s) as [[v r0]|] eqn:Ev; [|discriminate].
  pose proof (Lv _ _ _ Ev) as L0.
  pose proof (JSFacts.skip_ws_length r0) as Hws.
  destruct (JS.skip_ws r0) as [|c r1] eqn:Es; [discriminate|]. simpl in Hws.
  destruct (N.eqb c 93) eqn:E93.
  - injection H as <- <-. rewrite (Tv v r0) by (auto; lia).
    rewrite Es, E93. split; [lia|reflexivity].
  - destruct (N.eqb c 44) eqn:E44; [|discriminate].
    pose proof (JSFacts.skip_ws_length r1) as Hws1.
    destruct (pe (JS.skip_ws r1)) as [[vs' r2]|] eqn:E; [|discriminate].
    injection H as <- <-. pose proof (Le _ _ _ E) as L.
    rewrite (Tv v r0) by (auto; lia). rewrite Es, E93, E44.
    rewrite (Te (JS.skip_ws r1) vs') by (auto; lia).
    split; [lia|reflexivity].
Qed.

Lemma members_step_transfer
    (pv pv' : jsstring -> option (JSValue * jsstring))
    (pm pm' : jsstring -> option (list (jsstring * JSValue) * jsstring))
    (s : jsstring) (ms : list (jsstring * JSValue)) (r : jsstring) :
  members_step pv pm s = Some (ms, r) ->
  (forall x v r', pv x = Some (v, r') -> List.length r' < List.length x) ->
  (forall x ms r', pm x = Some (ms, r') -> List.length r' < List.length x) ->
  (forall x v r0, List.length x < List.length s ->
                  List.length r < List.length r0 ->
                  pv x = Some (v, r0) -> pv' x = Some (v, r0)) ->
  (forall x ms, List.length x < List.length s ->
                pm x = Some (ms, r) -> pm' x = Some (ms, r)) ->
  List.length r < List.length s /\ members_step pv' pm' s = Some (ms, r).
Proof.
  intros H Lv Lm Tv Tm. unfold members_step in *.
  destruct s as [|q r0]; [discriminate|].
  destruct (N.eqb q 34); [|discriminate].
  destruct (JS.parse_chars r0) as [[k r1]|] eqn:Ek; [|discriminate].
  apply parse_chars_shorter in Ek.
  pose proof (JSFacts.skip_ws_length r1) as Hws1.
  destruct (JS.skip_ws r1) as [|c r2] eqn:Es1; [discriminate|]. simpl in Hws1.
  destruct (N.eqb c 58); [|discriminate].
  pose proof (JSFacts.skip_ws_length r2) as Hws2.
  destruct (pv (JS.skip_ws r2)) as [[v r3]|] eqn:Ev; [|discriminate].
  pose proof (Lv _ _ _ Ev) as L3.
  pose proof (JSFacts.skip_ws_length r3) as Hws3.
  destruct (JS.skip_ws r3) as [|d r4] eqn:Es3; [discriminate|]. simpl in Hws3.
  destruct (N.eqb d 125) eqn:E125.
  - injection H as <- <-.
    rewrite (Tv (JS.skip_ws r2) v r3) by (simpl; auto; lia).
    rewrite Es3, E125. simpl. split; [lia|reflexivity].
  - destruct (N.eqb d 44) eqn:E44; [|discriminate].
    pose proof (JSFacts.skip_ws_length r4) as Hws4.
    destruct (pm (JS.skip_ws r4)) as [[ms' r5]|] eqn:E; [|discriminate].
    injection H as <- <-. pose proof (Lm _ _ _ E) as L5.
    rewrite (Tv (JS.skip_ws r2) v r3) by (simpl; auto; lia).
    rewrite Es3, E125, E44.
    rewrite (Tm (JS.skip_ws r4) ms') by (simpl; auto; lia).
    simpl. split; [lia|reflexivity].
Qed.

(** What a run leaves is shorter than what it was given, and the run
    succeeds again with any fuel not below the number of characters it
    consumed. *)
Lemma parse_fuel (f : nat) :
  (forall s v r, parse_value f s = Some (v, r) ->
     List.length r < List.length s
     /\ forall f', List.length s - List.length r <= f' ->
                   parse_value f' s = Some (v, r))
  /\ (forall s vs r, parse_elements f s = Some (vs, r) ->
     List.length r < List.length s
     /\ forall f', List.length s - List.length r <= f' ->
                   parse_elements f' s = Some (vs, r))
  /\ (forall s ms r, parse_members f s = Some (ms, r) ->
     List.length r < List.length s
     /\ forall f', List.length s - List.length r <= f' ->
                   parse_members f' s = Some (ms, r)).
Proof.
  induction f as [|f (IHv & IHe & IHm)].
  - repeat split; discriminate.
  - assert (Lv : forall x v r', parse_value f x = Some (v, r') ->
                   List.length r' < List.length x)
      by (intros x v r' E; apply (IHv x v r' E)).
    assert (Le : forall x vs r', parse_elements f x = Some (vs, r') ->
                   List.length r' < List.length x)
      by (intros x vs r' E; apply (IHe x vs r' E)).
    assert (Lm : forall x ms r', parse_members f x = Some (ms, r') ->
                   List.length r' < List.length x)
      by (intros x ms r' E; apply (IHm x ms r' E)).
    split; [|split].
    + intros s v r H. cbn [parse_value] in H.
      assert (L : List.length r < List.length s).
      { eapply (value_step_transfer _ _ _ _ s v r H Lm Le); intros; eassumption. }
      split; [exact L|]. intros [|f'] Hf'; [lia|]. cbn [parse_value].
      apply (value_step_transfer _ _ _ _ s v r H Lm Le).
      * intros x ms Hx E. apply (IHm x ms r E). lia.
      * intros x vs Hx E. apply (IHe x vs r E). lia.
    + intros s vs r H. cbn [parse_elements] in H.
      assert (L : List.length r < List.length s).
      { eapply (elements_step_transfer _ _ _ _ s vs r H Lv Le); intros; eassumption. }
      split; [exact L|]. intros [|f'] Hf'; [lia|]. cbn [parse_elements].
      apply (elements_step_transfer _ _ _ _ s vs r H Lv Le).
      * intros v r0 Hr E. apply (IHv s v r0 E). lia.
      * intros x vs' Hx E. apply (IHe x vs' r E). lia.
    + intros s ms r H. cbn [parse_members] in H.
      assert (L : List.length r < List.length s).
      { eapply (members_step_transfer _ _ _ _ s ms r H Lv Lm); intros; eassumption. }
      split; [exact L|]. intros [|f'] Hf'; [lia|]. cbn [parse_members].
      apply (members_step_transfer _ _ _ _ s ms r H Lv Lm).
      * intros x v r0 Hx Hr E. apply (IHv x v r0 E). lia.
      * intros x ms' Hx E. apply (IHm x ms' r E). lia.
Qed.

Lemma parse_value_fuel (f f' : nat) (s : jsstring) (v : JSValue) (r : jsstring) :
  parse_value f s = Some (v, r) -> List.length s <= f' ->
  parse_value f' s = Some (v, r).
Proof.
  intros H Hf. destruct (parse_fuel f) as (Hv & _).
  destruct (Hv s v r H) as (_ & G). apply G. lia.
Qed.

Lemma parse_elements_fuel (f f' : nat) (s : jsstring) (vs : list JSValue)
    (r : jsstring) :
  parse_elements f s = Some (vs, r) -> List.length s <= f' ->
  parse_elements f' s = Some (vs, r).
Proof.
  intros H Hf. destruct (parse_fuel f) as (_ & He & _).
  destruct (He s vs r H) as (_ & G). apply G. lia.
Qed.

Lemma parse_members_fuel (f f' : nat) (s : jsstring)
    (ms : list (jsstring * JSValue)) (r : jsstring) :
  parse_members f s = Some (ms, r) -> List.length s <= f' ->
  parse_members f' s = Some (ms, r).
Proof.
  intros H Hf. destruct (parse_fuel f) as (_ & _ & Hm).
  destruct (Hm s ms r H) as (_ & G). apply G. lia.
Qed.

(** [JSON_parse] never fails for want of fuel: a text that parses with some
    fuel parses with the fuel [JSON_parse] supplies. *)
Lemma JSON_parse_fuel_enough (text : jsstring) (f : nat) (v : JSValue) (r : jsstring) :
  parse_value f (JS.skip_ws text) = Some (v, r) -> JS.skip_ws r = [] ->
  JSON_parse text = Some v.
Proof.
  intros H Hr. unfold JSON_parse.
  pose proof (JSFacts.skip_ws_length text) as L.
  rewrite (parse_value_fuel f (2 * List.length text + 2) _ v r H) by lia.
  rewrite Hr. reflexivity.
Qed.

End Fuel.

(** * What [JSON.parse] returns *)

Section ParseFacts.
Context {NM : JSNumber}.

Lemma well_formed_JArr (l : list JSValue) :
  well_formed (JArr l) <-> Forall well_formed l.
Proof.
  induction l as [|x l IH].
  - simpl. split; auto.
  - change (well_formed (JArr (x :: l))) with (well_formed x /\ well_formed (JArr l)).
    rewrite IH. split.
    + intros [A B]. constructor; assumption.
    + intros H. inversion H; auto.
Qed.

Lemma well_formed_JObj (l : list (jsstring * JSValue)) :
  well_formed (JObj l)
  <-> keys_ok (map fst l) /\ Forall (fun kv => well_formed (snd kv)) l.
Proof.
  assert (G : forall l : list (jsstring * JSValue),
            (fix all (l : list (jsstring * JSValue)) : Prop :=
               match l with
               | [] => True
               | kv :: r => well_formed (snd kv) /\ all r
               end) l
            <-> Forall (fun kv => well_formed (snd kv)) l).
  { clear l. induction l as [|kv l IH].
    - split; auto.
    - rewrite IH. split.
      + intros [A B]. constructor; assumption.
      + intros H. inversion H; auto. }
  change (well_formed (JObj l)) with
    (keys_ok (map fst l) /\
     (fix all (l : list (jsstring * JSValue)) : Prop :=
        match l with
        | [] => True
        | kv :: r => well_formed (snd kv) /\ all r
        end) l).
  rewrite G. tauto.
Qed.

(** A value starts with one of the characters of [value_start]. *)
Lemma value_step_head
    (pm : jsstring -> option (list (jsstring * JSValue) * jsstring))
    (pe : jsstring -> option (list JSValue * jsstring))
    (s : jsstring) (v : JSValue) (r : jsstring) :
  value_step pm pe s = Some (v, r) ->
  exists c s', s = c :: s' /\ value_start c = true.
Proof.
  unfold value_step. destruct s as [|c r0]; [discriminate|].
  intros H. exists c, r0. split; [reflexivity|]. unfold value_start.
  destruct (N.eqb c 123); [reflexivity|].
  destruct (N.eqb c 91); [reflexivity|].
  destruct (N.eqb c 34); [reflexivity|].
  destruct (N.eqb c 116); [reflexivity|].
  destruct (N.eqb c 102); [reflexivity|].
  destruct (N.eqb c 110); [reflexivity|].
  destruct (JS.scan_number (c :: r0)) as [[lit r1]|] eqn:E; [|discriminate].
  apply JSFacts.scan_number_split in E.
  destruct E as (E & c' & lit' & -> & Hc). injection E as <- _.
  destruct Hc as [-> | ->]; [reflexivity|]. simpl. apply orb_true_r.
Qed.

Lemma parse_value_head (f : nat) (s : jsstring) (v : JSValue) (r : jsstring) :
  parse_value f s = Some (v, r) ->
  exists c s', s = c :: s' /\ value_start c = true.
Proof.
  destruct f as [|f]; [discriminate|]. cbn [parse_value].
  apply value_step_head.
Qed.

(** The objects [JSON.parse] builds list their members in property order. *)
Lemma parse_well_formed (f : nat) :
  (forall s v r, parse_value f s = Some (v, r) -> well_formed v)
  /\ (forall s vs r, parse_elements f s = Some (vs, r) -> Forall well_formed vs)
  /\ (forall s ms r, parse_members f s = Some (ms, r) ->
        Forall (fun kv => well_formed (snd kv)) ms).
Proof.
  induction f as [|f (IHv & IHe & IHm)].
  - repeat split; discriminate.
  - split; [|split].
    + intros s v r. cbn [parse_value]. unfold value_step.
      destruct s as [|c r0]; [discriminate|].
      destruct (N.eqb c 123).
      { destruct (JS.skip_ws r0) as [|c1 r1]; [discriminate|].
        destruct (N.eqb c1 125).
        - intros H. injection H as <- _. simpl. split; [split|]; constructor.
        - destruct (parse_members f (c1 :: r1)) as [[ms r2]|] eqn:E; [|discriminate].
          intros H. injection H as <- _. apply well_formed_JObj.
          apply fold_obj_set_ok.
          + split; constructor.
          + constructor.
          + apply (IHm _ _ _ E). }
      destruct (N.eqb c 91).
      { destruct (JS.skip_ws r0) as [|c1 r1]; [discriminate|].
        destruct (N.eqb c1 93).
        - intros H. injection H as <- _. exact I.
        - destruct (parse_elements f (c1 :: r1)) as [[vs r2]|] eqn:E; [|discriminate].
          intros H. injection H as <- _. apply well_formed_JArr.
          apply (IHe _ _ _ E). }
      destruct (N.eqb c 34).
      { destruct (JS.parse_chars r0) as [[t r1]|]; [|discriminate].
        intros H. injection H as <- _. exact I. }
      destruct (N.eqb c 116).
      { destruct (JS.eat (js "rue") r0); [|discriminate].
        intros H. injection H as <- _. exact I. }
      destruct (N.eqb c 102).
      { destruct (JS.eat (js "alse") r0); [|discriminate].
        intros H. injection H as <- _. exact I. }
      destruct (N.eqb c 110).
      { destruct (JS.eat (js "ull") r0); [|discriminate].
        intros H. injection H as <- _. exact I. }
      destruct (JS.scan_number (c :: r0)) as [[lit r1]|]; [|discriminate].
      intros H. injection H as <- _. exact I.
    + intros s vs r. cbn [parse_elements]. unfold elements_step.
      destruct (parse_value f s) as [[v r0]|] eqn:Ev; [|discriminate].
      apply IHv in Ev.
      destruct (JS.skip_ws r0) as [|c r1]; [discriminate|].
      destruct (N.eqb c 93).
      * intros H. injection H as <- _. constructor; [exact Ev|constructor].
      * destruct (N.eqb c 44); [|discriminate].
        destruct (parse_elements f (JS.skip_ws r1)) as [[vs' r2]|] eqn:E; [|discriminate].
        intros H. injection H as <- _. constructor; [exact Ev|].
        apply (IHe _ _ _ E).
    + intros s ms r. cbn [parse_members]. unfold members_step.
      destruct s as [|q r0]; [discriminate|].
      destruct (N.eqb q 34); [|discriminate].
      destruct (JS.parse_chars r0) as [[k r1]|]; [|discriminate].
      destruct (JS.skip_ws r1) as [|c r2]; [discriminate|].
      destruct (N.eqb c 58); [|discriminate].
      destruct (parse_value f (JS.skip_ws r2)) as [[v r3]|] eqn:Ev; [|discriminate].
      apply IHv in Ev.
      destruct (JS.skip_ws r3) as [|d r4]; [discriminate|].
      destruct (N.eqb d 125).
      * intros H. injection H as <- _. constructor; [exact Ev|constructor].
      * destruct (N.eqb d 44); [|discriminate].
        destruct (parse_members f (JS.skip_ws r4)) as [[ms' r5]|] eqn:E; [|discriminate].
        intros H. injection H as <- _. constructor; [exact Ev|].
        apply (IHm _ _ _ E).
Qed.

Lemma JSON_parse_well_formed (text : jsstring) (v : JSValue) :
  JSON_parse text = Some v -> well_formed v.
Proof.
  unfold JSON_parse.
  destruct (parse_value _ _) as [[v' r]|] eqn:E; [|discriminate].
  destruct (JS.skip_ws r); [|discriminate]. intros H. injection H as <-.
  destruct (parse_well_formed (2 * List.length text + 2)) as (Hv & _).
  apply (Hv _ _ _ E).
Qed.

End ParseFacts.

(** * Reading back what [JSON.stringify] wrote *)

Section RoundTrip.
Context {NM : JSNumber}.
Hypothesis laws : JSNumberLaws NM.
Variables (g0 : N) (gs : jsstring).
Hypothesis gap_ws : forallb JS.is_json_ws (g0 :: gs) = true.
Local Open Scope N_scope.

Lemma serialize_JArr_cons (ind : jsstring) (x : JSValue) (l : list JSValue)
    (rest : jsstring) :
  serialize (g0 :: gs) ind (JArr (x :: l)) ++ rest =
  91 :: 10 :: (ind ++ (g0 :: gs))
     ++ (join (44 :: 10 :: ind ++ (g0 :: gs)) (map (serialize (g0 :: gs) (ind ++ (g0 :: gs))) (x :: l))
         ++ 10 :: ind ++ 93 :: rest).
Proof.
  cbn [serialize map]. change (js "[") with [91]. change (js "]") with [93].
  change (js ",") with [44]. repeat (cbn [app]; rewrite <- ?app_assoc).
  reflexivity.
Qed.

Lemma serialize_JObj_cons (ind : jsstring) (kv : jsstring * JSValue)
    (l : list (jsstring * JSValue)) (rest : jsstring) :
  serialize (g0 :: gs) ind (JObj (kv :: l)) ++ rest =
  123 :: 10 :: (ind ++ (g0 :: gs))
      ++ (join (44 :: 10 :: ind ++ (g0 :: gs)) (map (member_text (g0 :: gs) (ind ++ (g0 :: gs))) (kv :: l))
          ++ 10 :: ind ++ 125 :: rest).
Proof.
  cbn [serialize map]. change (js "{") with [123]. change (js "}") with [125].
  change (js ",") with [44]. change (js ":") with [58]. change (js " ") with [32].
  unfold member_text. repeat (cbn [app]; rewrite <- ?app_assoc).
  reflexivity.
Qed.

Lemma parse_elements_head (f : nat) (s : jsstring) (vs : list JSValue) (r : jsstring) :
  parse_elements f s = Some (vs, r) ->
  exists c s', s = c :: s' /\ value_start c = true.
Proof.
  destruct f as [|f]; [discriminate|]. cbn [parse_elements]. unfold elements_step.
  destruct (parse_value f s) as [[v r0]|] eqn:E; [|discriminate].
  intros _. apply (parse_value_head f s v r0 E).
Qed.

Lemma skip_ws_value (f : nat) (ws s : jsstring) (v : JSValue) (r : jsstring) :
  forallb JS.is_json_ws ws = true ->
  parse_value f s = Some (v, r) -> JS.skip_ws (ws ++ s) = s.
Proof.
  intros Hws H. rewrite JSFacts.skip_ws_app by exact Hws.
  destruct (parse_value_head f s v r H) as (c & s' & -> & Hc).
  apply JSFacts.skip_ws_start. apply JSFacts.value_start_not_ws. exact Hc.
Qed.

Lemma skip_ws_value0 (f : nat) (s : jsstring) (v : JSValue) (r : jsstring) :
  parse_value f s = Some (v, r) -> JS.skip_ws s = s.
Proof. apply (skip_ws_value f [] s v r eq_refl). Qed.

Lemma number_start_tests (c : N) :
  c = 45 \/ JS.is_digit c = true ->
  (c =? 123) = false /\ (c =? 91) = false /\ (c =? 34) = false
  /\ (c =? 116) = false /\ (c =? 102) = false /\ (c =? 110) = false.
Proof.
  intros [->|H]; [repeat split; reflexivity|].
  unfold JS.is_digit in H. apply andb_true_iff in H. destruct H as [A B].
  apply N.leb_le in A. apply N.leb_le in B.
  repeat split; apply N.eqb_neq; lia.
Qed.

Lemma number_end_newline (s : jsstring) : number_end (10 :: s).
Proof. simpl. repeat split; discriminate. Qed.

Lemma number_end_comma (s : jsstring) : number_end (44 :: s).
Proof. simpl. repeat split; discriminate. Qed.

Lemma elements_roundtrip (l : list JSValue) :
  l <> [] -> Forall (rereads (g0 :: gs)) l ->
  forall ind ind0 rest,
    forallb JS.is_json_ws ind = true -> forallb JS.is_json_ws ind0 = true ->
    exists f,
      parse_elements f
        (join (44 :: 10 :: ind) (map (serialize (g0 :: gs) ind) l) ++ 10 :: ind0 ++ 93 :: rest)
      = Some (map reread l, rest).
Proof.
  induction l as [|v l IH]; [congruence|].
  intros _ HF ind ind0 rest Hi Hi0. inversion HF as [|x y Hv Hl]; subst.
  destruct l as [|v2 l'].
  - cbn [map join].
    destruct (Hv ind (10 :: ind0 ++ 93 :: rest) Hi (number_end_newline _)) as [f1 E1].
    exists (S f1). cbn [parse_elements]. unfold elements_step. rewrite E1.
    change (10 :: ind0 ++ 93 :: rest) with ((10 :: ind0) ++ 93 :: rest).
    rewrite JSFacts.skip_ws_app by (simpl; exact Hi0).
    reflexivity.
  - change (join (44 :: 10 :: ind) (map (serialize (g0 :: gs) ind) (v :: v2 :: l')))
      with (serialize (g0 :: gs) ind v ++ (44 :: 10 :: ind)
            ++ join (44 :: 10 :: ind) (map (serialize (g0 :: gs) ind) (v2 :: l'))).
    repeat (cbn [app]; rewrite <- ?app_assoc).
    set (Y := join (44 :: 10 :: ind) (map (serialize (g0 :: gs) ind) (v2 :: l'))
              ++ 10 :: ind0 ++ 93 :: rest).
    destruct (Hv ind (44 :: 10 :: ind ++ Y) Hi (number_end_comma _)) as [f1 E1].
    destruct (IH ltac:(discriminate) Hl ind ind0 rest Hi Hi0) as [f2 E2].
    fold Y in E2.
    set (s1 := serialize (g0 :: gs) ind v ++ 44 :: 10 :: ind ++ Y) in *.
    exists (S (Nat.max (List.length s1) (List.length Y))).
    cbn [parse_elements]. unfold elements_step.
    rewrite (parse_value_fuel f1 _ s1 _ _ E1) by lia.
    rewrite (JSFacts.skip_ws_start 44 _ eq_refl).
    change (44 =? 93) with false. change (44 =? 44) with true. cbv iota.
    change (10 :: ind ++ Y) with ((10 :: ind) ++ Y).
    rewrite JSFacts.skip_ws_app by (simpl; exact Hi).
    destruct (parse_elements_head f2 Y _ _ E2) as (c & Y' & EY & Hc).
    rewrite EY, JSFacts.skip_ws_start by (apply JSFacts.value_start_not_ws; exact Hc).
    rewrite <- EY.
    rewrite (parse_elements_fuel f2 _ Y _ _ E2) by lia.
    reflexivity.
Qed.

Lemma members_roundtrip (l : list (jsstring * JSValue)) :
  l <> [] -> Forall (fun kv => rereads (g0 :: gs) (snd kv)) l ->
  forall ind ind0 rest,
    forallb JS.is_json_ws ind = true -> forallb JS.is_json_ws ind0 = true ->
    exists f,
      parse_members f
        (join (44 :: 10 :: ind) (map (member_text (g0 :: gs) ind) l) ++ 10 :: ind0 ++ 125 :: rest)
      = Some (map reread_member l, rest).
Proof.
  induction l as [|kv l IH]; [congruence|].
  intros _ HF ind ind0 rest Hi Hi0. inversion HF as [|x y Hv Hl]; subst.
  destruct kv as [k v]. simpl in Hv.
  destruct l as [|kv2 l'].
  - cbn [map join]. unfold member_text at 1. cbn [fst snd].
    rewrite <- !app_assoc. cbn [app].
    set (s1 := serialize (g0 :: gs) ind v ++ 10 :: ind0 ++ 125 :: rest).
    destruct (JSFacts.parse_QuoteJSONString k (58 :: 32 :: s1)) as (body & Eb & Ek).
    destruct (Hv ind (10 :: ind0 ++ 125 :: rest) Hi (number_end_newline _)) as [f1 E1].
    fold s1 in E1.
    exists (S f1). cbn [parse_members]. unfold members_step.
    rewrite Eb. change (34 =? 34) with true. cbv iota. rewrite Ek.
    cbn [JS.skip_ws]. change (JS.is_json_ws 58) with false. cbv iota.
    change (58 =? 58) with true. cbv iota.
    change (32 :: s1) with ([32] ++ s1).
    rewrite (skip_ws_value f1 [32] s1 _ _ eq_refl E1). rewrite E1.
    change (10 :: ind0 ++ 125 :: rest) with ((10 :: ind0) ++ 125 :: rest).
    rewrite JSFacts.skip_ws_app by (simpl; exact Hi0).
    reflexivity.
  - change (join (44 :: 10 :: ind) (map (member_text (g0 :: gs) ind) ((k, v) :: kv2 :: l')))
      with (member_text (g0 :: gs) ind (k, v) ++ (44 :: 10 :: ind)
            ++ join (44 :: 10 :: ind) (map (member_text (g0 :: gs) ind) (kv2 :: l'))).
    unfold member_text at 1. cbn [fst snd].
    repeat (cbn [app]; rewrite <- ?app_assoc).
    set (Y := join (44 :: 10 :: ind) (map (member_text (g0 :: gs) ind) (kv2 :: l'))
              ++ 10 :: ind0 ++ 125 :: rest).
    set (s1 := serialize (g0 :: gs) ind v ++ 44 :: 10 :: ind ++ Y).
    destruct (JSFacts.parse_QuoteJSONString k (58 :: 32 :: s1)) as (body & Eb & Ek).
    destruct (Hv ind (44 :: 10 :: ind ++ Y) Hi (number_end_comma _)) as [f1 E1].
    fold s1 in E1.
    destruct (IH ltac:(discriminate) Hl ind ind0 rest Hi Hi0) as [f2 E2].
    fold Y in E2.
    exists (S (Nat.max (List.length s1) (List.length Y))).
    cbn [parse_members]. unfold members_step.
    rewrite Eb. change (34 =? 34) with true. cbv iota. rewrite Ek.
    cbn [JS.skip_ws]. change (JS.is_json_ws 58) with false. cbv iota.
    change (58 =? 58) with true. cbv iota.
    change (32 :: s1) with ([32] ++ s1).
    rewrite (skip_ws_value f1 [32] s1 _ _ eq_refl E1).
    rewrite (parse_value_fuel f1 _ s1 _ _ E1) by lia.
    rewrite (JSFacts.skip_ws_start 44 _ eq_refl).
    change (44 =? 125) with false. change (44 =? 44) with true. cbv iota.
    change (10 :: ind ++ Y) with ((10 :: ind) ++ Y).
    rewrite JSFacts.skip_ws_app by (simpl; exact Hi).
    assert (HY : JS.skip_ws Y = Y).
    { destruct f2 as [|f2]; [discriminate|]. cbn [parse_members] in E2.
      unfold members_step in E2. destruct Y as [|q Y']; [discriminate|].
      destruct (N.eqb_spec q 34); [subst; reflexivity|discriminate]. }
    rewrite HY.
    rewrite (parse_members_fuel f2 _ Y _ _ E2) by lia.
    reflexivity.
Qed.

(** A well-formed value is read back from its text as [reread] says. *)
Lemma value_roundtrip (v : JSValue) : well_formed v -> rereads (g0 :: gs) v.
Proof.
  induction v as [|b|n|s|l IH|l IH] using JSValue_induction;
    intros Hwf ind rest Hi Hr.
  - exists 1%nat. reflexivity.
  - destruct b; exists 1%nat; reflexivity.
  - cbn [serialize reread]. destruct (isFinite n) eqn:Ef.
    + pose proof (toString_literal laws n Ef) as Hs.
      pose proof (JSFacts.scan_number_app _ rest _ _ Hr Hs) as Ha.
      cbn [app] in Ha.
      destruct (JSFacts.scan_number_split _ _ _ Hs) as (_ & c & lit' & El & Hc).
      destruct (number_start_tests c Hc) as (T1 & T2 & T3 & T4 & T5 & T6).
      exists 1%nat. cbn [parse_value]. unfold value_step.
      revert Ha. rewrite El. cbn [app]. intros Ha.
      rewrite T1, T2, T3, T4, T5, T6, Ha. reflexivity.
    + exists 1%nat. reflexivity.
  - destruct (JSFacts.parse_QuoteJSONString s rest) as (body & Eb & Ek).
    exists 1%nat. cbn [serialize parse_value]. unfold value_step.
    rewrite Eb. change (34 =? 123) with false. change (34 =? 91) with false.
    change (34 =? 34) with true. cbv iota. rewrite Ek. reflexivity.
  - destruct l as [|x l]; [exists 1%nat; reflexivity|].
    apply well_formed_JArr in Hwf.
    assert (HF : Forall (rereads (g0 :: gs)) (x :: l)).
    { rewrite Forall_forall in *. intros y Hy. apply IH; auto. }
    assert (Hi' : forallb JS.is_json_ws (ind ++ g0 :: gs) = true).
    { rewrite forallb_app, Hi, gap_ws. reflexivity. }
    destruct (elements_roundtrip (x :: l) ltac:(discriminate) HF
                (ind ++ g0 :: gs) ind rest Hi' Hi) as [f2 E2].
    rewrite serialize_JArr_cons.
    set (X := join (44 :: 10 :: ind ++ g0 :: gs)
                (map (serialize (g0 :: gs) (ind ++ g0 :: gs)) (x :: l))
              ++ 10 :: ind ++ 93 :: rest) in *.
    exists (S f2). cbn [parse_value]. unfold value_step.
    change (91 =? 123) with false. change (91 =? 91) with true. cbv iota.
    change (10 :: (ind ++ g0 :: gs) ++ X) with ((10 :: ind ++ g0 :: gs) ++ X).
    rewrite JSFacts.skip_ws_app by (simpl; exact Hi').
    destruct (parse_elements_head f2 X _ _ E2) as (c & X' & EX & Hc).
    rewrite EX, JSFacts.skip_ws_start by (apply JSFacts.value_start_not_ws; exact Hc).
    destruct (JSFacts.value_start_not_close c Hc) as [N93 _]. rewrite N93.
    rewrite <- EX, E2. reflexivity.
  - destruct l as [|kv l]; [exists 1%nat; reflexivity|].
    apply well_formed_JObj in Hwf. destruct Hwf as [Hk Hwf].
    assert (HF : Forall (fun kv => rereads (g0 :: gs) (snd kv)) (kv :: l)).
    { rewrite Forall_forall in *. intros y Hy. apply IH; auto. }
    assert (Hi' : forallb JS.is_json_ws (ind ++ g0 :: gs) = true).
    { rewrite forallb_app, Hi, gap_ws. reflexivity. }
    destruct (members_roundtrip (kv :: l) ltac:(discriminate) HF
                (ind ++ g0 :: gs) ind rest Hi' Hi) as [f2 E2].
    rewrite serialize_JObj_cons.
    set (X := join (44 :: 10 :: ind ++ g0 :: gs)
                (map (member_text (g0 :: gs) (ind ++ g0 :: gs)) (kv :: l))
              ++ 10 :: ind ++ 125 :: rest) in *.
    exists (S f2). cbn [parse_value]. unfold value_step.
    change (123 =? 123) with true. cbv iota.
    change (10 :: (ind ++ g0 :: gs) ++ X) with ((10 :: ind ++ g0 :: gs) ++ X).
    rewrite JSFacts.skip_ws_app by (simpl; exact Hi').
    assert (HX : exists X', X = 34 :: X').
    { destruct f2 as [|f2]; [discriminate|]. cbn [parse_members] in E2.
      unfold members_step in E2. destruct X as [|q X']; [discriminate|].
      destruct (N.eqb_spec q 34); [subst; eauto|discriminate]. }
    destruct HX as (X' & EX).
    rewrite EX, (JSFacts.skip_ws_start 34 _ eq_refl).
    change (34 =? 125) with false. cbv iota.
    rewrite <- EX, E2.
    rewrite (fold_obj_set_members (map reread_member (kv :: l)) []).
    + reflexivity.
    + cbn [app]. rewrite map_map. cbn [reread_member fst]. exact Hk.
Qed.

(** Writing a reread value gives the text of the value. *)
Lemma serialize_reread (gap : jsstring) (v : JSValue) :
  forall ind, serialize gap ind (reread v) = serialize gap ind v.
Proof.
  induction v as [|b|n|s|l IH|l IH] using JSValue_induction; intros ind;
    try reflexivity.
  - cbn [reread]. destruct (isFinite n) eqn:Ef; cbn [serialize].
    + rewrite (toString_finite laws n Ef), (toString_stable laws n Ef), Ef.
      reflexivity.
    + rewrite Ef. reflexivity.
  - cbn [reread serialize]. rewrite map_map.
    replace (map (fun x => serialize gap (ind ++ gap) (reread x)) l)
      with (map (serialize gap (ind ++ gap)) l); [reflexivity|].
    apply map_ext_Forall. eapply Forall_impl; [|exact IH].
    intros a Ha. symmetry. apply Ha.
  - cbn [reread serialize]. rewrite map_map. cbn [fst snd].
    replace (map (fun x => JS.QuoteJSONString (fst x) ++ js ":"
                           ++ match gap with [] => [] | _ :: _ => js " " end
                           ++ serialize gap (ind ++ gap) (reread (snd x))) l)
      with (map (fun kv => JS.QuoteJSONString (fst kv) ++ js ":"
                           ++ match gap with [] => [] | _ :: _ => js " " end
                           ++ serialize gap (ind ++ gap) (snd kv)) l);
      [reflexivity|].
    apply map_ext_Forall. eapply Forall_impl; [|exact IH].
    intros a Ha. cbv beta in Ha. rewrite Ha. reflexivity.
Qed.

(** [JSON.parse] reads back what [JSON.stringify] wrote with a positive
    indentation. *)
Lemma JSON_parse_stringify (v : JSValue) :
  well_formed v ->
  JSON_parse (serialize (g0 :: gs) [] v) = Some (reread v).
Proof.
  intros Hwf.
  destruct (value_roundtrip v Hwf [] [] eq_refl I) as [f E].
  rewrite app_nil_r in E.
  apply (JSON_parse_fuel_enough _ f (reread v) []); [|reflexivity].
  rewrite (skip_ws_value0 f _ _ _ E). exact E.
Qed.

End RoundTrip.

(** * Blank texts *)

Lemma trimStart_nil (s : jsstring) :
  JS.trimStart s = [] -> forallb JS.is_js_space s = true.
Proof.
  induction s as [|c s IH]; simpl; [reflexivity|].
  destruct (JS.is_js_space c); [exact IH|discriminate].
Qed.

Lemma trimStart_spaces (s : jsstring) :
  forallb JS.is_js_space (JS.trimStart s) = true -> JS.trimStart s = [].
Proof.
  induction s as [|c s IH]; simpl; [reflexivity|].
  destruct (JS.is_js_space c) eqn:E; [exact IH|].
  simpl. rewrite E. discriminate.
Qed.

(** A text that trims to nothing consists of white space and line
    terminators only. *)
Lemma trim_nil (s : jsstring) :
  JS.trim s = [] -> forallb JS.is_js_space s = true.
Proof.
  unfold JS.trim, JS.trimEnd. intros H.
  assert (H1 : JS.trimStart (rev (JS.trimStart s)) = []).
  { destruct (JS.trimStart (rev (JS.trimStart s))); [reflexivity|].
    apply (f_equal (@List.length N)) in H. rewrite length_rev in H. discriminate. }
  apply trimStart_nil in H1.
  apply trimStart_nil, trimStart_spaces.
  rewrite forallb_forall in *. intros x Hx. apply H1. apply in_rev in Hx. exact Hx.
Qed.

Section Normalizer.
Context {NM : JSNumber}.

(** A text that parses is not blank. *)
Lemma JSON_parse_not_blank (text : jsstring) (v : JSValue) :
  JSON_parse text = Some v -> JS.trim text <> [].
Proof.
  unfold JSON_parse.
  destruct (parse_value _ _) as [[v' r]|] eqn:E; [|discriminate].
  intros _ Hb. apply trim_nil in Hb.
  destruct (parse_value_head _ _ _ _ E) as (c & s' & Es & Hc).
  apply JSFacts.skip_ws_head in Es. destruct Es as [_ Hin].
  rewrite forallb_forall in Hb. apply Hb in Hin.
  apply JSFacts.value_start_not_space in Hc. congruence.
Qed.

Lemma Validator_of_parsed (text : jsstring) (v : JSValue) :
  JSON_parse text = Some v -> Validator text = Some (JSON_stringify v 4).
Proof.
  intros H. unfold Validator.
  destruct (JS.trim text) eqn:E.
  - exfalso. apply (JSON_parse_not_blank text v H E).
  - simpl. rewrite H. reflexivity.
Qed.

End Normalizer.

(** * The exact decimals obey the laws of numbers *)

Module DecimalFacts.
Import JS Decimal.
Local Open Scope N_scope.

Lemma digits_value_snoc (ds : jsstring) (d : N) :
  digits_value (ds ++ [d]) = 10 * digits_value ds + (d - 48).
Proof. unfold digits_value. rewrite fold_left_app. reflexivity. Qed.

Lemma is_digit_of_small (n : N) : n < 10 -> is_digit (48 + n) = true.
Proof.
  intros H. unfold is_digit. apply andb_true_iff.
  split; apply N.leb_le; lia.
Qed.

Lemma digits_fuel_S (f : nat) (n : N) (acc : jsstring) :
  digits_fuel (S f) n acc =
  if n <? 10 then (48 + n mod 10) :: acc
  else digits_fuel f (n / 10) ((48 + n mod 10) :: acc).
Proof. reflexivity. Qed.

(** The digits [digits_fuel] puts in front of [acc]: decimal digits, at
    least one, without leading zero, of value [n]. *)
Lemma digits_fuel_spec (f : nat) :
  forall n acc, n < 2 ^ N.of_nat (S f) ->
  exists ds,
    digits_fuel (S f) n acc = ds ++ acc
    /\ forallb is_digit ds = true
    /\ digits_value ds = n
    /\ exists c ds', ds = c :: ds' /\ (n <> 0 -> c <> 48).
Proof.
  induction f as [|f IH]; intros n acc Hn.
  - change (2 ^ N.of_nat 1) with 2 in Hn.
    exists [48 + n]. rewrite digits_fuel_S.
    assert (Hm : n mod 10 = n) by (apply N.mod_small; lia). rewrite Hm.
    destruct (N.ltb_spec n 10); [|lia].
    repeat split.
    + cbn [forallb]. rewrite is_digit_of_small by lia. reflexivity.
    + unfold digits_value. cbn [fold_left]. lia.
    + exists (48 + n), []. split; [reflexivity|]. lia.
  - rewrite digits_fuel_S.
    pose proof (N.mod_lt n 10 ltac:(lia)) as Hmod.
    destruct (N.ltb_spec n 10) as [Hs|Hl].
    + exists [48 + n mod 10].
      assert (Hm : n mod 10 = n) by (apply N.mod_small; lia). rewrite Hm.
      repeat split.
      * cbn [forallb]. rewrite is_digit_of_small by lia. reflexivity.
      * unfold digits_value. cbn [fold_left]. lia.
      * exists (48 + n), []. split; [reflexivity|]. lia.
    + assert (Hd : n / 10 < 2 ^ N.of_nat (S f)).
      { apply N.Div0.div_lt_upper_bound.
        rewrite (Nat2N.inj_succ (S f)), N.pow_succ_r' in Hn. lia. }
      destruct (IH (n / 10) ((48 + n mod 10) :: acc) Hd)
        as (ds & E & Hall & Hval & c & ds' & Ec & Hc).
      exists (ds ++ [48 + n mod 10]). repeat split.
      * rewrite E, <- app_assoc. reflexivity.
      * rewrite forallb_app, Hall. cbn [forallb].
        rewrite is_digit_of_small by lia. reflexivity.
      * rewrite digits_value_snoc, Hval.
        pose proof (N.div_mod n 10 ltac:(lia)) as Hdm.
        clear - Hdm. set (m := n mod 10) in *. set (q := n / 10) in *.
        clearbody m q. lia.
      * exists c, (ds' ++ [48 + n mod 10]). split; [rewrite Ec; reflexivity|].
        intros _. apply Hc.
        assert (1 <= n / 10) by (apply N.div_le_lower_bound; lia). lia.
Qed.

Lemma digits_of_N_spec (n : N) :
  forallb is_digit (digits_of_N n) = true
  /\ digits_value (digits_of_N n) = n
  /\ exists c ds', digits_of_N n = c :: ds' /\ (n <> 0 -> c <> 48).
Proof.
  unfold digits_of_N.
  assert (Hn : n < 2 ^ N.of_nat (S (N.to_nat (N.log2 n)))).
  { rewrite Nat2N.inj_succ, N2Nat.id.
    destruct (N.eq_dec n 0) as [->|Hz]; [reflexivity|].
    apply N.log2_spec. lia. }
  destruct (digits_fuel_spec (N.to_nat (N.log2 n)) n [] Hn)
    as (ds & E & Hall & Hval & Hhd).
  rewrite E, app_nil_r. auto.
Qed.

Lemma span_digits_all (ds r : jsstring) :
  forallb is_digit ds = true -> digit_free_head r ->
  span_digits (ds ++ r) = (ds, r).
Proof.
  intros Hd Hr. induction ds as [|c ds IH]; cbn [app span_digits].
  - destruct r as [|c r]; [reflexivity|]. simpl in Hr. simpl. rewrite Hr.
    reflexivity.
  - simpl in Hd. apply andb_true_iff in Hd. destruct Hd as [Hc Hd].
    rewrite Hc, (IH Hd). reflexivity.
Qed.

Lemma to_string_shape (d : dec) :
  mant d <> 0 ->
  to_string d =
  (if neg d then [45] else []) ++ digits_of_N (mant d) ++ exp_text (exp10 d).
Proof.
  intros H. unfold to_string, exp_text.
  destruct (N.eqb_spec (mant d) 0); [contradiction|]. reflexivity.
Qed.

Lemma exp_text_digit_free (e : Z) : digit_free_head (exp_text e).
Proof. unfold exp_text. destruct (e =? 0)%Z; simpl; reflexivity. Qed.

Lemma digit_not_sign (c : N) :
  is_digit c = true -> (c =? 45) = false /\ ((c =? 43) || (c =? 45)) = false
                       /\ (c =? 46) = false /\ (c =? 43) = false.
Proof.
  unfold is_digit. intros H. apply andb_true_iff in H. destruct H as [A B].
  apply N.leb_le in A. apply N.leb_le in B.
  assert (E1 : (c =? 45) = false) by (apply N.eqb_neq; lia).
  assert (E2 : (c =? 43) = false) by (apply N.eqb_neq; lia).
  assert (E3 : (c =? 46) = false) by (apply N.eqb_neq; lia).
  rewrite E1, E2, E3. auto.
Qed.

(** Scanning the exponent part of a printed decimal takes all of it. *)
Lemma scan_exp_text (e : Z) :
  scan_frac (exp_text e) = Some ([], exp_text e)
  /\ scan_exp (exp_text e) = Some (exp_text e, []).
Proof.
  unfold exp_text. destruct (Z.eqb_spec e 0) as [|Hz]; [split; reflexivity|].
  split; [reflexivity|].
  destruct (digits_of_N_spec (Z.abs_N e)) as (Hall & _ & c & ds' & Ec & _).
  pose proof (span_digits_all (digits_of_N (Z.abs_N e)) [] Hall I) as Hs.
  rewrite app_nil_r in Hs.
  assert (Hc : is_digit c = true).
  { rewrite Ec in Hall. simpl in Hall. apply andb_true_iff in Hall. tauto. }
  destruct (digit_not_sign c Hc) as (_ & Hsg & _).
  unfold scan_exp. change ((101 =? 101) || (101 =? 69)) with true. cbv iota.
  destruct (e <? 0)%Z; cbn [app].
  - change ((45 =? 43) || (45 =? 45)) with true. cbv iota.
    rewrite Hs, Ec. reflexivity.
  - rewrite Ec in Hs |- *. rewrite Hsg, Hs. reflexivity.
Qed.

Lemma scan_number_to_string (d : dec) :
  scan_number (to_string d) = Some (to_string d, []).
Proof.
  destruct (N.eq_dec (mant d) 0) as [Hz|Hz].
  - unfold to_string. rewrite Hz. reflexivity.
  - rewrite (to_string_shape d Hz).
    destruct (digits_of_N_spec (mant d)) as (Hall & _ & c & ds' & Ec & Hc0).
    specialize (Hc0 Hz).
    destruct (scan_exp_text (exp10 d)) as (Hf & He).
    assert (Hc : is_digit c = true /\ forallb is_digit ds' = true).
    { rewrite Ec in Hall. simpl in Hall. apply andb_true_iff in Hall. tauto. }
    destruct Hc as (Hc & Hds).
    destruct (digit_not_sign c Hc) as (N45 & _).
    assert (Hint : scan_int (digits_of_N (mant d) ++ exp_text (exp10 d))
                   = Some (digits_of_N (mant d), exp_text (exp10 d))).
    { rewrite Ec. cbn [app]. unfold scan_int.
      destruct (N.eqb_spec c 48); [contradiction|]. rewrite Hc.
      rewrite (span_digits_all ds' _ Hds (exp_text_digit_free _)). reflexivity. }
    unfold scan_number. destruct (neg d); cbn [app].
    + change (45 =? 45) with true. cbv iota. rewrite Hint, Hf, He.
      rewrite app_nil_l. reflexivity.
    + revert Hint. rewrite Ec. cbn [app]. intros Hint. rewrite N45, Hint, Hf, He.
      rewrite app_nil_l. reflexivity.
Qed.

Lemma exp_of_exp_text (e : Z) :
  match exp_text e with
  | _ :: x :: r =>
      if x =? 45 then (- Z.of_N (digits_value (fst (span_digits r))))%Z
      else if x =? 43 then Z.of_N (digits_value (fst (span_digits r)))
      else Z.of_N (digits_value (fst (span_digits (x :: r))))
  | _ => 0%Z
  end = e.
Proof.
  unfold exp_text. destruct (Z.eqb_spec e 0) as [->|Hz]; [reflexivity|].
  destruct (digits_of_N_spec (Z.abs_N e)) as (Hall & Hval & c & ds' & Ec & _).
  pose proof (span_digits_all (digits_of_N (Z.abs_N e)) [] Hall I) as Hs.
  rewrite app_nil_r in Hs.
  assert (Hc : is_digit c = true).
  { rewrite Ec in Hall. simpl in Hall. apply andb_true_iff in Hall. tauto. }
  destruct (digit_not_sign c Hc) as (N45 & _ & _ & N43).
  destruct (Z.ltb_spec e 0); cbn [app].
  - rewrite Ec. change (45 =? 45) with true. cbv iota.
    rewrite <- Ec, Hs. cbn [fst]. rewrite Hval. lia.
  - rewrite Ec, N45, N43, <- Ec, Hs. cbn [fst]. rewrite Hval. lia.
Qed.

Lemma of_literal_to_string (d : dec) :
  mant d <> 0 -> of_literal (to_string d) = d.
Proof.
  intros Hz. rewrite (to_string_shape d Hz).
  destruct (digits_of_N_spec (mant d)) as (Hall & Hval & c & ds' & Ec & _).
  assert (Hc : is_digit c = true).
  { rewrite Ec in Hall. simpl in Hall. apply andb_true_iff in Hall. tauto. }
  destruct (digit_not_sign c Hc) as (N45 & _).
  pose proof (span_digits_all _ _ Hall (exp_text_digit_free (exp10 d))) as Hs.
  assert (Hfrac : match exp_text (exp10 d) with
                  | c0 :: r => if c0 =? 46 then span_digits r
                               else ([], exp_text (exp10 d))
                  | [] => ([], exp_text (exp10 d))
                  end = ([], exp_text (exp10 d))).
  { unfold exp_text. destruct (exp10 d =? 0)%Z; reflexivity. }
  assert (G : forall sg s,
            (let (i, s2) := span_digits s in
             let (f, s3) :=
               match s2 with
               | c0 :: r => if c0 =? 46 then span_digits r else ([], s2)
               | [] => ([], s2)
               end in
             let e : Z :=
               match s3 with
               | _ :: x :: r =>
                   if x =? 45 then (- Z.of_N (digits_value (fst (span_digits r))))%Z
                   else if x =? 43 then Z.of_N (digits_value (fst (span_digits r)))
                   else Z.of_N (digits_value (fst (span_digits (x :: r))))
               | _ => 0%Z
               end in
             {| neg := sg; mant := digits_value (i ++ f);
                exp10 := (e - Z.of_nat (List.length f))%Z |})
            = of_literal (if sg then 45 :: s else s) ->
            s = digits_of_N (mant d) ++ exp_text (exp10 d) ->
            of_literal (if sg then 45 :: s else s)
            = {| neg := sg; mant := mant d; exp10 := exp10 d |}).
  { intros sg s E Es. rewrite <- E, Es, Hs, Hfrac, exp_of_exp_text.
    rewrite app_nil_r, Hval. simpl. f_equal. lia. }
  destruct d as [sg m e]. cbn [neg mant exp10] in *.
  destruct sg; cbn [app].
  - apply (G true (digits_of_N m ++ exp_text e)); reflexivity.
  - apply (G false (digits_of_N m ++ exp_text e)); [|reflexivity].
    unfold of_literal. rewrite Ec. cbn [app]. rewrite N45. reflexivity.
Qed.

End DecimalFacts.

Lemma DecimalNumber_laws : JSNumberLaws DecimalNumber.
Proof.
  constructor.
  - intros n _. apply DecimalFacts.scan_number_to_string.
  - reflexivity.
  - intros n _. cbn [NumberToString StringToNumber DecimalNumber].
    destruct (N.eq_dec (Decimal.mant n) 0) as [Hz|Hz].
    + unfold Decimal.to_string at 2 3. rewrite Hz. reflexivity.
    + rewrite (DecimalFacts.of_literal_to_string n Hz). reflexivity.
Qed.

(** * Properties of the session controller *)

Section Controller.
Context {NM : JSNumber}.
Local Open Scope string_scope.
Local Open Scope list_scope.

Ltac callback :=
  unfold exec, onDidReceiveMessage, onDidChangeTextDocument,
    onDidChangeViewState, onDidChangeVisibleTextEditors, resolveCustomTextEditor,
    updateWebview, postMessage, jsonErrorMsg_dispose, setStatusBarMessage,
    applyEdit, when, bind, gets, modify, ret, throw;
  simpl.

(** [setChangesToDocument] writes what [Validator] yields and throws where
    it yields nothing. *)
Lemma setChangesToDocument_Validator (content : jsstring) (w : World) :
  setChangesToDocument content w =
  match Validator content with
  | Some text =>
      (Normal tt,
       set_doc_text text
         (set_requests (requests w ++ [ApplyEdit (doc_uri w) text]) w))
  | None =>
      (Throw (Error "Could not get document as json. Content is not valid json"),
       set_isValidJson false w)
  end.
Proof.
  unfold setChangesToDocument, getContentAsJson, Validator.
  destruct (Nat.eqb (List.length (JS.trim content)) 0); [reflexivity|].
  destruct (JSON_parse content); reflexivity.
Qed.

(** The handling of an [updateFromWebview] message, case by case. *)
Lemma onDidReceiveMessage_updateFromWebview (e : ViewMessage) (w : World) :
  e_type e = "vuejsoneditor.updateFromWebview" ->
  onDidReceiveMessage e w =
  let w0 := set_isUpdateFromWebview true w in
  match Validator (e_content e) with
  | None =>
      (Throw (Error "Could not get document as json. Content is not valid json"),
       set_isValidJson false w0)
  | Some text =>
      let w1 := set_doc_text text
                  (set_requests (requests w ++ [ApplyEdit (doc_uri w) text]) w0) in
      if isValidJson w then (Normal tt, w1)
      else match jsonErrorMsg w with
           | Some h =>
               (Normal tt,
                set_isValidJson true
                  (set_statusBar
                     (filter (fun x => negb (Nat.eqb x h)) (statusBar w)) w1))
           | None =>
               (Throw (TypeError "Cannot read properties of undefined (reading 'dispose')"),
                w1)
           end
  end.
Proof.
  intros Ht. unfold onDidReceiveMessage. rewrite Ht, String.eqb_refl.
  unfold bind. unfold modify at 1. cbv beta iota.
  rewrite setChangesToDocument_Validator.
  destruct (Validator (e_content e)) as [text|]; [|reflexivity].
  callback. destruct (isValidJson w); [reflexivity|].
  simpl. destruct (jsonErrorMsg w); reflexivity.
Qed.

(** The listener of document changes on a plain change of the session's
    document. *)
Lemma onDidChangeTextDocument_plain (e : TextDocumentChangeEvent) (w : World) :
  is_plain_mutation w e ->
  onDidChangeTextDocument e w =
  if panel_visible w then
    (Normal tt,
     set_isUpdateFromWebview false
       (if isUpdateFromWebview w then w
        else set_posted
               (posted w ++ [{| msg_type := "vuejsoneditor.updateFromExtension";
                                msg_text := doc_text w |}]) w))
  else (Normal tt, set_isBuffer true w).
Proof.
  intros (Hu & Hc & Hr). unfold onDidChangeTextDocument.
  unfold bind at 1. unfold gets at 1. rewrite Hu, String.eqb_refl.
  destruct (e_contentChanges e) as [|n]; [contradiction|]. simpl.
  callback. destruct (panel_visible w); simpl; [|reflexivity].
  rewrite Hr. destruct (isUpdateFromWebview w); reflexivity.
Qed.

(** C1, as amended.  A [updateFromWebview] message followed at once by a
    plain change of the document posts nothing to the webview.  The message
    sets [isUpdateFromWebview]; with the panel visible the change finds the
    flag set and clears it; with the panel hidden the change is buffered
    instead ([isBuffer] is set) and the flag stays set. *)
Theorem echo_suppressed (w : World) (m : ViewMessage) (e : TextDocumentChangeEvent) :
  e_type m = "vuejsoneditor.updateFromWebview" ->
  is_plain_mutation w e ->
  let w1 := exec (onDidReceiveMessage m) w in
  let w2 := exec (onDidChangeTextDocument e) w1 in
  posted w1 = posted w /\ posted w2 = posted w
  /\ isUpdateFromWebview w1 = true
  /\ (panel_visible w = true ->
      isUpdateFromWebview w2 = false /\ isBuffer w2 = isBuffer w)
  /\ (panel_visible w = false ->
      isUpdateFromWebview w2 = true /\ isBuffer w2 = true).
Proof.
  intros Ht He w1 w2.
  assert (H1 : posted w1 = posted w /\ isUpdateFromWebview w1 = true
               /\ panel_visible w1 = panel_visible w /\ isBuffer w1 = isBuffer w
               /\ doc_uri w1 = doc_uri w).
  { subst w1. unfold exec. rewrite (onDidReceiveMessage_updateFromWebview m w Ht).
    cbv zeta. destruct (Validator (e_content m)); simpl; [|tauto].
    destruct (isValidJson w); simpl; [tauto|].
    destruct (jsonErrorMsg w); simpl; tauto. }
  destruct H1 as (Hp & Hf & Hv & Hb & Hu).
  assert (He1 : is_plain_mutation w1 e).
  { destruct He as (A & B & C). repeat split; auto. congruence. }
  subst w2. unfold exec. rewrite (onDidChangeTextDocument_plain e w1 He1).
  rewrite Hv, Hf. destruct (panel_visible w); simpl.
  - repeat split; auto; discriminate.
  - repeat split; auto; discriminate.
Qed.

(** The listener of document changes on an Undo or Redo of the session's
    document. *)
Lemma onDidChangeTextDocument_undo_redo (e : TextDocumentChangeEvent) (w : World) :
  is_undo_or_redo w e ->
  onDidChangeTextDocument e w =
  if panel_visible w then
    (Normal tt,
     set_posted
       (posted w ++ [{| msg_type := if Z.eqb (match e_reason e with Some r => r | None => 0%Z end) 1
                                    then "vuejsoneditor.undo" else "vuejsoneditor.redo";
                        msg_text := doc_text w |}]) w)
  else (Normal tt, set_isBuffer true w).
Proof.
  intros (Hu & Hc & Hr). unfold onDidChangeTextDocument.
  unfold bind at 1. unfold gets at 1. rewrite Hu, String.eqb_refl.
  destruct (e_contentChanges e) as [|n]; [contradiction|]. simpl.
  callback. destruct (panel_visible w); simpl; [|reflexivity].
  destruct Hr as [Hr|Hr]; rewrite Hr; reflexivity.
Qed.

(** C2, as amended.  An Undo or Redo change of the session's document is
    forwarded while the panel is visible: one message of type
    [vuejsoneditor.undo] or [vuejsoneditor.redo] with the current text of the
    document, whatever [isUpdateFromWebview] holds, and the flag is left as it
    was.  While the panel is hidden nothing is posted and [isBuffer] is set. *)
Theorem undo_redo_forwarded (w : World) (e : TextDocumentChangeEvent) :
  is_undo_or_redo w e ->
  let w' := exec (onDidChangeTextDocument e) w in
  (panel_visible w = true ->
     (e_reason e = Some 1%Z ->
        posted w' = posted w ++ [{| msg_type := "vuejsoneditor.undo";
                                    msg_text := doc_text w |}])
     /\ (e_reason e = Some 2%Z ->
        posted w' = posted w ++ [{| msg_type := "vuejsoneditor.redo";
                                    msg_text := doc_text w |}])
     /\ isUpdateFromWebview w' = isUpdateFromWebview w
     /\ isBuffer w' = isBuffer w)
  /\ (panel_visible w = false ->
      posted w' = posted w /\ isBuffer w' = true).
Proof.
  intros He w'. subst w'. unfold exec.
  rewrite (onDidChangeTextDocument_undo_redo e w He).
  destruct (panel_visible w); simpl; split; intros; try discriminate; auto.
  repeat split; auto; intros Hr; rewrite Hr; reflexivity.
Qed.

Lemma last_cons_default (A : Type) (l : list A) :
  forall a b d d' : A, last (a :: b :: l) d = last (b :: l) d'.
Proof.
  induction l as [|c l IH]; intros a b d d'; [reflexivity|].
  change (last (b :: c :: l) d = last (b :: c :: l) d').
  rewrite (IH b c d d'). symmetry. apply IH.
Qed.

(** While the panel is hidden, plain changes of the document post nothing,
    set [isBuffer] and leave the last text in the document. *)
Lemma hidden_mutations_buffered (muts : list (jsstring * TextDocumentChangeEvent)) :
  forall w : World,
  panel_visible w = false ->
  changeDocumentSubscription w = true ->
  Forall (fun te => is_plain_mutation w (snd te)) muts ->
  let w1 := run (map (fun te => DidChangeTextDocument (fst te) (snd te)) muts) w in
  posted w1 = posted w
  /\ panel_visible w1 = false
  /\ isBuffer w1 = (match muts with [] => isBuffer w | _ => true end)
  /\ doc_text w1 = last (map fst muts) (doc_text w).
Proof.
  induction muts as [|[t e] muts IH]; intros w Hv Hs Hall.
  - simpl. auto.
  - unfold run. cbn [map fold_left fst snd].
    inversion Hall as [|x l He Hrest]; subst. simpl in He.
    pose proof He as (Hu & Hc & Hr).
    set (w0 := dispatch (DidChangeTextDocument t e) w).
    assert (H0 : posted w0 = posted w /\ panel_visible w0 = false
                 /\ changeDocumentSubscription w0 = true /\ isBuffer w0 = true
                 /\ doc_text w0 = t /\ doc_uri w0 = doc_uri w).
    { subst w0. unfold dispatch. rewrite Hu, String.eqb_refl.
      simpl changeDocumentSubscription. rewrite Hs. unfold exec.
      rewrite onDidChangeTextDocument_plain by (repeat split; auto).
      simpl. rewrite Hv. simpl. repeat split; auto. }
    destruct H0 as (Hp0 & Hv0 & Hs0 & Hb0 & Ht0 & Hu0).
    specialize (IH w0 Hv0 Hs0).
    assert (Hall0 : Forall (fun te => is_plain_mutation w0 (snd te)) muts).
    { eapply Forall_impl; [|exact Hrest]. intros a (A & B & C).
      repeat split; auto. congruence. }
    specialize (IH Hall0). cbv zeta in IH.
    unfold run in IH. destruct IH as (P1 & P2 & P3 & P4).
    fold w0. repeat split.
    + congruence.
    + exact P2.
    + rewrite P3. destruct muts; auto.
    + rewrite P4, Ht0. destruct muts as [|p muts]; [reflexivity|].
      cbn [map fst]. symmetry. apply last_cons_default.
Qed.

(** [closeEditorsOf] requests the closing of every editor of the document,
    in order, and does nothing else. *)
Lemma closeEditorsOf_requests (fileName : string) (editors : list TextEditor) :
  forall w : World,
  closeEditorsOf fileName editors w =
  (Normal tt,
   set_requests
     (requests w ++
      map ShowThenCloseActive
        (filter (fun ed => String.eqb (editor_fileName ed) fileName) editors)) w).
Proof.
  induction editors as [|ed editors IH]; intros w.
  - simpl. unfold ret. rewrite app_nil_r. destruct w; reflexivity.
  - cbn [closeEditorsOf filter]. unfold bind, when.
    destruct (String.eqb (editor_fileName ed) fileName).
    + unfold modify. rewrite IH. simpl. rewrite <- app_assoc. reflexivity.
    + unfold ret. apply IH.
Qed.

(** Once [resolveCustomTextEditor] has run, [isBuffer] is set only while the
    panel is hidden, whatever events follow. *)
Lemma isBuffer_only_hidden (evs : list HostEvent) :
  forall w : World,
  (isBuffer w = true -> panel_visible w = false) ->
  isBuffer (run evs w) = true -> panel_visible (run evs w) = false.
Proof.
  induction evs as [|ev evs IH]; intros w Hw; [exact Hw|].
  unfold run. cbn [fold_left]. apply IH. clear IH evs.
  destruct ev as [t e|v|m| eds| |]; unfold dispatch.
  - set (w1 := if String.eqb (e_document_uri e) (doc_uri w) then set_doc_text t w else w).
    assert (Hw1 : isBuffer w1 = isBuffer w /\ panel_visible w1 = panel_visible w).
    { subst w1. destruct (String.eqb _ _); auto. }
    destruct Hw1 as (A & B).
    assert (Hw1 : isBuffer w1 = true -> panel_visible w1 = false)
      by (rewrite A, B; exact Hw).
    clearbody w1. clear A B Hw.
    destruct (changeDocumentSubscription w1); [|exact Hw1].
    callback.
    destruct (String.eqb (e_document_uri e) (doc_uri w1)
              && negb (Nat.eqb (e_contentChanges e) 0)); simpl; [|exact Hw1].
    destruct (panel_visible w1) eqn:Hv; simpl; [|auto].
    destruct (e_reason e) as [[|[p|[p|p|]|]|p]|]; simpl; rewrite ?Hv; try exact Hw1.
    destruct (isUpdateFromWebview w1); simpl; rewrite ?Hv; exact Hw1.
  - callback. destruct v; simpl.
    + destruct (isBuffer w) eqn:Hb; simpl; rewrite ?Hb; intros H; discriminate H.
    + destruct (isBuffer w); simpl; auto.
  - unfold exec.
    destruct (String.eqb_spec (e_type m) "vuejsoneditor.updateFromWebview") as [E1|E1].
    + rewrite (onDidReceiveMessage_updateFromWebview m w E1).
      cbv zeta. destruct (Validator (e_content m)); simpl; [|exact Hw].
      destruct (isValidJson w); simpl; [exact Hw|].
      destruct (jsonErrorMsg w); simpl; exact Hw.
    + unfold onDidReceiveMessage.
      destruct (String.eqb (e_type m) "vuejsoneditor.updateFromWebview") eqn:E;
        [apply String.eqb_eq in E; contradiction|].
      destruct (String.eqb (e_type m) "vuejsoneditor.noValidJson"); simpl; [|exact Hw].
      callback. destruct (isValidJson w); simpl; exact Hw.
  - callback.
    destruct (Nat.ltb 1 (List.length eds)); simpl; [|exact Hw].
    rewrite closeEditorsOf_requests. simpl. exact Hw.
  - unfold exec, onDidChangeConfiguration, bind, gets, modify. simpl. exact Hw.
  - unfold exec, onDidDispose, bind, gets, modify. simpl.
    rewrite closeEditorsOf_requests. simpl. exact Hw.
Qed.

(** C3.  While the panel is hidden, any positive number of plain changes of
    the document posts nothing and leaves [isBuffer] set.  When the panel
    becomes visible again exactly one message is posted, of type
    [vuejsoneditor.updateFromExtension], carrying the text the document has
    at that moment (the text of the last change), and [isBuffer] is cleared.
    In every state a session can reach, [isBuffer] is set only while the
    panel is hidden. *)
Theorem hidden_changes_flushed_once
    (w : World) (muts : list (jsstring * TextDocumentChangeEvent)) :
  panel_visible w = false ->
  changeDocumentSubscription w = true ->
  muts <> [] ->
  Forall (fun te => is_plain_mutation w (snd te)) muts ->
  let w1 := run (map (fun te => DidChangeTextDocument (fst te) (snd te)) muts) w in
  let w2 := dispatch (DidChangeViewState true) w1 in
  (posted w1 = posted w /\ isBuffer w1 = true)
  /\ (posted w2 =
        posted w ++ [{| msg_type := "vuejsoneditor.updateFromExtension";
                        msg_text := doc_text w2 |}]
      /\ doc_text w2 = last (map fst muts) (doc_text w)
      /\ isBuffer w2 = false)
  /\ (forall (w0 : World) (evs : list HostEvent),
        let w' := run evs (exec resolveCustomTextEditor w0) in
        isBuffer w' = true -> panel_visible w' = false).
Proof.
  intros Hv Hs Hne Hall w1 w2.
  destruct (hidden_mutations_buffered muts w Hv Hs Hall) as (P1 & P2 & P3 & P4).
  fold w1 in P1, P2, P3, P4.
  assert (P3' : isBuffer w1 = true) by (rewrite P3; destruct muts; congruence).
  split; [auto|]. split.
  - subst w2. unfold dispatch. callback. rewrite P3'. simpl.
    rewrite P1, P4. auto.
  - intros w0 evs w'. subst w'. apply isBuffer_only_hidden.
    callback.
    destruct (customConfigs_openStandardEditor w0
              && Nat.eqb (List.length (visibleTextEditors w0)) 0);
      simpl; discriminate.
Qed.

(** C4, what the code does.  A submission that fails validation leaves the
    document alone and throws; it sets [isValidJson] to false but creates no
    status-bar message and assigns no [jsonErrorMsg]: a session that showed
    no notice before shows none afterwards. *)
Theorem invalid_submission_creates_no_notice (w : World) (m : ViewMessage) :
  e_type m = "vuejsoneditor.updateFromWebview" ->
  Validator (e_content m) = None ->
  let w' := exec (onDidReceiveMessage m) w in
  doc_text w' = doc_text w /\ requests w' = requests w
  /\ isValidJson w' = false
  /\ statusBar w' = statusBar w /\ jsonErrorMsg w' = jsonErrorMsg w.
Proof.
  intros Ht Hv w'. subst w'. unfold exec.
  rewrite (onDidReceiveMessage_updateFromWebview m w Ht). cbv zeta.
  rewrite Hv. simpl. repeat split; reflexivity.
Qed.

(** C5, what the code does.  For blank content [getContentAsJson] returns the
    string ['{}'], and [JSON.stringify] of a string is that string in
    quotes: the text written is the four characters ["{}"], quotes
    included. *)
Theorem blank_content_written_quoted (content : jsstring) :
  JS.trim content = [] ->
  Validator content = Some [34; 123; 125; 34]%N
  /\ Validator content <> Some (js "{}").
Proof.
  intros Hb. unfold Validator. rewrite Hb. simpl. split; [reflexivity|discriminate].
Qed.

(** C7, as amended.  When more than one text editor is visible, the listener
    requests the closing of every visible text editor whose document has the
    file name of the session's document, none excepted, so that no text
    editor of that document is kept; with at most one text editor visible it
    requests nothing. *)
Theorem visible_editors_of_document_all_closed (w : World) :
  let w' := exec onDidChangeVisibleTextEditors w in
  (1 < List.length (visibleTextEditors w) ->
     requests w' =
       requests w ++
       map ShowThenCloseActive
         (filter (fun ed => String.eqb (editor_fileName ed) (doc_fileName w))
                 (visibleTextEditors w))
     /\ kept_editors w' = [])
  /\ (List.length (visibleTextEditors w) <= 1 -> requests w' = requests w).
Proof.
  intros w'. subst w'. callback.
  destruct (Nat.ltb_spec 1 (List.length (visibleTextEditors w))) as [H|H];
    (split; [intros H1 | intros H2]); try lia; simpl; auto.
  rewrite closeEditorsOf_requests. simpl. split; [reflexivity|].
  unfold kept_editors, close_requested. simpl.
  assert (G : forall eds, incl eds (visibleTextEditors w) ->
            filter (fun ed => String.eqb (editor_fileName ed) (doc_fileName w)
                     && negb (existsb (fun r => match r with
                                | ShowThenCloseActive ed' => Nat.eqb (editor_id ed') (editor_id ed)
                                | _ => false
                                end)
                         (requests w ++
                          map ShowThenCloseActive
                            (filter (fun ed0 => String.eqb (editor_fileName ed0) (doc_fileName w))
                                    (visibleTextEditors w))))) eds = []).
  { induction eds as [|ed eds IH]; intros Hin; [reflexivity|].
    cbn [filter].
    destruct (String.eqb (editor_fileName ed) (doc_fileName w)) eqn:E.
    - replace (existsb _ _) with true.
      + simpl. apply IH. intros x Hx. apply Hin. right. exact Hx.
      + symmetry. apply existsb_exists. exists (ShowThenCloseActive ed). split.
        * apply in_or_app. right. apply in_map. apply filter_In. split; [|exact E].
          apply Hin. left. reflexivity.
        * apply Nat.eqb_refl.
    - simpl. apply IH. intros x Hx. apply Hin. right. exact Hx. }
  apply G. apply incl_refl.
Qed.

(** C8, as amended.  A message of another type than
    [vuejsoneditor.updateFromWebview], and a submission whose content is
    blank or parses, received while [isValidJson] holds or a notice has been
    created, are handled without throwing.  A submission whose content does
    not parse makes the handler throw the error of [getContentAsJson], with
    [isValidJson] set to false and the document untouched. *)
Theorem onDidReceiveMessage_completion (w : World) (m : ViewMessage) :
  (e_type m <> "vuejsoneditor.updateFromWebview" ->
     fst (onDidReceiveMessage m w) = Normal tt)
  /\ (e_type m = "vuejsoneditor.updateFromWebview" ->
      Validator (e_content m) <> None ->
      isValidJson w = true \/ jsonErrorMsg w <> None ->
      fst (onDidReceiveMessage m w) = Normal tt)
  /\ (e_type m = "vuejsoneditor.updateFromWebview" ->
      Validator (e_content m) = None ->
      fst (onDidReceiveMessage m w) =
        Throw (Error "Could not get document as json. Content is not valid json")
      /\ isValidJson (exec (onDidReceiveMessage m) w) = false
      /\ doc_text (exec (onDidReceiveMessage m) w) = doc_text w).
Proof.
  split; [|split].
  - intros Hn. unfold onDidReceiveMessage.
    destruct (String.eqb (e_type m) "vuejsoneditor.updateFromWebview") eqn:E;
      [apply String.eqb_eq in E; contradiction|].
    destruct (String.eqb (e_type m) "vuejsoneditor.noValidJson"); [|reflexivity].
    callback. destruct (isValidJson w); reflexivity.
  - intros Ht Hv Hs. rewrite (onDidReceiveMessage_updateFromWebview m w Ht).
    cbv zeta. destruct (Validator (e_content m)); [|congruence].
    destruct (isValidJson w); [reflexivity|].
    destruct (jsonErrorMsg w); [reflexivity|].
    destruct Hs; congruence.
  - intros Ht Hv. unfold exec.
    rewrite (onDidReceiveMessage_updateFromWebview m w Ht). cbv zeta.
    rewrite Hv. simpl. auto.
Qed.

(** C9, as amended.  The initial message of a session is of type
    [vuejsoneditor.updateFromExtension] and carries the text of the document
    as it is; for a document holding [{"a":1}] the payload is [{"a":1}]. *)
Theorem initial_message_is_document_text (w : World) :
  posted (exec resolveCustomTextEditor w) =
    posted w ++ [{| msg_type := "vuejsoneditor.updateFromExtension";
                    msg_text := doc_text w |}]
  /\ (doc_text w = jsq "{'a':1}" ->
      map msg_text (posted (exec resolveCustomTextEditor w))
      = map msg_text (posted w) ++ [jsq "{'a':1}"]).
Proof.
  assert (H : posted (exec resolveCustomTextEditor w) =
              posted w ++ [{| msg_type := "vuejsoneditor.updateFromExtension";
                              msg_text := doc_text w |}]).
  { callback.
    destruct (customConfigs_openStandardEditor w
              && Nat.eqb (List.length (visibleTextEditors w)) 0); reflexivity. }
  split; [exact H|]. intros Ht. rewrite H, map_app, Ht. reflexivity.
Qed.

(** C10.  In a session that has created no notice ([jsonErrorMsg] still
    undefined), a submission that does not parse sets [isValidJson] to false
    and creates no notice; the next submission that is blank or parses then
    calls [dispose] on the undefined [jsonErrorMsg], which throws a
    TypeError. *)
Theorem dispose_of_missing_notice (w : World) (bad good : ViewMessage) :
  e_type bad = "vuejsoneditor.updateFromWebview" ->
  e_type good = "vuejsoneditor.updateFromWebview" ->
  jsonErrorMsg w = None ->
  Validator (e_content bad) = None ->
  Validator (e_content good) <> None ->
  let w1 := exec (onDidReceiveMessage bad) w in
  isValidJson w1 = false /\ jsonErrorMsg w1 = None /\ statusBar w1 = statusBar w
  /\ fst (onDidReceiveMessage good w1) =
       Throw (TypeError "Cannot read properties of undefined (reading 'dispose')").
Proof.
  intros Hb Hg Hj Hvb Hvg w1.
  assert (H1 : isValidJson w1 = false /\ jsonErrorMsg w1 = None
               /\ statusBar w1 = statusBar w).
  { subst w1. unfold exec.
    rewrite (onDidReceiveMessage_updateFromWebview bad w Hb). cbv zeta.
    rewrite Hvb. simpl. auto. }
  destruct H1 as (A & B & C). repeat split; auto.
  rewrite (onDidReceiveMessage_updateFromWebview good w1 Hg). cbv zeta.
  destruct (Validator (e_content good)); [|congruence].
  rewrite A, B. reflexivity.
Qed.

(** C6.  For a text that parses, the text [setChangesToDocument] writes is
    a fixed point of the normalisation: normalising it again yields the same
    text.  The numbers are those of any model obeying the laws of
    [NumberToString] and [StringToNumber]. *)
Theorem Validator_idempotent (s : jsstring) (v : JSValue) :
  JSNumberLaws NM ->
  JSON_parse s = Some v ->
  exists t, Validator s = Some t /\ Validator t = Some t.
Proof.
  intros laws Hs. exists (JSON_stringify v 4). split.
  - apply Validator_of_parsed. exact Hs.
  - pose proof (JSON_parse_well_formed s v Hs) as Hwf.
    pose proof (JSON_parse_stringify laws 32%N [32; 32; 32]%N eq_refl v Hwf) as Hp.
    change (serialize [32; 32; 32; 32]%N [] v) with (JSON_stringify v 4) in Hp.
    rewrite (Validator_of_parsed (JSON_stringify v 4) (reread v) Hp).
    unfold JSON_stringify. rewrite (serialize_reread laws). reflexivity.
Qed.

End Controller.

(** * Further properties of the callbacks *)

Section Callbacks.
Context {NM : JSNumber}.
Local Open Scope string_scope.
Local Open Scope list_scope.

Ltac callback :=
  unfold exec, onDidReceiveMessage, onDidChangeTextDocument,
    onDidChangeViewState, onDidChangeVisibleTextEditors, onDidDispose,
    onDidChangeConfiguration, resolveCustomTextEditor,
    updateWebview, postMessage, jsonErrorMsg_dispose, setStatusBarMessage,
    applyEdit, when, bind, gets, modify, ret, throw;
  simpl.

(** The handling of a [noValidJson] message. *)
Lemma onDidReceiveMessage_noValidJson (m : ViewMessage) (w : World) :
  e_type m = "vuejsoneditor.noValidJson" ->
  onDidReceiveMessage m w =
  if isValidJson w then
    (Normal tt,
     set_isValidJson false
       (set_jsonErrorMsg (Some (nextDisposable w))
          (set_nextDisposable (S (nextDisposable w))
             (set_statusBar (statusBar w ++ [nextDisposable w]) w))))
  else (Normal tt, w).
Proof.
  intros Ht. unfold onDidReceiveMessage. rewrite Ht.
  change ("vuejsoneditor.noValidJson" =? "vuejsoneditor.updateFromWebview") with false.
  rewrite String.eqb_refl. callback. destruct (isValidJson w); reflexivity.
Qed.

(** A message of any other type is dropped. *)
Lemma onDidReceiveMessage_other (m : ViewMessage) (w : World) :
  e_type m <> "vuejsoneditor.updateFromWebview" ->
  e_type m <> "vuejsoneditor.noValidJson" ->
  onDidReceiveMessage m w = (Normal tt, w).
Proof.
  intros H1 H2. unfold onDidReceiveMessage.
  destruct (String.eqb_spec (e_type m) "vuejsoneditor.updateFromWebview");
    [contradiction|].
  destruct (String.eqb_spec (e_type m) "vuejsoneditor.noValidJson");
    [contradiction|].
  reflexivity.
Qed.

(** X1.  A change event of another document, or one without content
    changes, is ignored altogether: nothing is posted, nothing is buffered,
    and a pending [isUpdateFromWebview] is not used up. *)
Theorem foreign_or_empty_change_ignored (w : World) (e : TextDocumentChangeEvent) :
  e_document_uri e <> doc_uri w \/ e_contentChanges e = 0 ->
  onDidChangeTextDocument e w = (Normal tt, w).
Proof.
  intros H. unfold onDidChangeTextDocument, bind, gets.
  destruct (String.eqb_spec (e_document_uri e) (doc_uri w)) as [E|E]; simpl.
  - destruct H as [H|H]; [contradiction|]. rewrite H. reflexivity.
  - reflexivity.
Qed.

(** X2.  The flag [isUpdateFromWebview] suppresses one plain change and no
    more: in a visible session, of two plain changes that follow a
    submission the first posts nothing and the second is forwarded with the
    text the document then has. *)
Theorem echo_flag_is_one_shot (w : World) (m : ViewMessage)
    (t1 t2 : jsstring) (e1 e2 : TextDocumentChangeEvent) :
  e_type m = "vuejsoneditor.updateFromWebview" ->
  panel_visible w = true ->
  changeDocumentSubscription w = true ->
  is_plain_mutation w e1 -> is_plain_mutation w e2 ->
  let w1 := dispatch (DidReceiveMessage m) w in
  let w2 := dispatch (DidChangeTextDocument t1 e1) w1 in
  let w3 := dispatch (DidChangeTextDocument t2 e2) w2 in
  posted w2 = posted w
  /\ posted w3 = posted w ++ [{| msg_type := "vuejsoneditor.updateFromExtension";
                                 msg_text := t2 |}]
  /\ isUpdateFromWebview w3 = false.
Proof.
  intros Ht Hv Hs He1 He2 w1 w2 w3.
  assert (H1 : posted w1 = posted w /\ isUpdateFromWebview w1 = true
               /\ panel_visible w1 = true /\ changeDocumentSubscription w1 = true
               /\ doc_uri w1 = doc_uri w).
  { subst w1. unfold dispatch, exec.
    rewrite (onDidReceiveMessage_updateFromWebview m w Ht). cbv zeta.
    destruct (Validator (e_content m)); simpl; [|auto].
    destruct (isValidJson w); simpl; [auto|].
    destruct (jsonErrorMsg w); simpl; auto. }
  destruct H1 as (P1 & F1 & V1 & S1 & U1).
  assert (H2 : posted w2 = posted w /\ isUpdateFromWebview w2 = false
               /\ panel_visible w2 = true /\ changeDocumentSubscription w2 = true
               /\ doc_uri w2 = doc_uri w).
  { subst w2. unfold dispatch.
    destruct He1 as (A & B & C). rewrite U1, A, String.eqb_refl.
    simpl changeDocumentSubscription. rewrite S1. unfold exec.
    rewrite onDidChangeTextDocument_plain
      by (repeat split; simpl; auto; congruence).
    simpl. rewrite V1, F1. simpl. repeat split; auto. }
  destruct H2 as (P2 & F2 & V2 & S2 & U2).
  split; [exact P2|].
  subst w3. unfold dispatch.
  destruct He2 as (A & B & C). rewrite U2, A, String.eqb_refl.
  simpl changeDocumentSubscription. rewrite S2. unfold exec.
  rewrite onDidChangeTextDocument_plain
    by (repeat split; simpl; auto; congruence).
  simpl. rewrite V2, F2. simpl. rewrite P2. auto.
Qed.

Lemma dispatch_message (m : ViewMessage) (w : World) :
  dispatch (DidReceiveMessage m) w = snd (onDidReceiveMessage m w).
Proof. reflexivity. Qed.

(** Messages of type [noValidJson], one after the other. *)
Lemma noValidJson_repeated (ms : list ViewMessage) :
  Forall (fun m => e_type m = "vuejsoneditor.noValidJson") ms ->
  forall w, isValidJson w = false ->
  run (map DidReceiveMessage ms) w = w.
Proof.
  induction ms as [|m ms IH]; intros H w Hw; [reflexivity|].
  inversion H as [|x l Hm Hms]; subst.
  unfold run. cbn [map fold_left]. rewrite dispatch_message.
  rewrite (onDidReceiveMessage_noValidJson m w Hm), Hw. cbn [snd].
  apply (IH Hms w Hw).
Qed.

(** X3.  However many [noValidJson] messages arrive in a row, one notice is
    created: the first message puts one status-bar message on display, keeps
    its Disposable in [jsonErrorMsg] and clears [isValidJson]; the further
    ones change nothing.  The document is not touched and nothing is
    posted. *)
Theorem noValidJson_creates_one_notice (w : World) (ms : list ViewMessage) :
  isValidJson w = true ->
  ms <> [] ->
  Forall (fun m => e_type m = "vuejsoneditor.noValidJson") ms ->
  let w' := run (map DidReceiveMessage ms) w in
  statusBar w' = statusBar w ++ [nextDisposable w]
  /\ jsonErrorMsg w' = Some (nextDisposable w)
  /\ isValidJson w' = false
  /\ doc_text w' = doc_text w /\ posted w' = posted w
  /\ requests w' = requests w.
Proof.
  intros Hv Hne Hall w'. destruct ms as [|m ms]; [congruence|].
  inversion Hall as [|x l Hm Hms]; subst.
  subst w'. unfold run. cbn [map fold_left]. rewrite dispatch_message.
  rewrite (onDidReceiveMessage_noValidJson m w Hm), Hv. cbn [snd].
  pose proof (noValidJson_repeated ms Hms) as R. unfold run in R.
  rewrite R by reflexivity. simpl. repeat split; reflexivity.
Qed.

Lemma filter_fresh_handle (h : nat) (l : list nat) :
  Forall (fun x => x < h) l ->
  filter (fun x => negb (Nat.eqb x h)) (l ++ [h]) = l.
Proof.
  intros H. rewrite filter_app. simpl. rewrite Nat.eqb_refl. simpl.
  rewrite app_nil_r. induction H as [|x l Hx Hl IH]; [reflexivity|].
  simpl. destruct (Nat.eqb_spec x h); [lia|]. simpl. f_equal. exact IH.
Qed.

(** X4.  A notice is removed by the next submission that is blank or
    parses: after a [noValidJson] message followed by such a submission the
    status bar is as it was before the notice, [isValidJson] holds again, the
    handler ended normally and the document holds the normalised text. *)
Theorem notice_cleared_by_valid_submission
    (w : World) (n m : ViewMessage) (t : jsstring) :
  e_type n = "vuejsoneditor.noValidJson" ->
  e_type m = "vuejsoneditor.updateFromWebview" ->
  Validator (e_content m) = Some t ->
  isValidJson w = true ->
  Forall (fun h => h < nextDisposable w) (statusBar w) ->
  let w1 := exec (onDidReceiveMessage n) w in
  let r := onDidReceiveMessage m w1 in
  statusBar w1 = statusBar w ++ [nextDisposable w]
  /\ fst r = Normal tt
  /\ statusBar (snd r) = statusBar w
  /\ isValidJson (snd r) = true
  /\ doc_text (snd r) = t.
Proof.
  intros Hn Hm Hv Hw Hf w1 r. subst r w1. unfold exec.
  rewrite (onDidReceiveMessage_noValidJson n w Hn), Hw. cbn [snd].
  rewrite (onDidReceiveMessage_updateFromWebview m _ Hm). cbv zeta.
  rewrite Hv. simpl. rewrite (filter_fresh_handle _ _ Hf).
  repeat split; reflexivity.
Qed.

(** X5.  Whatever [setChangesToDocument] writes is valid JSON: the text it
    computes, for blank content as for content that parses, is accepted by
    [JSON.parse]. *)
Theorem written_text_parses (content t : jsstring) :
  JSNumberLaws NM ->
  Validator content = Some t ->
  exists v, JSON_parse t = Some v.
Proof.
  intros laws. unfold Validator.
  destruct (Nat.eqb (List.length (JS.trim content)) 0).
  - intros H. injection H as <-. exists (JStr (js "{}")).
    apply (JSON_parse_fuel_enough _ 1 (JStr (js "{}")) []); reflexivity.
  - destruct (JSON_parse content) as [v|] eqn:E; [|discriminate].
    intros H. injection H as <-. exists (reread v).
    apply (JSON_parse_stringify laws 32%N [32; 32; 32]%N eq_refl v).
    apply (JSON_parse_well_formed content v E).
Qed.

(** X6.  A submission that parses is written without change of meaning:
    one edit of the session's document is requested, its text is the
    pretty-printed value, and reading the document back gives the submitted
    value, each number being the number of its printed form. *)
Theorem submission_preserves_value (w : World) (m : ViewMessage) (v : JSValue) :
  JSNumberLaws NM ->
  e_type m = "vuejsoneditor.updateFromWebview" ->
  JSON_parse (e_content m) = Some v ->
  let w' := exec (onDidReceiveMessage m) w in
  doc_text w' = JSON_stringify v 4
  /\ requests w' = requests w ++ [ApplyEdit (doc_uri w) (JSON_stringify v 4)]
  /\ JSON_parse (doc_text w') = Some (reread v).
Proof.
  intros laws Ht Hp w'.
  assert (H : doc_text w' = JSON_stringify v 4
              /\ requests w' = requests w ++ [ApplyEdit (doc_uri w) (JSON_stringify v 4)]).
  { subst w'. unfold exec.
    rewrite (onDidReceiveMessage_updateFromWebview m w Ht). cbv zeta.
    rewrite (Validator_of_parsed (e_content m) v Hp).
    destruct (isValidJson w); simpl; [auto|].
    destruct (jsonErrorMsg w); simpl; auto. }
  destruct H as (A & B). repeat split; [exact A|exact B|].
  rewrite A.
  apply (JSON_parse_stringify laws 32%N [32; 32; 32]%N eq_refl v).
  apply (JSON_parse_well_formed (e_content m) v Hp).
Qed.

(** The requests [closeEditorsOf] leaves behind. *)
Lemma closeEditorsOf_state (fileName : string) (editors : list TextEditor)
    (w : World) :
  snd (closeEditorsOf fileName editors w) =
  set_requests
    (requests w ++
     map ShowThenCloseActive
       (filter (fun ed => String.eqb (editor_fileName ed) fileName) editors)) w.
Proof. rewrite closeEditorsOf_requests. reflexivity. Qed.



(** X8.  [isValidJson] belongs to the provider and is not reset when an
    editor is opened, [jsonErrorMsg] belongs to the session and starts out
    undefined: in a session opened while [isValidJson] is false, the first
    submission that is blank or parses is written to the document and then
    makes the handler throw the TypeError of [dispose]. *)
Theorem stale_flag_breaks_new_session (w : World) (m : ViewMessage) (t : jsstring) :
  isValidJson w = false ->
  e_type m = "vuejsoneditor.updateFromWebview" ->
  Validator (e_content m) = Some t ->
  let r := onDidReceiveMessage m (exec resolveCustomTextEditor w) in
  fst r = Throw (TypeError "Cannot read properties of undefined (reading 'dispose')")
  /\ doc_text (snd r) = t
  /\ isValidJson (snd r) = false.
Proof.
  intros Hv Ht Hval r. subst r.
  rewrite (onDidReceiveMessage_updateFromWebview m _ Ht). cbv zeta. rewrite Hval.
  assert (H : isValidJson (exec resolveCustomTextEditor w) = false
              /\ jsonErrorMsg (exec resolveCustomTextEditor w) = None).
  { callback.
    destruct (customConfigs_openStandardEditor w
              && Nat.eqb (List.length (visibleTextEditors w)) 0); simpl; auto. }
  destruct H as (A & B). rewrite A, B. simpl. rewrite A. auto.
Qed.







(** X10.  The two callbacks that close editors request the closing of
    visible text editors of the session's document only: every request they
    add names an editor that is visible and whose document has the file name
    of the session's document. *)
Theorem only_own_editors_closed (w : World) (r : HostRequest) :
  (In r (requests (exec onDidChangeVisibleTextEditors w))
   \/ In r (requests (exec onDidDispose w))) ->
  In r (requests w)
  \/ exists ed, r = ShowThenCloseActive ed
                /\ In ed (visibleTextEditors w)
                /\ editor_fileName ed = doc_fileName w.
Proof.
  assert (G : In r (requests w ++
                    map ShowThenCloseActive
                      (filter (fun ed => String.eqb (editor_fileName ed) (doc_fileName w))
                              (visibleTextEditors w))) ->
              In r (requests w)
              \/ exists ed, r = ShowThenCloseActive ed
                            /\ In ed (visibleTextEditors w)
                            /\ editor_fileName ed = doc_fileName w).
  { intros H. apply in_app_or in H. destruct H as [H|H]; [left; exact H|].
    right. apply in_map_iff in H. destruct H as (ed & <- & Hed).
    apply filter_In in Hed. destruct Hed as (Hin & E).
    apply String.eqb_eq in E. eauto. }
  intros [H|H].
  - revert H. callback.
    destruct (Nat.ltb 1 (List.length (visibleTextEditors w))); simpl; [|auto].
    rewrite closeEditorsOf_state. simpl. exact G.
  - revert H. callback. rewrite closeEditorsOf_state. simpl. exact G.
Qed.

(** Document changes delivered after the panel was disposed. *)
Lemma changes_after_dispose (chs : list (jsstring * TextDocumentChangeEvent)) :
  forall w, changeDocumentSubscription w = false ->
  let w' := run (map (fun te => DidChangeTextDocument (fst te) (snd te)) chs) w in
  posted w' = posted w /\ isBuffer w' = isBuffer w
  /\ isUpdateFromWebview w' = isUpdateFromWebview w.
Proof.
  induction chs as [|[t e] chs IH]; intros w Hs; [simpl; auto|].
  unfold run. cbn [map fold_left fst snd].
  set (w1 := dispatch (DidChangeTextDocument t e) w).
  assert (H1 : changeDocumentSubscription w1 = false /\ posted w1 = posted w
               /\ isBuffer w1 = isBuffer w
               /\ isUpdateFromWebview w1 = isUpdateFromWebview w).
  { subst w1. unfold dispatch.
    destruct (String.eqb (e_document_uri e) (doc_uri w)); simpl; rewrite Hs; auto. }
  destruct H1 as (A & B & C & D).
  destruct (IH w1 A) as (B' & C' & D'). unfold run in B', C', D'.
  rewrite B', C', D'. auto.
Qed.

(** X11.  Disposing the panel requests the closing of every visible text
    editor of the document, be it the only visible editor, and ends the
    forwarding: the document changes that follow post nothing and leave the
    flags of the session alone. *)
Theorem disposed_session_is_silent
    (w : World) (chs : list (jsstring * TextDocumentChangeEvent)) :
  let w1 := dispatch DidDispose w in
  let w2 := run (map (fun te => DidChangeTextDocument (fst te) (snd te)) chs) w1 in
  requests w1 =
    requests w ++
    map ShowThenCloseActive
      (filter (fun ed => String.eqb (editor_fileName ed) (doc_fileName w))
              (visibleTextEditors w))
  /\ posted w2 = posted w
  /\ isBuffer w2 = isBuffer w
  /\ isUpdateFromWebview w2 = isUpdateFromWebview w.
Proof.
  intros w1 w2.
  assert (H1 : requests w1 =
               requests w ++
               map ShowThenCloseActive
                 (filter (fun ed => String.eqb (editor_fileName ed) (doc_fileName w))
                         (visibleTextEditors w))
               /\ changeDocumentSubscription w1 = false /\ posted w1 = posted w
               /\ isBuffer w1 = isBuffer w
               /\ isUpdateFromWebview w1 = isUpdateFromWebview w).
  { subst w1. unfold dispatch. callback. rewrite closeEditorsOf_state. simpl. auto. }
  destruct H1 as (R & S1 & P & B & F). split; [exact R|].
  destruct (changes_after_dispose chs w1 S1) as (P' & B' & F').
  fold w2 in P', B', F'. rewrite P', B', F'. auto.
Qed.

(** X12.  The controller writes the document only when handling a
    submission that is blank or parses: no other event adds an edit
    request. *)
Theorem edits_only_by_submission (ev : HostEvent) (w : World)
    (uri : string) (text : jsstring) :
  ~ writes_document ev ->
  In (ApplyEdit uri text) (requests (dispatch ev w)) ->
  In (ApplyEdit uri text) (requests w).
Proof.
  intros Hn.
  assert (Hclose : forall eds w0,
            In (ApplyEdit uri text)
               (requests w0 ++ map ShowThenCloseActive eds) ->
            In (ApplyEdit uri text) (requests w0)).
  { intros eds w0 H. apply in_app_or in H. destruct H as [H|H]; [exact H|].
    apply in_map_iff in H. destruct H as (ed & E & _). discriminate E. }
  destruct ev as [t e|v|m|eds| |]; unfold dispatch.
  - set (w1 := if String.eqb (e_document_uri e) (doc_uri w)
               then set_doc_text t w else w).
    assert (H1 : requests w1 = requests w)
      by (subst w1; destruct (String.eqb _ _); reflexivity).
    rewrite <- H1. clearbody w1.
    destruct (changeDocumentSubscription w1); [|auto].
    callback.
    destruct (String.eqb (e_document_uri e) (doc_uri w1)
              && negb (Nat.eqb (e_contentChanges e) 0)); simpl; [|auto].
    destruct (panel_visible w1); simpl; [|auto].
    destruct (e_reason e) as [[|[p|[p|p|]|]|p]|]; simpl; auto.
    destruct (isUpdateFromWebview w1); simpl; auto.
  - callback. destruct (v && isBuffer w); simpl; auto.
  - unfold exec.
    destruct (String.eqb_spec (e_type m) "vuejsoneditor.updateFromWebview") as [E1|E1].
    + rewrite (onDidReceiveMessage_updateFromWebview m w E1). cbv zeta.
      destruct (Validator (e_content m)) eqn:Ev; [|simpl; auto].
      exfalso. apply Hn. simpl. split; [exact E1|congruence].
    + destruct (String.eqb_spec (e_type m) "vuejsoneditor.noValidJson") as [E2|E2].
      * rewrite (onDidReceiveMessage_noValidJson m w E2).
        destruct (isValidJson w); simpl; auto.
      * rewrite (onDidReceiveMessage_other m w E1 E2). simpl. auto.
  - callback. destruct (Nat.ltb 1 (List.length eds)); simpl; [|auto].
    rewrite closeEditorsOf_state. simpl. apply Hclose.
  - callback. auto.
  - callback. rewrite closeEditorsOf_state. simpl. apply Hclose.
Qed.

(** X13.  Changes of visibility with nothing buffered post nothing: hiding
    and showing the panel any number of times does not send the document
    again. *)
Theorem visibility_changes_post_nothing (vs : list bool) :
  forall w : World,
  isBuffer w = false ->
  let w' := run (map DidChangeViewState vs) w in
  posted w' = posted w /\ isBuffer w' = false.
Proof.
  induction vs as [|v vs IH]; intros w Hb; [simpl; auto|].
  unfold run. cbn [map fold_left].
  set (w1 := dispatch (DidChangeViewState v) w).
  assert (H1 : posted w1 = posted w /\ isBuffer w1 = false).
  { subst w1. unfold dispatch. callback. rewrite Hb, andb_false_r. simpl. auto. }
  destruct H1 as (P & B). destruct (IH w1 B) as (P' & B').
  unfold run in P', B'. rewrite P', B'. auto.
Qed.

(** X14.  A submission handled while the panel is hidden costs the view the
    next change: the plain change it causes is buffered with the flag left
    set, showing the panel posts the submitted text back, and the plain
    change that follows, though made elsewhere, finds the flag set and is
    not forwarded. *)
Theorem hidden_submission_loses_next_change
    (w : World) (m : ViewMessage) (t t2 : jsstring)
    (e1 e2 : TextDocumentChangeEvent) :
  e_type m = "vuejsoneditor.updateFromWebview" ->
  Validator (e_content m) = Some t ->
  panel_visible w = false ->
  changeDocumentSubscription w = true ->
  is_plain_mutation w e1 -> is_plain_mutation w e2 ->
  let w1 := dispatch (DidReceiveMessage m) w in
  let w2 := dispatch (DidChangeTextDocument t e1) w1 in
  let w3 := dispatch (DidChangeViewState true) w2 in
  let w4 := dispatch (DidChangeTextDocument t2 e2) w3 in
  posted w3 = posted w ++ [{| msg_type := "vuejsoneditor.updateFromExtension";
                              msg_text := t |}]
  /\ posted w4 = posted w3
  /\ doc_text w4 = t2.
Proof.
  intros Ht Hval Hv Hs He1 He2 w1 w2 w3 w4.
  assert (H1 : posted w1 = posted w /\ isUpdateFromWebview w1 = true
               /\ panel_visible w1 = false /\ changeDocumentSubscription w1 = true
               /\ doc_uri w1 = doc_uri w).
  { subst w1. unfold dispatch, exec.
    rewrite (onDidReceiveMessage_updateFromWebview m w Ht). cbv zeta.
    rewrite Hval. destruct (isValidJson w); simpl; [auto|].
    destruct (jsonErrorMsg w); simpl; auto. }
  destruct H1 as (P1 & F1 & V1 & S1 & U1).
  assert (H2 : posted w2 = posted w /\ isUpdateFromWebview w2 = true
               /\ isBuffer w2 = true /\ changeDocumentSubscription w2 = true
               /\ doc_uri w2 = doc_uri w /\ doc_text w2 = t).
  { subst w2. unfold dispatch.
    destruct He1 as (A & B & C). rewrite U1, A, String.eqb_refl.
    simpl changeDocumentSubscription. rewrite S1. unfold exec.
    rewrite onDidChangeTextDocument_plain
      by (repeat split; simpl; auto; congruence).
    simpl. rewrite V1. simpl. repeat split; auto. }
  destruct H2 as (P2 & F2 & B2 & S2 & U2 & T2).
  assert (H3 : posted w3 = posted w ++ [{| msg_type := "vuejsoneditor.updateFromExtension";
                                           msg_text := t |}]
               /\ isUpdateFromWebview w3 = true /\ panel_visible w3 = true
               /\ changeDocumentSubscription w3 = true /\ doc_uri w3 = doc_uri w).
  { subst w3. unfold dispatch. callback. rewrite B2. simpl.
    rewrite P2, T2. auto. }
  destruct H3 as (P3 & F3 & V3 & S3 & U3).
  split; [exact P3|].
  subst w4. unfold dispatch.
  destruct He2 as (A & B & C). rewrite U3, A, String.eqb_refl.
  simpl changeDocumentSubscription. rewrite S3. unfold exec.
  rewrite onDidChangeTextDocument_plain
    by (repeat split; simpl; auto; congruence).
  simpl. rewrite V3, F3. simpl. auto.
Qed.

End Callbacks.

(** * The properties on sample sessions *)

Local Open Scope string_scope.
Local Open Scope list_scope.

(** C1: a hidden session.  The submission sets the flag, the plain change
    that follows is buffered and leaves the flag set. *)
Lemma echo_flag_stays_set_when_hidden :
  let w := demo_session (jsq "{'a':1}") false in
  let w1 := exec (onDidReceiveMessage (fromView (jsq "{'b':2}"))) w in
  let w2 := exec (onDidChangeTextDocument (changeOf "file:///demo.form" None)) w1 in
  ~ (isUpdateFromWebview w1 = true /\ isUpdateFromWebview w2 = false
     /\ posted w2 = posted w).
Proof. vm_compute. intros (_ & H & _). discriminate H. Qed.

Lemma echo_suppressed_witness :
  let w := demo_session (jsq "{'a':1}") true in
  let m := fromView (jsq "{'b':2}") in
  let e := changeOf "file:///demo.form" None in
  e_type m = "vuejsoneditor.updateFromWebview"
  /\ is_plain_mutation w e
  /\ posted (exec (onDidChangeTextDocument e) (exec (onDidReceiveMessage m) w))
     = posted w.
Proof.
  intros w m e.
  assert (H1 : e_type m = "vuejsoneditor.updateFromWebview") by reflexivity.
  assert (H2 : is_plain_mutation w e)
    by (split; [reflexivity | split; [discriminate | reflexivity]]).
  split; [exact H1|]. split; [exact H2|].
  destruct (echo_suppressed w m e H1 H2) as (_ & H & _). exact H.
Defined.

(** C2: a hidden session.  An Undo posts nothing. *)
Lemma undo_not_forwarded_when_hidden :
  let w := demo_session (jsq "{'a':1}") false in
  let e := changeOf "file:///demo.form" (Some 1%Z) in
  is_undo_or_redo w e
  /\ ~ (exists m, posted (exec (onDidChangeTextDocument e) w) = posted w ++ [m]).
Proof.
  split.
  - split; [reflexivity | split; [discriminate | left; reflexivity]].
  - intros (m & H). vm_compute in H. discriminate H.
Qed.

Lemma undo_redo_forwarded_witness :
  let w := demo_session (jsq "{'a':1}") true in
  let e := changeOf "file:///demo.form" (Some 2%Z) in
  is_undo_or_redo w e
  /\ (panel_visible w = true ->
      posted (exec (onDidChangeTextDocument e) w) =
        posted w ++ [{| msg_type := "vuejsoneditor.redo"; msg_text := doc_text w |}]).
Proof.
  intros w e.
  assert (H : is_undo_or_redo w e)
    by (split; [reflexivity | split; [discriminate | right; reflexivity]]).
  split; [exact H|]. intros Hv.
  destruct (undo_redo_forwarded w e H) as (G & _).
  destruct (G Hv) as (_ & G2 & _). exact (G2 eq_refl).
Defined.

Lemma hidden_changes_flushed_once_witness :
  let w := demo_session (jsq "{'a':1}") false in
  let muts := [(jsq "{'a':2}", changeOf "file:///demo.form" None);
               (jsq "{'a':3}", changeOf "file:///demo.form" None)] in
  let w1 := run (map (fun te => DidChangeTextDocument (fst te) (snd te)) muts) w in
  let w2 := dispatch (DidChangeViewState true) w1 in
  panel_visible w = false
  /\ changeDocumentSubscription w = true
  /\ muts <> []
  /\ Forall (fun te => is_plain_mutation w (snd te)) muts
  /\ posted w1 = posted w
  /\ posted w2 = posted w ++ [{| msg_type := "vuejsoneditor.updateFromExtension";
                                 msg_text := jsq "{'a':3}" |}].
Proof.
  intros w muts w1 w2.
  assert (H1 : panel_visible w = false) by reflexivity.
  assert (H2 : changeDocumentSubscription w = true) by reflexivity.
  assert (H3 : muts <> []) by discriminate.
  assert (H4 : Forall (fun te => is_plain_mutation w (snd te)) muts).
  { repeat constructor; simpl; discriminate. }
  repeat (split; [assumption|]).
  destruct (hidden_changes_flushed_once w muts H1 H2 H3 H4)
    as ((A & _) & (B & C & _) & _).
  split; [exact A|]. fold w1 w2 in B, C. rewrite B, C. reflexivity.
Defined.

(** C4: a session that has shown no notice.  After the invalid submission
    the document is unchanged, [isValidJson] is false, and there is no
    status-bar message and no [jsonErrorMsg]. *)
Lemma invalid_submission_creates_no_notice_witness :
  let w := demo_session (jsq "{'a':1}") true in
  let m := fromView (js "{invalid") in
  let w' := exec (onDidReceiveMessage m) w in
  e_type m = "vuejsoneditor.updateFromWebview"
  /\ Validator (e_content m) = None
  /\ doc_text w' = jsq "{'a':1}" /\ isValidJson w' = false
  /\ statusBar w' = [] /\ jsonErrorMsg w' = None.
Proof.
  intros w m w'.
  assert (H1 : e_type m = "vuejsoneditor.updateFromWebview") by reflexivity.
  assert (H2 : Validator (e_content m) = None) by (vm_compute; reflexivity).
  split; [exact H1|]. split; [exact H2|].
  destruct (invalid_submission_creates_no_notice w m H1 H2) as (A & _ & B & C & D).
  fold w' in A, B, C, D. rewrite A, B, C, D. repeat split; reflexivity.
Defined.

(** C5: the empty text and a text of three spaces. *)
Lemma blank_content_written_quoted_witness :
  JS.trim (js "") = [] /\ JS.trim (js "   ") = []
  /\ Validator (js "") = Some [34; 123; 125; 34]%N
  /\ Validator (js "   ") = Some [34; 123; 125; 34]%N
  /\ Validator (js "   ") <> Some (js "{}").
Proof.
  assert (H1 : JS.trim (js "") = []) by reflexivity.
  assert (H2 : JS.trim (js "   ") = []) by reflexivity.
  split; [exact H1|]. split; [exact H2|].
  destruct (blank_content_written_quoted (js "") H1) as (A & _).
  destruct (blank_content_written_quoted (js "   ") H2) as (B & C).
  auto.
Defined.

Lemma Validator_idempotent_witness :
  let s := jsq "{'b': [1, 2.50, 'x'], '10': null, '2': {}}" in
  JSNumberLaws DecimalNumber
  /\ (exists v, JSON_parse s = Some v)
  /\ (exists t, Validator s = Some t /\ Validator t = Some t).
Proof.
  intros s.
  assert (H : exists v, JSON_parse s = Some v).
  { destruct (JSON_parse s) as [v|] eqn:E; [exists v; reflexivity|].
    vm_compute in E. discriminate E. }
  split; [exact DecimalNumber_laws|]. split; [exact H|].
  destruct H as (v & Hv).
  exact (Validator_idempotent s v DecimalNumber_laws Hv).
Defined.

(** C7: two visible text editors of the session's document.  The closing
    of both is requested; none is kept. *)
Lemma two_editors_both_closed :
  let w := dispatch (DidChangeVisibleTextEditors [demo_editor 1; demo_editor 2])
             (demo_session (jsq "{}") true) in
  requests w = [ShowThenCloseActive (demo_editor 1); ShowThenCloseActive (demo_editor 2)]
  /\ ~ (List.length (kept_editors w) = 1).
Proof. vm_compute. split; [reflexivity|discriminate]. Qed.

Lemma visible_editors_of_document_all_closed_witness :
  let w := set_visibleTextEditors [demo_editor 1; demo_editor 2]
             (demo_session (jsq "{}") true) in
  1 < List.length (visibleTextEditors w)
  /\ kept_editors (exec onDidChangeVisibleTextEditors w) = [].
Proof.
  intros w.
  assert (H : 1 < List.length (visibleTextEditors w)) by (simpl; lia).
  split; [exact H|].
  destruct (visible_editors_of_document_all_closed w) as (G & _).
  destruct (G H) as (_ & K). exact K.
Defined.

(** C8: a submission that does not parse makes the handler throw. *)
Lemma invalid_submission_throws :
  fst (onDidReceiveMessage (fromView (js "{invalid"))
         (demo_session (jsq "{'a':1}") true))
  = Throw (Error "Could not get document as json. Content is not valid json").
Proof. vm_compute. reflexivity. Qed.

Lemma onDidReceiveMessage_completion_witness :
  let w := demo_session (jsq "{'a':1}") true in
  (e_type noValidJson <> "vuejsoneditor.updateFromWebview"
   /\ fst (onDidReceiveMessage noValidJson w) = Normal tt)
  /\ (Validator (e_content (fromView (jsq "{'b':2}"))) <> None
      /\ (isValidJson w = true \/ jsonErrorMsg w <> None)
      /\ fst (onDidReceiveMessage (fromView (jsq "{'b':2}")) w) = Normal tt)
  /\ (Validator (e_content (fromView (js "not json"))) = None
      /\ doc_text (exec (onDidReceiveMessage (fromView (js "not json"))) w)
         = doc_text w).
Proof.
  intros w. split; [|split].
  - assert (H : e_type noValidJson <> "vuejsoneditor.updateFromWebview")
      by discriminate.
    split; [exact H|].
    destruct (onDidReceiveMessage_completion w noValidJson) as (G & _).
    exact (G H).
  - assert (H1 : Validator (e_content (fromView (jsq "{'b':2}"))) <> None)
      by (vm_compute; discriminate).
    assert (H2 : isValidJson w = true \/ jsonErrorMsg w <> None)
      by (left; reflexivity).
    split; [exact H1|]. split; [exact H2|].
    destruct (onDidReceiveMessage_completion w (fromView (jsq "{'b':2}")))
      as (_ & G & _).
    exact (G eq_refl H1 H2).
  - assert (H : Validator (e_content (fromView (js "not json"))) = None)
      by (vm_compute; reflexivity).
    split; [exact H|].
    destruct (onDidReceiveMessage_completion w (fromView (js "not json")))
      as (_ & _ & G).
    destruct (G eq_refl H) as (_ & _ & K). exact K.
Defined.

(** C9: the document holds [{"a":1}]; the initial message carries these
    seven characters, not the pretty-printed text. *)
Lemma initial_message_not_pretty_printed :
  let w := exec resolveCustomTextEditor (demo_host (jsq "{'a':1}") true []) in
  map msg_text (posted w) = [jsq "{'a':1}"]
  /\ map msg_text (posted w) <> [jsq "{" ++ 10%N :: jsq "    'a': 1" ++ 10%N :: jsq "}"].
Proof. vm_compute. split; [reflexivity|discriminate]. Qed.

Lemma initial_message_is_document_text_witness :
  let w := demo_host (jsq "{'a':1}") true [] in
  doc_text w = jsq "{'a':1}"
  /\ map msg_text (posted (exec resolveCustomTextEditor w)) = [jsq "{'a':1}"].
Proof.
  intros w. assert (H : doc_text w = jsq "{'a':1}") by reflexivity.
  split; [exact H|].
  destruct (initial_message_is_document_text w) as (_ & G).
  exact (G H).
Defined.

Lemma dispose_of_missing_notice_witness :
  let w := demo_session (jsq "{'a':1}") true in
  let bad := fromView (js "{invalid") in
  let good := fromView (jsq "{'b':2}") in
  jsonErrorMsg w = None
  /\ Validator (e_content bad) = None
  /\ Validator (e_content good) <> None
  /\ fst (onDidReceiveMessage good (exec (onDidReceiveMessage bad) w)) =
       Throw (TypeError "Cannot read properties of undefined (reading 'dispose')").
Proof.
  intros w bad good.
  assert (H1 : jsonErrorMsg w = None) by reflexivity.
  assert (H2 : Validator (e_content bad) = None) by (vm_compute; reflexivity).
  assert (H3 : Validator (e_content good) <> None) by (vm_compute; discriminate).
  repeat (split; [assumption|]).
  destruct (dispose_of_missing_notice w bad good eq_refl eq_refl H1 H2 H3)
    as (_ & _ & _ & G).
  exact G.
Defined.

(** * The further properties on sample sessions *)

Lemma foreign_or_empty_change_ignored_witness :
  let w := demo_session (jsq "{'a':1}") true in
  let e := changeOf "file:///other.form" None in
  (e_document_uri e <> doc_uri w \/ e_contentChanges e = 0)
  /\ onDidChangeTextDocument e w = (Normal tt, w).
Proof.
  intros w e.
  assert (H : e_document_uri e <> doc_uri w \/ e_contentChanges e = 0)
    by (left; vm_compute; discriminate).
  split; [exact H|]. exact (foreign_or_empty_change_ignored w e H).
Defined.

Lemma echo_flag_is_one_shot_witness :
  let w := demo_session (jsq "{'a':1}") true in
  let m := fromView (jsq "{'b':2}") in
  let e := changeOf demo_uri None in
  let w3 := run [DidReceiveMessage m; DidChangeTextDocument pretty_b2 e;
                 DidChangeTextDocument (jsq "{'c':3}") e] w in
  e_type m = "vuejsoneditor.updateFromWebview"
  /\ panel_visible w = true /\ changeDocumentSubscription w = true
  /\ is_plain_mutation w e
  /\ posted w3 = posted w ++ [{| msg_type := "vuejsoneditor.updateFromExtension";
                                 msg_text := jsq "{'c':3}" |}].
Proof.
  intros w m e w3.
  assert (H1 : e_type m = "vuejsoneditor.updateFromWebview") by reflexivity.
  assert (H2 : panel_visible w = true) by reflexivity.
  assert (H3 : changeDocumentSubscription w = true) by reflexivity.
  assert (H4 : is_plain_mutation w e)
    by (split; [reflexivity | split; [discriminate | reflexivity]]).
  split; [exact H1|]. split; [exact H2|]. split; [exact H3|]. split; [exact H4|].
  destruct (echo_flag_is_one_shot w m pretty_b2 (jsq "{'c':3}") e e H1 H2 H3 H4 H4)
    as (_ & G & _).
  exact G.
Defined.

Lemma noValidJson_creates_one_notice_witness :
  let w := demo_session (jsq "{'a':1}") true in
  let ms := [noValidJson; noValidJson; noValidJson] in
  isValidJson w = true /\ ms <> []
  /\ Forall (fun m => e_type m = "vuejsoneditor.noValidJson") ms
  /\ statusBar (run (map DidReceiveMessage ms) w) = [0].
Proof.
  intros w ms.
  assert (H1 : isValidJson w = true) by reflexivity.
  assert (H2 : ms <> []) by discriminate.
  assert (H3 : Forall (fun m => e_type m = "vuejsoneditor.noValidJson") ms)
    by (repeat constructor).
  split; [exact H1|]. split; [exact H2|]. split; [exact H3|].
  destruct (noValidJson_creates_one_notice w ms H1 H2 H3) as (G & _).
  exact G.
Defined.

Lemma notice_cleared_by_valid_submission_witness :
  let w := demo_session (jsq "{'a':1}") true in
  let m := fromView (jsq "{'b':2}") in
  let r := onDidReceiveMessage m (exec (onDidReceiveMessage noValidJson) w) in
  Validator (e_content m) = Some pretty_b2
  /\ isValidJson w = true
  /\ Forall (fun h => h < nextDisposable w) (statusBar w)
  /\ fst r = Normal tt /\ statusBar (snd r) = [] /\ doc_text (snd r) = pretty_b2.
Proof.
  intros w m r.
  assert (H1 : Validator (e_content m) = Some pretty_b2) by (vm_compute; reflexivity).
  assert (H2 : isValidJson w = true) by reflexivity.
  assert (H3 : Forall (fun h => h < nextDisposable w) (statusBar w)) by constructor.
  split; [exact H1|]. split; [exact H2|]. split; [exact H3|].
  destruct (notice_cleared_by_valid_submission w noValidJson m pretty_b2
              eq_refl eq_refl H1 H2 H3) as (_ & A & B & _ & C).
  repeat split; assumption.
Defined.

Lemma written_text_parses_witness :
  JSNumberLaws DecimalNumber
  /\ Validator (js "  ") = Some [34; 123; 125; 34]%N
  /\ Validator (jsq "{'b':2}") = Some pretty_b2
  /\ (exists v, JSON_parse [34; 123; 125; 34]%N = Some v)
  /\ (exists v, JSON_parse pretty_b2 = Some v).
Proof.
  assert (H1 : Validator (js "  ") = Some [34; 123; 125; 34]%N)
    by (vm_compute; reflexivity).
  assert (H2 : Validator (jsq "{'b':2}") = Some pretty_b2)
    by (vm_compute; reflexivity).
  split; [exact DecimalNumber_laws|]. split; [exact H1|]. split; [exact H2|].
  split.
  - exact (written_text_parses (js "  ") _ DecimalNumber_laws H1).
  - exact (written_text_parses (jsq "{'b':2}") _ DecimalNumber_laws H2).
Defined.

Lemma submission_preserves_value_witness :
  let w := demo_session (jsq "{'a':1}") true in
  let m := fromView (jsq "{'b':2}") in
  let v := JObj [(js "b", JNum {| Decimal.neg := false; Decimal.mant := 2;
                                  Decimal.exp10 := 0 |})] in
  JSNumberLaws DecimalNumber
  /\ JSON_parse (e_content m) = Some v
  /\ JSON_parse (doc_text (exec (onDidReceiveMessage m) w)) = Some (reread v).
Proof.
  intros w m v.
  assert (H : JSON_parse (e_content m) = Some v) by (vm_compute; reflexivity).
  split; [exact DecimalNumber_laws|]. split; [exact H|].
  destruct (submission_preserves_value w m v DecimalNumber_laws eq_refl H)
    as (_ & _ & G).
  exact G.
Defined.


Lemma stale_flag_breaks_new_session_witness :
  let w := set_isValidJson false (demo_host (jsq "{'a':1}") true []) in
  let m := fromView (jsq "{'b':2}") in
  isValidJson w = false
  /\ Validator (e_content m) = Some pretty_b2
  /\ fst (onDidReceiveMessage m (exec resolveCustomTextEditor w)) =
       Throw (TypeError "Cannot read properties of undefined (reading 'dispose')").
Proof.
  intros w m.
  assert (H1 : isValidJson w = false) by reflexivity.
  assert (H2 : Validator (e_content m) = Some pretty_b2) by (vm_compute; reflexivity).
  split; [exact H1|]. split; [exact H2|].
  destruct (stale_flag_breaks_new_session w m pretty_b2 H1 eq_refl H2) as (G & _).
  exact G.
Defined.


Lemma only_own_editors_closed_witness :
  let other := {| editor_id := 7; editor_uri := "file:///other.txt";
                  editor_fileName := "/other.txt" |} in
  let w := set_visibleTextEditors [demo_editor 1; other]
             (demo_session (jsq "{'a':1}") true) in
  let r := ShowThenCloseActive (demo_editor 1) in
  (In r (requests (exec onDidChangeVisibleTextEditors w))
   \/ In r (requests (exec onDidDispose w)))
  /\ (In r (requests w)
      \/ exists ed, r = ShowThenCloseActive ed
                    /\ In ed (visibleTextEditors w)
                    /\ editor_fileName ed = doc_fileName w).
Proof.
  intros other w r.
  assert (H : In r (requests (exec onDidChangeVisibleTextEditors w))
              \/ In r (requests (exec onDidDispose w)))
    by (left; vm_compute; left; reflexivity).
  split; [exact H|]. exact (only_own_editors_closed w r H).
Defined.

Lemma edits_only_by_submission_witness :
  let w := exec (onDidReceiveMessage (fromView (jsq "{'b':2}")))
             (demo_session (jsq "{'a':1}") true) in
  let ev := DidReceiveMessage noValidJson in
  ~ writes_document ev
  /\ In (ApplyEdit demo_uri pretty_b2) (requests (dispatch ev w))
  /\ In (ApplyEdit demo_uri pretty_b2) (requests w).
Proof.
  intros w ev.
  assert (H1 : ~ writes_document ev) by (intros [H _]; discriminate H).
  assert (H2 : In (ApplyEdit demo_uri pretty_b2) (requests (dispatch ev w)))
    by (vm_compute; left; reflexivity).
  split; [exact H1|]. split; [exact H2|].
  exact (edits_only_by_submission ev w demo_uri pretty_b2 H1 H2).
Defined.

Lemma visibility_changes_post_nothing_witness :
  let w := demo_session (jsq "{'a':1}") true in
  let vs := [false; true; false; true] in
  isBuffer w = false
  /\ posted (run (map DidChangeViewState vs) w) = posted w.
Proof.
  intros w vs. assert (H : isBuffer w = false) by reflexivity.
  split; [exact H|].
  destruct (visibility_changes_post_nothing vs w H) as (G & _). exact G.
Defined.

Lemma hidden_submission_loses_next_change_witness :
  let w := demo_session (jsq "{'a':1}") false in
  let m := fromView (jsq "{'b':2}") in
  let e := changeOf demo_uri None in
  let w3 := run [DidReceiveMessage m; DidChangeTextDocument pretty_b2 e;
                 DidChangeViewState true] w in
  let w4 := dispatch (DidChangeTextDocument (jsq "{'c':3}") e) w3 in
  Validator (e_content m) = Some pretty_b2
  /\ panel_visible w = false /\ changeDocumentSubscription w = true
  /\ is_plain_mutation w e
  /\ posted w4 = posted w3 /\ doc_text w4 = jsq "{'c':3}".
Proof.
  intros w m e w3 w4.
  assert (H1 : Validator (e_content m) = Some pretty_b2) by (vm_compute; reflexivity).
  assert (H2 : panel_visible w = false) by reflexivity.
  assert (H3 : changeDocumentSubscription w = true) by reflexivity.
  assert (H4 : is_plain_mutation w e)
    by (split; [reflexivity | split; [discriminate | reflexivity]]).
  split; [exact H1|]. split; [exact H2|]. split; [exact H3|]. split; [exact H4|].
  destruct (hidden_submission_loses_next_change w m pretty_b2 (jsq "{'c':3}") e e
              eq_refl H1 H2 H3 H4 H4) as (_ & A & B).
  split; [exact A|exact B].
Defined.
